(** * RoK title bot: tracker, recovery, state classifier and chat parser

    A shallow embedding of the parts of the bot that the specification
    makes claims about:

    - [roktracker/utils/title_tracker.py]  (module [Tracker])
    - [roktracker/utils/game_state.py]     (modules [GameState], [Recovery])
    - [title_bot.py]                       (module [TitleBot])
    - [roktracker/utils/vision_system.py]  (module [ChatParser])

    Python values are modelled as follows.  A [str] is a list of Unicode
    code points ([N]); [int] is [Z]; [time.time()] is an explicit clock
    reading in seconds, an exact number; a [dict] is a [gmap]; an object
    with mutable fields is a record that is threaded through the calls.
    What the code takes from the Unicode database for code points above
    127 is a parameter (class [UnicodeData]); the ASCII range is written
    out. *)

From Stdlib Require Import ZArith NArith QArith Lia Lqa String Ascii List Bool.
From stdpp Require Import gmap strings list.

Close Scope Q_scope.
Local Open Scope Z_scope.

(** ** Python strings *)

Module PyStr.

(** A [str]: the sequence of its code points. *)
Definition str : Type := list N.

(** An ASCII literal. *)
Definition lit (s : string) : str :=
  map N_of_ascii (list_ascii_of_string s).

(** The tables of the Unicode database for code points above 127, as
    [unicodedata], [str] and [re] consult them. *)
Class UnicodeData := {
  (** [unicodedata.category(c)], two letters *)
  ud_category : N -> string;
  (** [c.isspace()], also what [\s] matches *)
  ud_isspace : N -> bool;
  ud_isalpha : N -> bool;
  (** [c.isalnum()]; [\w] is this or the underscore *)
  ud_isalnum : N -> bool;
  ud_isupper : N -> bool;
  (** [s.lower()] of a string that has a code point above 127 *)
  ud_lower : str -> str;
  (** the form [re] compares under [re.IGNORECASE] *)
  ud_casefold : N -> N;
}.

Definition is_ascii (c : N) : bool := (c <? 128)%N.

Definition in_range (lo hi c : N) : bool := ((lo <=? c) && (c <=? hi))%N.

Definition is_ascii_upper (c : N) : bool := in_range 65 90 c.
Definition is_ascii_lower (c : N) : bool := in_range 97 122 c.
Definition is_ascii_digit (c : N) : bool := in_range 48 57 c.
Definition is_ascii_letter (c : N) : bool := is_ascii_upper c || is_ascii_lower c.

Definition ascii_lower (c : N) : N :=
  if is_ascii_upper c then (c + 32)%N else c.

(** The general category of an ASCII code point. *)
Definition ascii_category (c : N) : string :=
  if in_range 0 31 c || (c =? 127)%N then "Cc"%string
  else if (c =? 32)%N then "Zs"%string
  else if is_ascii_digit c then "Nd"%string
  else if is_ascii_upper c then "Lu"%string
  else if is_ascii_lower c then "Ll"%string
  else if (c =? 36)%N then "Sc"%string
  else if existsb (N.eqb c) [43; 60; 61; 62; 124; 126]%N then "Sm"%string
  else if existsb (N.eqb c) [94; 96]%N then "Sk"%string
  else if (c =? 95)%N then "Pc"%string
  else if (c =? 45)%N then "Pd"%string
  else if existsb (N.eqb c) [40; 91; 123]%N then "Ps"%string
  else if existsb (N.eqb c) [41; 93; 125]%N then "Pe"%string
  else "Po"%string.

(** Drop the longest prefix whose characters satisfy [p]. *)
Fixpoint drop_while (p : N -> bool) (s : str) : str :=
  match s with
  | [] => []
  | c :: s' => if p c then drop_while p s' else s
  end.

Section WithUnicode.
Context `{UnicodeData}.

Definition category (c : N) : string :=
  if is_ascii c then ascii_category c else ud_category c.

Definition isspace (c : N) : bool :=
  if is_ascii c then in_range 9 13 c || in_range 28 32 c else ud_isspace c.

Definition isalpha (c : N) : bool :=
  if is_ascii c then is_ascii_letter c else ud_isalpha c.

Definition isalnum (c : N) : bool :=
  if is_ascii c then is_ascii_letter c || is_ascii_digit c else ud_isalnum c.

Definition isupper (c : N) : bool :=
  if is_ascii c then is_ascii_upper c else ud_isupper c.

(** [s.lower()] *)
Definition lower (s : str) : str :=
  if forallb is_ascii s then map ascii_lower s else ud_lower s.

(** [s.lstrip()], [s.rstrip()], [s.strip()] *)
Definition lstrip (s : str) : str := drop_while isspace s.
Definition rstrip (s : str) : str := rev (drop_while isspace (rev s)).
Definition strip (s : str) : str := rstrip (lstrip s).

(** [s.split()]: the maximal runs of characters that are not spaces *)
Fixpoint split_ws_go (cur : str) (s : str) : list str :=
  match s with
  | [] => if cur is [] then [] else [rev cur]
  | c :: s' =>
      if isspace c
      then (if cur is [] then split_ws_go [] s' else rev cur :: split_ws_go [] s')
      else split_ws_go (c :: cur) s'
  end.
Definition split_ws (s : str) : list str := split_ws_go [] s.

(** [s.isalpha()] *)
Definition str_isalpha (s : str) : bool :=
  negb (Nat.eqb (length s) 0) && forallb isalpha s.

End WithUnicode.

Definition str_eqb (a b : str) : bool := bool_decide (a = b).

(** [s.startswith(p)] *)
Fixpoint startswith (p s : str) : bool :=
  match p, s with
  | [], _ => true
  | a :: p', b :: s' => (a =? b)%N && startswith p' s'
  | _ :: _, [] => false
  end.

(** [sub in s] *)
Fixpoint contains (sub s : str) : bool :=
  startswith sub s || (if s is _ :: s' then contains sub s' else false).

(** [s.find(sub)], with [None] for [-1] *)
Fixpoint find (sub s : str) : option nat :=
  if startswith sub s then Some 0%nat
  else match s with
       | [] => None
       | _ :: s' => option_map S (find sub s')
       end.

(** [s.replace(old, new)] for a non-empty [old]: the occurrences are
    replaced from the left, without overlap.  [skip] counts the
    characters of an occurrence that are still to be dropped. *)
Fixpoint replace_go (old new : str) (skip : nat) (s : str) : str :=
  match s with
  | [] => []
  | c :: s' =>
      match skip with
      | S k => replace_go old new k s'
      | O => if startswith old s
             then new ++ replace_go old new (length old - 1) s'
             else c :: replace_go old new 0 s'
      end
  end.
Definition replace (old new s : str) : str := replace_go old new 0 s.

(** [s.split(sep)] for a non-empty [sep] *)
Fixpoint split_go (sep : str) (skip : nat) (cur : str) (s : str) : list str :=
  match s with
  | [] => [rev cur]
  | c :: s' =>
      match skip with
      | S k => split_go sep k cur s'
      | O => if startswith sep s
             then rev cur :: split_go sep (length sep - 1) [] s'
             else split_go sep 0 (c :: cur) s'
      end
  end.
Definition split (sep s : str) : list str := split_go sep 0 [] s.

(** [sep.join(parts)] *)
Fixpoint join (sep : str) (parts : list str) : str :=
  match parts with
  | [] => []
  | [p] => p
  | p :: rest => p ++ sep ++ join sep rest
  end.

(** [s[a:b]] for [0 <= a], [0 <= b] *)
Definition slice (a b : nat) (s : str) : str := take (b - a) (drop a s).

End PyStr.

(** ** [hashlib.md5(s.encode()).hexdigest()] *)

Module MD5.
Import PyStr.

(** UTF-8, as [str.encode()] produces it for Unicode scalar values
    (a lone surrogate makes Python raise; OCR text has none). *)
Definition utf8_char (c : Z) : list Z :=
  if c <? 0x80 then [c]
  else if c <? 0x800 then [0xC0 + c / 64; 0x80 + c mod 64]
  else if c <? 0x10000 then
    [0xE0 + c / 4096; 0x80 + (c / 64) mod 64; 0x80 + c mod 64]
  else [0xF0 + c / 262144; 0x80 + (c / 4096) mod 64;
        0x80 + (c / 64) mod 64; 0x80 + c mod 64].

Definition encode (s : str) : list Z :=
  flat_map (fun c => utf8_char (Z.of_N c)) s.

Definition S_tab : list Z :=
  [7; 12; 17; 22; 7; 12; 17; 22; 7; 12; 17; 22; 7; 12; 17; 22;
   5; 9; 14; 20; 5; 9; 14; 20; 5; 9; 14; 20; 5; 9; 14; 20;
   4; 11; 16; 23; 4; 11; 16; 23; 4; 11; 16; 23; 4; 11; 16; 23;
   6; 10; 15; 21; 6; 10; 15; 21; 6; 10; 15; 21; 6; 10; 15; 21].

Definition K_tab : list Z :=
  [0xd76aa478; 0xe8c7b756; 0x242070db; 0xc1bdceee;
   0xf57c0faf; 0x4787c62a; 0xa8304613; 0xfd469501;
   0x698098d8; 0x8b44f7af; 0xffff5bb1; 0x895cd7be;
   0x6b901122; 0xfd987193; 0xa679438e; 0x49b40821;
   0xf61e2562; 0xc040b340; 0x265e5a51; 0xe9b6c7aa;
   0xd62f105d; 0x02441453; 0xd8a1e681; 0xe7d3fbc8;
   0x21e1cde6; 0xc33707d6; 0xf4d50d87; 0x455a14ed;
   0xa9e3e905; 0xfcefa3f8; 0x676f02d9; 0x8d2a4c8a;
   0xfffa3942; 0x8771f681; 0x6d9d6122; 0xfde5380c;
   0xa4beea44; 0x4bdecfa9; 0xf6bb4b60; 0xbebfbc70;
   0x289b7ec6; 0xeaa127fa; 0xd4ef3085; 0x04881d05;
   0xd9d4d039; 0xe6db99e5; 0x1fa27cf8; 0xc4ac5665;
   0xf4292244; 0x432aff97; 0xab9423a7; 0xfc93a039;
   0x655b59c3; 0x8f0ccc92; 0xffeff47d; 0x85845dd1;
   0x6fa87e4f; 0xfe2ce6e0; 0xa3014314; 0x4e0811a1;
   0xf7537e82; 0xbd3af235; 0x2ad7d2bb; 0xeb86d391].

Definition w32 (x : Z) : Z := x mod 2 ^ 32.
Definition not32 (x : Z) : Z := Z.lxor x 0xffffffff.
Definition rotl32 (x n : Z) : Z :=
  Z.lor (w32 (Z.shiftl x n)) (Z.shiftr x (32 - n)).

Fixpoint le_bytes (n : nat) (x : Z) : list Z :=
  match n with
  | O => []
  | S n' => x mod 256 :: le_bytes n' (x / 256)
  end.

Definition pad (msg : list Z) : list Z :=
  let len := Z.of_nat (length msg) in
  msg ++ [0x80] ++ repeat 0 (Z.to_nat ((55 - len) mod 64))
      ++ le_bytes 8 (8 * len).

Fixpoint words (bs : list Z) : list Z :=
  match bs with
  | b0 :: b1 :: b2 :: b3 :: r =>
      (b0 + b1 * 2 ^ 8 + b2 * 2 ^ 16 + b3 * 2 ^ 24) :: words r
  | _ => []
  end.

Definition round (M : list Z) (st : Z * Z * Z * Z) (i : nat) : Z * Z * Z * Z :=
  let '(A, B, C, D) := st in
  let iz := Z.of_nat i in
  let '(F, g) :=
    if iz <? 16 then (Z.lor (Z.land B C) (Z.land (not32 B) D), iz)
    else if iz <? 32 then
      (Z.lor (Z.land D B) (Z.land (not32 D) C), (5 * iz + 1) mod 16)
    else if iz <? 48 then (Z.lxor (Z.lxor B C) D, (3 * iz + 5) mod 16)
    else (Z.lxor C (Z.lor B (not32 D)), (7 * iz) mod 16) in
  let F' := w32 (F + A + nth i K_tab 0 + nth (Z.to_nat g) M 0) in
  (D, w32 (B + rotl32 F' (nth i S_tab 0)), B, C).

Definition block (st : Z * Z * Z * Z) (M : list Z) : Z * Z * Z * Z :=
  let '(a0, b0, c0, d0) := st in
  let '(A, B, C, D) := fold_left (round M) (seq 0 64) st in
  (w32 (a0 + A), w32 (b0 + B), w32 (c0 + C), w32 (d0 + D)).

Fixpoint blocks (fuel : nat) (st : Z * Z * Z * Z) (ws : list Z) : Z * Z * Z * Z :=
  match fuel, ws with
  | S f, _ :: _ => blocks f (block st (take 16 ws)) (drop 16 ws)
  | _, _ => st
  end.

Definition hex_digit (d : Z) : N :=
  Z.to_N (if d <? 10 then 48 + d else 87 + d).

Definition hex_byte (b : Z) : str := [hex_digit (b / 16); hex_digit (b mod 16)].

Definition md5_hexdigest (s : str) : str :=
  let ws := words (pad (encode s)) in
  let '(a, b, c, d) :=
    blocks (length ws) (0x67452301, 0xefcdab89, 0x98badcfe, 0x10325476) ws in
  flat_map hex_byte (le_bytes 4 a ++ le_bytes 4 b ++ le_bytes 4 c ++ le_bytes 4 d).

End MD5.

(** ** [title_tracker.py]: the title request tracker *)

Module Tracker.
Import PyStr.

(** [TitleRequest] *)
Record TitleRequest := {
  req_player_name : str;
  req_alliance_tag : str;
  req_title_type : str;
  req_timestamp : Z;
  was_granted : bool;
  granted_at : option Z;
}.

(** [PlayerTitleStats] *)
Record PlayerTitleStats := {
  player_name : str;
  alliance_tag : str;
  governor_id : option str;
  duke_requests : Z;
  scientist_requests : Z;
  architect_requests : Z;
  justice_requests : Z;
  duke_grants : Z;
  scientist_grants : Z;
  architect_grants : Z;
  justice_grants : Z;
  first_request : option Z;
  last_request : option Z;
  total_requests : Z;
  total_grants : Z;
  recent_request_times : list Z;
}.

(** [PlayerTitleStats(player_name=..., alliance_tag=...)] *)
Definition new_stats (name tag : str) : PlayerTitleStats :=
  {| player_name := name; alliance_tag := tag; governor_id := None;
     duke_requests := 0; scientist_requests := 0;
     architect_requests := 0; justice_requests := 0;
     duke_grants := 0; scientist_grants := 0;
     architect_grants := 0; justice_grants := 0;
     first_request := None; last_request := None;
     total_requests := 0; total_grants := 0;
     recent_request_times := [] |}.

Definition bump (title_type which : str) (n : Z) : Z :=
  if str_eqb title_type which then n + 1 else n.

(** [PlayerTitleStats.add_request] *)
Definition add_request (st : PlayerTitleStats) (title_type : str) (timestamp : Z)
  : PlayerTitleStats :=
  let hour_ago := timestamp - 3600 in
  {| player_name := player_name st; alliance_tag := alliance_tag st;
     governor_id := governor_id st;
     duke_requests := bump title_type (lit "duke") (duke_requests st);
     scientist_requests := bump title_type (lit "scientist") (scientist_requests st);
     architect_requests := bump title_type (lit "architect") (architect_requests st);
     justice_requests := bump title_type (lit "justice") (justice_requests st);
     duke_grants := duke_grants st; scientist_grants := scientist_grants st;
     architect_grants := architect_grants st; justice_grants := justice_grants st;
     first_request :=
       (if first_request st is None then Some timestamp else first_request st);
     last_request := Some timestamp;
     total_requests := total_requests st + 1;
     total_grants := total_grants st;
     recent_request_times :=
       List.filter (fun t => hour_ago <? t) (recent_request_times st) ++ [timestamp] |}.

(** [PlayerTitleStats.add_grant] *)
Definition add_grant (st : PlayerTitleStats) (title_type : str) (timestamp : Z)
  : PlayerTitleStats :=
  {| player_name := player_name st; alliance_tag := alliance_tag st;
     governor_id := governor_id st;
     duke_requests := duke_requests st; scientist_requests := scientist_requests st;
     architect_requests := architect_requests st;
     justice_requests := justice_requests st;
     duke_grants := bump title_type (lit "duke") (duke_grants st);
     scientist_grants := bump title_type (lit "scientist") (scientist_grants st);
     architect_grants := bump title_type (lit "architect") (architect_grants st);
     justice_grants := bump title_type (lit "justice") (justice_grants st);
     first_request := first_request st; last_request := last_request st;
     total_requests := total_requests st;
     total_grants := total_grants st + 1;
     recent_request_times := recent_request_times st |}.

Definition set_alliance_tag (st : PlayerTitleStats) (tag : str) : PlayerTitleStats :=
  {| player_name := player_name st; alliance_tag := tag;
     governor_id := governor_id st;
     duke_requests := duke_requests st; scientist_requests := scientist_requests st;
     architect_requests := architect_requests st;
     justice_requests := justice_requests st;
     duke_grants := duke_grants st; scientist_grants := scientist_grants st;
     architect_grants := architect_grants st; justice_grants := justice_grants st;
     first_request := first_request st; last_request := last_request st;
     total_requests := total_requests st; total_grants := total_grants st;
     recent_request_times := recent_request_times st |}.

(** The dictionary [counts] of [favorite_title], in the order of its keys. *)
Definition title_counts (st : PlayerTitleStats) : list (str * Z) :=
  [(lit "duke", duke_requests st); (lit "scientist", scientist_requests st);
   (lit "architect", architect_requests st); (lit "justice", justice_requests st)].

(** [max(counts, key=lambda k: counts[k])]: the first key among those
    with the greatest count. *)
Definition max_by_count (first : str * Z) (rest : list (str * Z)) : str :=
  fst (fold_left (fun best kv => if snd best <? snd kv then kv else best)
         rest first).

(** [PlayerTitleStats.favorite_title] *)
Definition favorite_title (st : PlayerTitleStats) : str :=
  if existsb (fun kv : str * Z => negb (snd kv =? 0)) (title_counts st)
  then match title_counts st with
       | first :: rest => max_by_count first rest
       | [] => []
       end
  else lit "none".

(** The requests of a player that are counted under one of the four
    titles. *)
Definition counted (st : PlayerTitleStats) : Z :=
  duke_requests st + scientist_requests st
  + architect_requests st + justice_requests st.

(** The fields of [TitleRequestTracker] that the calls read and write.
    [_save_data] and [_sync_to_api] write a file and a log line and leave
    these fields alone; they are not part of the state. *)
Record TitleRequestTracker := {
  player_stats : gmap str PlayerTitleStats;
  recent_requests : list TitleRequest;
  seen_messages : gmap str Z;
  seen_messages_ttl : Z;
  session_requests : Z;
  session_grants : Z;
}.

(** The fields as [__init__] sets them, with no stats file to load. *)
Definition init : TitleRequestTracker :=
  {| player_stats := ∅; recent_requests := []; seen_messages := ∅;
     seen_messages_ttl := 3600; session_requests := 0; session_grants := 0 |}.

Definition set_seen (self : TitleRequestTracker) (seen : gmap str Z)
  : TitleRequestTracker :=
  {| player_stats := player_stats self; recent_requests := recent_requests self;
     seen_messages := seen; seen_messages_ttl := seen_messages_ttl self;
     session_requests := session_requests self;
     session_grants := session_grants self |}.

(** The status message of [track_request], as the arguments of its
    format string. *)
Inductive Message :=
| AlreadySeen (player_name title_type : str) (first_seen now : Z)
| Tracked (alliance_tag player_name title_type : str).

Section WithUnicode.
Context `{UnicodeData}.

(** [_normalize_name] *)
Definition _normalize_name (name : str) : str := strip (lower name).

(** [_get_message_hash] *)
Definition _get_message_hash (player_name title_type : str) : str :=
  MD5.md5_hexdigest (_normalize_name player_name ++ lit ":" ++ lower title_type).

(** [reset_seen_messages] *)
Definition reset_seen_messages (self : TitleRequestTracker) : TitleRequestTracker :=
  set_seen self ∅.

(** [clear_player_from_seen] *)
Definition clear_player_from_seen (self : TitleRequestTracker)
    (player_name : str) (title_type : option str) : TitleRequestTracker :=
  match title_type with
  | Some t =>
      if bool_decide (t = []) then
        set_seen self
          (fold_left (fun seen title => delete (_get_message_hash player_name title) seen)
             [lit "duke"; lit "scientist"; lit "architect"; lit "justice"]
             (seen_messages self))
      else set_seen self (delete (_get_message_hash player_name t) (seen_messages self))
  | None =>
      set_seen self
        (fold_left (fun seen title => delete (_get_message_hash player_name title) seen)
           [lit "duke"; lit "scientist"; lit "architect"; lit "justice"]
           (seen_messages self))
  end.

(** [_cleanup_seen_messages] *)
Definition _cleanup_seen_messages (self : TitleRequestTracker) (current_time : Z)
  : TitleRequestTracker :=
  let cutoff := current_time - seen_messages_ttl self in
  set_seen self (filter (fun kv : str * Z => cutoff < kv.2) (seen_messages self)).

(** [track_request]; [timestamp] is what [time.time()] returns. *)
Definition track_request (self : TitleRequestTracker) (timestamp : Z)
    (player_name alliance_tag title_type : str)
  : TitleRequestTracker * (bool * Message) :=
  let normalized_name := _normalize_name player_name in
  let msg_hash := _get_message_hash player_name title_type in
  let self :=
    if bool_decide (100 < size (seen_messages self))%nat
    then _cleanup_seen_messages self timestamp else self in
  match seen_messages self !! msg_hash with
  | Some first_seen =>
      (self, (false, AlreadySeen player_name title_type first_seen timestamp))
  | None =>
      let seen := <[msg_hash := timestamp]> (seen_messages self) in
      let cutoff := timestamp - 120 in
      let request :=
        {| req_player_name := player_name; req_alliance_tag := alliance_tag;
           req_title_type := title_type; req_timestamp := timestamp;
           was_granted := false; granted_at := None |} in
      let recent :=
        List.filter (fun r => cutoff <? req_timestamp r) (recent_requests self)
          ++ [request] in
      let stats :=
        match player_stats self !! normalized_name with
        | Some st => st
        | None => new_stats player_name alliance_tag
        end in
      let stats :=
        if negb (bool_decide (alliance_tag = []))
           && negb (str_eqb alliance_tag (Tracker.alliance_tag stats))
        then set_alliance_tag stats alliance_tag else stats in
      let stats := add_request stats title_type timestamp in
      ({| player_stats := <[normalized_name := stats]> (player_stats self);
          recent_requests := recent;
          seen_messages := seen;
          seen_messages_ttl := seen_messages_ttl self;
          session_requests := session_requests self + 1;
          session_grants := session_grants self |},
       (true, Tracked alliance_tag player_name title_type))
  end.

(** The cache that [track_request] looks the hash up in: cleaned when it
    holds more than 100 entries. *)
Definition cache_at (self : TitleRequestTracker) (timestamp : Z) : gmap str Z :=
  seen_messages
    (if bool_decide (100 < size (seen_messages self))%nat
     then _cleanup_seen_messages self timestamp else self).

(** The loop of [record_grant] over [reversed(self.recent_requests)]:
    the last request of the player for the title that is not yet granted
    is marked.  The list is given in reverse. *)
Fixpoint mark_granted (normalized_name title_type : str) (now : Z)
    (rev_requests : list TitleRequest) : list TitleRequest :=
  match rev_requests with
  | [] => []
  | req :: rest =>
      if str_eqb (_normalize_name (req_player_name req)) normalized_name
         && str_eqb (req_title_type req) title_type
         && negb (was_granted req)
      then {| req_player_name := req_player_name req;
              req_alliance_tag := req_alliance_tag req;
              req_title_type := req_title_type req;
              req_timestamp := req_timestamp req;
              was_granted := true; granted_at := Some now |} :: rest
      else req :: mark_granted normalized_name title_type now rest
  end.

(** [record_grant]; [now] is what [time.time()] returns. *)
Definition record_grant (self : TitleRequestTracker) (now : Z)
    (player_name title_type : str) : TitleRequestTracker * bool :=
  let normalized_name := _normalize_name player_name in
  match player_stats self !! normalized_name with
  | None => (self, false)
  | Some stats =>
      let stats := add_grant stats title_type now in
      ({| player_stats := <[normalized_name := stats]> (player_stats self);
          recent_requests :=
            rev (mark_granted normalized_name title_type now
                   (rev (recent_requests self)));
          seen_messages :=
            delete (_get_message_hash player_name title_type) (seen_messages self);
          seen_messages_ttl := seen_messages_ttl self;
          session_requests := session_requests self;
          session_grants := session_grants self + 1 |}, true)
  end.

(** [get_queue] *)
Definition get_queue (self : TitleRequestTracker) : list TitleRequest :=
  List.filter (fun r => negb (was_granted r)) (recent_requests self).

(** [get_player_stats] *)
Definition get_player_stats (self : TitleRequestTracker) (player_name : str)
  : option PlayerTitleStats :=
  player_stats self !! _normalize_name player_name.

(** A call of one of the methods that change the tracker, with what
    [time.time()] returns during the call. *)
Inductive Call :=
| TrackRequest (now : Z) (player_name alliance_tag title_type : str)
| RecordGrant (now : Z) (player_name title_type : str)
| ClearPlayerFromSeen (player_name : str) (title_type : option str)
| ResetSeenMessages.

Definition call (self : TitleRequestTracker) (c : Call) : TitleRequestTracker :=
  match c with
  | TrackRequest now p tag k => fst (track_request self now p tag k)
  | RecordGrant now p k => fst (record_grant self now p k)
  | ClearPlayerFromSeen p k => clear_player_from_seen self p k
  | ResetSeenMessages => reset_seen_messages self
  end.

(** The tracker after a sequence of calls on a fresh one. *)
Definition calls (cs : list Call) : TitleRequestTracker :=
  fold_left call cs init.

(** What holds of the statistics stored under [key]. *)
Record stats_ok (key : str) (st : PlayerTitleStats) : Prop := {
  ok_key : key = _normalize_name (player_name st);
  ok_total : 1 <= total_requests st;
  ok_counted : 0 <= counted st <= total_requests st;
  ok_grants : 0 <= total_grants st;
  ok_first : is_Some (first_request st);
  ok_last : exists t,
    last_request st = Some t
    /\ last (recent_request_times st) = Some t
    /\ Forall (fun u => t - 3600 < u) (recent_request_times st);
}.

End WithUnicode.

End Tracker.

(** ** Exceptions and floats *)

Module Py.

Inductive exn :=
| AttributeError | ValueError | IndexError | cv2_error | OtherError.

(** The outcome of a call that can raise. *)
Inductive result (A : Type) :=
| Ok (a : A)
| Raise (e : exn).
Arguments Ok {A} a.
Arguments Raise {A} e.

Definition bind {A B : Type} (m : result A) (k : A -> result B) : result B :=
  match m with
  | Ok a => k a
  | Raise e => Raise e
  end.

(** [try: m  except Exception: d] *)
Definition try_except {A : Type} (m : result A) (d : A) : A :=
  match m with
  | Ok a => a
  | Raise _ => d
  end.

End Py.

#[export] Instance result_bind : MBind Py.result :=
  fun A B k m => Py.bind m k.
#[export] Instance result_fmap : FMap Py.result :=
  fun A B f m => Py.bind m (fun a => Py.Ok (f a)).

(** A [float] that a statistic of pixel values produces: an exact
    rational, or [nan] (the mean of no values).  The rounding of binary
    floating point is outside the model. *)
Module Num.
Local Open Scope Q_scope.

Definition num : Type := option Q.

Definition Qltb (x y : Q) : bool :=
  (Qnum x * Z.pos (Qden y) <? Qnum y * Z.pos (Qden x))%Z.

(** [x < y]; a comparison with [nan] is false. *)
Definition lt (x y : num) : bool :=
  match x, y with
  | Some a, Some b => Qltb a b
  | _, _ => false
  end.
Definition gt (x y : num) : bool := lt y x.

Definition const (q : Q) : num := Some q.
Definition of_Z (z : Z) : num := Some (inject_Z z).

Definition add (x y : num) : num :=
  match x, y with
  | Some a, Some b => Some (a + b)%Q
  | _, _ => None
  end.
Definition mul (x y : num) : num :=
  match x, y with
  | Some a, Some b => Some (a * b)%Q
  | _, _ => None
  end.

(** [total / count], [nan] for no values *)
Definition ratio (total count : Z) : num :=
  if (count <=? 0)%Z then None else Some (total # Z.to_pos count).

(** The variance of [count] values with sum [total] and sum of squares
    [squares]. *)
Definition variance (total squares count : Z) : num :=
  if (count <=? 0)%Z then None
  else Some ((count * squares - total * total) # Z.to_pos (count * count)).

(** [sqrt x > r] for [0 <= x] *)
Definition sqrt_gt (x r : Q) : bool :=
  Qltb r 0 || Qltb (r * r) x.

(** [sqrt x + sqrt y > r] for [0 <= x], [0 <= y]: square both sides *)
Definition sqrt2_gt (x y r : Q) : bool :=
  Qltb r 0 || sqrt_gt (4 * x * y) (r * r - x - y).

(** [sqrt x + sqrt y + sqrt z > r] for non-negative [x], [y], [z] *)
Definition sqrt3_gt (x y z r : Q) : bool :=
  if Qltb r 0 then true
  else if Qltb (r * r) z then true
  else if Qeq_bool (r * r) z then Qltb 0 x || Qltb 0 y
  else sqrt2_gt (4 * x * y) (4 * r * r * z) (r * r + z - x - y).

(** [np.std] of a sample, kept as its variance *)
Definition std_lt (var : num) (t : Q) : bool :=
  match var with
  | Some v => Qltb 0 t && Qltb v (t * t)
  | None => false
  end.
Definition std_gt (var : num) (t : Q) : bool :=
  match var with
  | Some v => sqrt_gt v t
  | None => false
  end.
Definition std3_sum_gt (v1 v2 v3 : num) (t : Q) : bool :=
  match v1, v2, v3 with
  | Some a, Some b, Some c => sqrt3_gt a b c t
  | _, _, _ => false
  end.

End Num.

(** ** Screenshots: [numpy] arrays of pixels *)

Module Image.
Import Py.

(** An array of [uint8] with two or three axes: [height] rows, [width]
    columns and, with three axes, [depth = Some d] channels per pixel
    (B, G, R for a colour screenshot).  [px r c k] is the value at row
    [r], column [c], channel [k].  A slice is again such an array. *)
Record Frame := {
  height : Z;
  width : Z;
  depth : option Z;
  px : Z -> Z -> Z -> Z;
}.

(** What [detect_state] can be handed as [screen]. *)
Inductive Screen :=
| NoneType                  (** [None] *)
| Array0                    (** an array without axes, as [np.array(None)] *)
| Array1 (n : Z)           (** an array with one axis *)
| Img (f : Frame).

(** A single-channel image, as [cv2.cvtColor(_, COLOR_BGR2GRAY)] returns. *)
Record Gray := {
  g_height : Z;
  g_width : Z;
  g_px : Z -> Z -> Z;
}.

(** The colour conversions of OpenCV, pixel by pixel. *)
Class OpenCV := {
  (** [COLOR_BGR2GRAY] of one pixel (b, g, r) *)
  bgr2gray : Z -> Z -> Z -> Z;
  (** [COLOR_BGR2HSV] of one pixel *)
  bgr2hsv : Z -> Z -> Z -> Z * Z * Z;
}.

(** A screenshot of the emulator: 900 rows of 1600 pixels in three
    channels. *)
Definition well_formed (f : Frame) : Prop :=
  height f = 900 /\ width f = 1600 /\ depth f = Some 3.

(** The bounds of [a[i:j]] on an axis of length [n]. *)
Definition clip (n i : Z) : Z :=
  if i <? 0 then Z.max (i + n) 0 else Z.min i n.

(** [f[a:b, c:d]] *)
Definition crop (f : Frame) (a b c d : Z) : Frame :=
  let r0 := clip (height f) a in
  let r1 := clip (height f) b in
  let c0 := clip (width f) c in
  let c1 := clip (width f) d in
  {| height := Z.max 0 (r1 - r0);
     width := Z.max 0 (c1 - c0);
     depth := depth f;
     px := fun r c k => px f (r0 + r) (c0 + c) k |}.

(** [f[:, :, k]] *)
Definition channel (f : Frame) (k : Z) : Frame :=
  {| height := height f; width := width f; depth := None;
     px := fun r c _ => px f r c k |}.

Definition depth_or_1 (f : Frame) : Z := default 1 (depth f).

(** [f.size] *)
Definition size (f : Frame) : Z := height f * width f * depth_or_1 f.

(** The sum of [g i] for [n] values of [i] from [i0] on. *)
Fixpoint sum_from (n : nat) (i0 : Z) (g : Z -> Z) : Z :=
  match n with
  | O => 0
  | S n' => g i0 + sum_from n' (i0 + 1) g
  end.

Definition sum_upto (n : Z) (g : Z -> Z) : Z := sum_from (Z.to_nat n) 0 g.

(** The sum of [g] over the elements of [f]. *)
Definition sum_elems (f : Frame) (g : Z -> Z) : Z :=
  sum_upto (height f) (fun r =>
    sum_upto (width f) (fun c =>
      sum_upto (depth_or_1 f) (fun k => g (px f r c k)))).

(** [np.mean(f)] *)
Definition mean (f : Frame) : Num.num :=
  Num.ratio (sum_elems f (fun v => v)) (size f).

(** [np.var(f)], and [np.std(f)] as its square *)
Definition var (f : Frame) : Num.num :=
  Num.variance (sum_elems f (fun v => v)) (sum_elems f (fun v => v * v)) (size f).

(** [np.mean(f, axis=(0, 1))[k]] *)
Definition mean_axis01 (f : Frame) (k : Z) : result Num.num :=
  match depth f with
  | None => Raise IndexError
  | Some d =>
      if (0 <=? k) && (k <? d) then Ok (mean (channel f k))
      else Raise IndexError
  end.

Definition of_gray (g : Gray) : Frame :=
  {| height := g_height g; width := g_width g; depth := None;
     px := fun r c _ => g_px g r c |}.

Section WithOpenCV.
Context `{OpenCV}.

(** The conversions accept a non-empty array of three or four channels. *)
Definition convertible (f : Frame) : bool :=
  (0 <? height f) && (0 <? width f)
  && match depth f with
     | Some d => (d =? 3) || (d =? 4)
     | None => false
     end.

(** The grey values of the pixels of [f]. *)
Definition gray_of (f : Frame) : Gray :=
  {| g_height := height f; g_width := width f;
     g_px := fun r c => bgr2gray (px f r c 0) (px f r c 1) (px f r c 2) |}.

(** [cv2.cvtColor(f, cv2.COLOR_BGR2GRAY)] *)
Definition cvtColor_gray (f : Frame) : result Gray :=
  if convertible f then Ok (gray_of f) else Raise cv2_error.

(** [cv2.cvtColor(f, cv2.COLOR_BGR2HSV)] *)
Definition cvtColor_hsv (f : Frame) : result Frame :=
  if convertible f then
    Ok {| height := height f; width := width f; depth := Some 3;
          px := fun r c k =>
            let '(h, s, v) := bgr2hsv (px f r c 0) (px f r c 1) (px f r c 2) in
            if k =? 0 then h else if k =? 1 then s else v |}
  else Raise cv2_error.

End WithOpenCV.

(** [np.count_nonzero(cv2.inRange(f, lo, hi))] for a three-channel [f] *)
Definition count_in_range (f : Frame) (lo hi : Z * Z * Z) : Z :=
  let '(l0, l1, l2) := lo in
  let '(h0, h1, h2) := hi in
  sum_upto (height f) (fun r =>
    sum_upto (width f) (fun c =>
      if (l0 <=? px f r c 0) && (px f r c 0 <=? h0)
         && (l1 <=? px f r c 1) && (px f r c 1 <=? h1)
         && (l2 <=? px f r c 2) && (px f r c 2 <=? h2)
      then 1 else 0)).

(** *** Sums over images that are made of boxes

    The pixels of the screens that the model is run on are constant on
    the cells of a grid.  The sum over such an image is the sum over the
    cells of the size of the cell times the value in it. *)

(** [x] and [y] are on the same side of every cut. *)
Definition same_side (cuts : list Z) (x y : Z) : Prop :=
  Forall (fun t => t <= x <-> t <= y) cuts.

(** The pixels of [f] are constant on the cells that the row cuts [R]
    and the column cuts [C] make. *)
Class GridConstant (f : Frame) (R C : list Z) : Prop :=
  grid_constant : forall r r' c c' k,
    same_side R r r' -> same_side C c c' -> px f r c k = px f r' c' k.
#[global] Hint Mode GridConstant ! - - : typeclass_instances.

(** The cuts are in increasing order. *)
Fixpoint increasing (cuts : list Z) : bool :=
  match cuts with
  | [] => true
  | t :: rest => forallb (Z.ltb t) rest && increasing rest
  end.

(** The pieces, as start and length, into which increasing cuts divide
    the interval from [lo] to [hi]. *)
Fixpoint segments (cuts : list Z) (lo hi : Z) : list (Z * Z) :=
  match cuts with
  | [] => [(lo, hi - lo)]
  | t :: rest =>
      if (lo <? t) && (t <? hi)
      then (lo, t - lo) :: segments rest t hi
      else segments rest lo hi
  end.

(** The sum of [len * g start] over the pieces. *)
Definition sum_segments (segs : list (Z * Z)) (g : Z -> Z) : Z :=
  fold_right (fun '(start, len) acc => len * g start + acc) 0 segs.

(** The sum of [g] over the elements of [f], cell by cell. *)
Definition grid_sum (R C : list Z) (f : Frame) (g : Z -> Z) : Z :=
  sum_segments (segments R 0 (Z.max 0 (height f))) (fun r =>
    sum_segments (segments C 0 (Z.max 0 (width f))) (fun c =>
      sum_upto (depth_or_1 f) (fun k => g (px f r c k)))).

(** Every element of [f] lies between [lo] and [hi]. *)
Definition within (f : Frame) (lo hi : Z) : Prop :=
  forall r c k,
    0 <= r < height f -> 0 <= c < width f -> 0 <= k < depth_or_1 f ->
    lo <= px f r c k <= hi.

(** An array that is not empty and has [v] in every element. *)
Definition uniform (f : Frame) (v : Z) : Prop :=
  0 < height f /\ 0 < width f /\ 0 < depth_or_1 f /\ within f v v.

(** [b, g, r = cv2.split(f)]: three planes, or the unpacking fails. *)
Definition split3 (f : Frame) : result (Frame * Frame * Frame) :=
  if (0 <? height f) && (0 <? width f)
     && bool_decide (depth f = Some 3)
  then Ok (channel f 0, channel f 1, channel f 2)
  else Raise ValueError.

End Image.

(** ** [game_state.py]: the state classifier *)

Module GameState.
Import Py Image.
Local Open Scope string_scope.

(** [GameState] *)
Inductive GameState :=
| IDLE_MAP | MAP_CITY_VIEW | MAP_SEARCHING
| GOVERNOR_PROFILE | GOVERNOR_MORE_INFO | GOVERNOR_KILLS | OWN_PROFILE
| RANKINGS_POWER | RANKINGS_KILLPOINTS | RANKINGS_ALLIANCE | RANKINGS_CITY_HALL
| ALLIANCE_PANEL | ALLIANCE_MEMBERS | ALLIANCE_TERRITORY
| BOTTOM_MENU | SETTINGS | MAIL | CHAT_EXPANDED | CHAT_COLLAPSED
| EXIT_MENU | CONFIRMATION_POPUP | TITLE_POPUP | EVENT_POPUP | STORE_POPUP
| REWARD_POPUP
| CONNECTION_ERROR | LOADING_SCREEN | BLACK_SCREEN | FROZEN
| UNKNOWN | TRANSITIONING.

#[export] Instance GameState_eq_dec : EqDecision GameState.
Proof. solve_decision. Defined.

(** [state.name] *)
Definition name (s : GameState) : string :=
  match s with
  | IDLE_MAP => "IDLE_MAP" | MAP_CITY_VIEW => "MAP_CITY_VIEW"
  | MAP_SEARCHING => "MAP_SEARCHING"
  | GOVERNOR_PROFILE => "GOVERNOR_PROFILE"
  | GOVERNOR_MORE_INFO => "GOVERNOR_MORE_INFO"
  | GOVERNOR_KILLS => "GOVERNOR_KILLS" | OWN_PROFILE => "OWN_PROFILE"
  | RANKINGS_POWER => "RANKINGS_POWER"
  | RANKINGS_KILLPOINTS => "RANKINGS_KILLPOINTS"
  | RANKINGS_ALLIANCE => "RANKINGS_ALLIANCE"
  | RANKINGS_CITY_HALL => "RANKINGS_CITY_HALL"
  | ALLIANCE_PANEL => "ALLIANCE_PANEL" | ALLIANCE_MEMBERS => "ALLIANCE_MEMBERS"
  | ALLIANCE_TERRITORY => "ALLIANCE_TERRITORY"
  | BOTTOM_MENU => "BOTTOM_MENU" | SETTINGS => "SETTINGS" | MAIL => "MAIL"
  | CHAT_EXPANDED => "CHAT_EXPANDED" | CHAT_COLLAPSED => "CHAT_COLLAPSED"
  | EXIT_MENU => "EXIT_MENU" | CONFIRMATION_POPUP => "CONFIRMATION_POPUP"
  | TITLE_POPUP => "TITLE_POPUP" | EVENT_POPUP => "EVENT_POPUP"
  | STORE_POPUP => "STORE_POPUP" | REWARD_POPUP => "REWARD_POPUP"
  | CONNECTION_ERROR => "CONNECTION_ERROR" | LOADING_SCREEN => "LOADING_SCREEN"
  | BLACK_SCREEN => "BLACK_SCREEN" | FROZEN => "FROZEN"
  | UNKNOWN => "UNKNOWN" | TRANSITIONING => "TRANSITIONING"
  end.

(** A value of the [details] dictionary. *)
Inductive Detail :=
| DStr (s : string)
| DBool (b : bool).

(** [StateDetectionResult] *)
Record StateDetectionResult := {
  state : GameState;
  confidence : Q;
  details : list (string * Detail);
  suggested_action : option string;
  recovery_steps : option (list string);
}.

(** [StateDetector]: of its template cache, filled by [_load_templates]
    from the image files that exist, [detect_state] reads the entry
    ["exit_menu"].  A cached template is kept as what matching against
    it gives: for the grey screen, the maximum of
    [cv2.matchTemplate(gray_screen, gray_template, cv2.TM_CCOEFF_NORMED)]
    that [cv2.minMaxLoc] reports, or the exception of OpenCV. *)
Record StateDetector := {
  exit_menu_template : option (Gray -> result Q);
}.

Section WithOpenCV.
Context `{OpenCV}.

Definition q (n : Z) : Num.num := Num.of_Z n.

(** [lo < x < hi] *)
Definition between (lo hi : Z) (x : Num.num) : bool :=
  Num.lt (q lo) x && Num.lt x (q hi).

(** [a and b], where evaluating either side can raise *)
Definition and_then (a b : result bool) : result bool :=
  x ← a; if x : bool then b else Ok false.

(** [_is_black_screen] *)
Definition _is_black_screen (screen : Frame) : bool :=
  Num.lt (mean screen) (q 15).

(** [_is_loading] *)
Definition _is_loading (screen : Frame) : result bool :=
  let h := height screen in
  let w := width screen in
  let center_region :=
    crop screen (h / 2 - 50) (h / 2 + 50) (w / 2 - 50) (w / 2 + 50) in
  gray ← cvtColor_gray center_region;
  let variance := var (of_gray gray) in
  let mean_center := mean center_region in
  Ok (Num.gt variance (q 2000) && Num.gt mean_center (q 100)).

(** [_is_connection_error] *)
Definition _is_connection_error (screen : Frame) : bool :=
  let h := height screen in
  let w := width screen in
  let overall_brightness := mean screen in
  if Num.gt overall_brightness (q 100) then false
  else
    let center_region := crop screen (h / 3) (2 * h / 3) (w / 4) (3 * w / 4) in
    let center_brightness := mean center_region in
    if Num.lt center_brightness (Num.add overall_brightness (q 30)) then false
    else Num.gt center_brightness
           (Num.mul overall_brightness (Num.const (15 # 10))).

(** The body of [_is_exit_menu], inside its [try]. *)
Definition _is_exit_menu_body (self : StateDetector) (screen : Frame)
  : result bool :=
  matched ←
    match exit_menu_template self with
    | Some match_template =>
        gray_screen ← cvtColor_gray screen;
        max_val ← match_template gray_screen;
        Ok (Num.Qltb (7 # 10) max_val)
    | None => Ok false
    end;
  if matched : bool then Ok true
  else
    let popup_region := crop screen 200 280 550 750 in
    has_notice_color ←
      and_then (between 60 120 <$> mean_axis01 popup_region 0)
        (and_then (between 130 200 <$> mean_axis01 popup_region 1)
           (between 110 180 <$> mean_axis01 popup_region 2));
    let cancel_region := crop screen 430 490 700 860 in
    has_cancel ←
      and_then (between 80 150 <$> mean_axis01 cancel_region 0)
        (and_then (between 150 220 <$> mean_axis01 cancel_region 1)
           (between 150 220 <$> mean_axis01 cancel_region 2));
    let center_region := crop screen 200 500 450 850 in
    gray_center ← cvtColor_gray center_region;
    let center_brightness := mean (of_gray gray_center) in
    let center_uniformity := var (of_gray gray_center) in
    let has_popup_structure :=
      Num.gt center_brightness (q 120) && Num.std_lt center_uniformity 60 in
    Ok ((has_notice_color && has_cancel) && has_popup_structure).

(** [_is_exit_menu]: any exception gives [False]. *)
Definition _is_exit_menu (self : StateDetector) (screen : Frame) : bool :=
  try_except (_is_exit_menu_body self screen) false.

(** [_is_rankings_screen] *)
Definition _is_rankings_screen (screen : Frame) : result bool :=
  let header_region := crop screen 50 150 100 500 in
  hsv ← cvtColor_hsv header_region;
  let gold_ratio :=
    Num.ratio (count_in_range hsv (15, 100, 100) (35, 255, 255))
      (height hsv * width hsv) in
  let list_region := crop screen 250 600 300 1300 in
  list_gray ← cvtColor_gray list_region;
  let list_std := var (of_gray list_gray) in
  let has_list_structure := Num.std_gt list_std 40 in
  Ok (Num.gt gold_ratio (Num.const (3 # 100)) && has_list_structure).

(** [_detect_ranking_type] *)
Definition _detect_ranking_type (screen : Frame) : GameState :=
  let tab_regions :=
    [(RANKINGS_POWER, (300, 140, 100, 40));
     (RANKINGS_KILLPOINTS, (450, 140, 100, 40))] in
  snd (fold_left
         (fun (acc : Num.num * GameState) '(st, (x, y, w, h)) =>
            let region := crop screen y (y + h) x (x + w) in
            let brightness := mean region in
            if Num.gt brightness (fst acc) then (brightness, st) else acc)
         tab_regions (q 0, RANKINGS_POWER)).

(** [_is_governor_profile] *)
Definition _is_governor_profile (screen : Frame) : bool :=
  let close_btn := crop screen 60 100 1020 1070 in
  let close_brightness := mean close_btn in
  if Num.lt close_brightness (q 145) then false
  else
    let right_panel := crop screen 100 400 800 1100 in
    let panel_brightness := mean right_panel in
    let panel_std := var right_panel in
    Num.gt panel_brightness (q 100) && Num.std_gt panel_std 30.

(** [left_bottom[:, :, 1]] *)
Definition green_plane (f : Frame) : result Frame :=
  match depth f with
  | Some d => if (1 <? d)%Z then Ok (channel f 1) else Raise IndexError
  | None => Raise IndexError
  end.

(** [_is_on_map] *)
Definition _is_on_map (screen : Frame) : result bool :=
  let bottom_region := crop screen 830 900 0 1600 in
  let mean_brightness := mean bottom_region in
  '(b, g, r) ← split3 bottom_region;
  let left_bottom := crop screen 830 900 0 200 in
  green_channel ← green_plane left_bottom;
  let has_green := Num.gt (mean green_channel) (q 80) in
  Ok (between 40 160 mean_brightness
      && Num.std3_sum_gt (var b) (var g) (var r) 80).

(** [_is_chat_expanded] *)
Definition _is_chat_expanded (screen : Frame) : result bool :=
  let chat_region := crop screen 100 500 50 400 in
  and_then (Num.lt (q 40) <$> mean_axis01 chat_region 0)
    (and_then (Num.lt (q 40) <$> mean_axis01 chat_region 1)
       (Num.lt (q 40) <$> mean_axis01 chat_region 2)).

(** [detect_state] on an array with at least two axes *)
Definition detect_frame (self : StateDetector) (screen : Frame)
  : result StateDetectionResult :=
  if _is_black_screen screen then
    Ok {| state := BLACK_SCREEN; confidence := 95 # 100;
          details := [("reason", DStr "Screen is mostly black")];
          suggested_action := Some "wait_or_restart";
          recovery_steps :=
            Some ["Wait 5 seconds"; "If still black, restart game"] |}
  else
    loading ← _is_loading screen;
    if loading : bool then
      Ok {| state := LOADING_SCREEN; confidence := 85 # 100;
            details := [("reason", DStr "Loading indicator detected")];
            suggested_action := Some "wait";
            recovery_steps := Some ["Wait for loading to complete"] |}
    else if _is_connection_error screen then
      Ok {| state := CONNECTION_ERROR; confidence := 90 # 100;
            details := [("reason", DStr "Connection error popup detected")];
            suggested_action := Some "click_ok";
            recovery_steps := Some ["Click OK/Retry button"; "Wait and retry"] |}
    else if _is_exit_menu self screen then
      Ok {| state := EXIT_MENU; confidence := 95 # 100;
            details := [("reason", DStr "Exit menu detected")];
            suggested_action := Some "click_cancel";
            recovery_steps := Some ["Click CANCEL button at (779, 457)"] |}
    else if _is_governor_profile screen then
      Ok {| state := GOVERNOR_PROFILE; confidence := 85 # 100;
            details := [("reason", DStr "Governor profile detected")];
            suggested_action := Some "read_stats_or_close";
            recovery_steps := None |}
    else
      rankings ← _is_rankings_screen screen;
      if rankings : bool then
        let ranking_type := _detect_ranking_type screen in
        Ok {| state := ranking_type; confidence := 85 # 100;
              details := [("ranking_type", DStr (name ranking_type))];
              suggested_action := Some "continue_scan";
              recovery_steps := None |}
      else
        on_map ← _is_on_map screen;
        if on_map : bool then
          expanded ← _is_chat_expanded screen;
          let chat_state :=
            if expanded : bool then CHAT_EXPANDED else CHAT_COLLAPSED in
          Ok {| state := IDLE_MAP; confidence := 80 # 100;
                details := [("chat_state", DStr (name chat_state));
                            ("bottom_menu_visible", DBool true)];
                suggested_action := Some "ready_for_commands";
                recovery_steps := None |}
        else
          Ok {| state := UNKNOWN; confidence := 3 # 10;
                details := [("reason", DStr "Could not determine state")];
                suggested_action := Some "try_recovery";
                recovery_steps :=
                  Some ["Press ESC to close popups";
                        "Click on empty map areas";
                        "If stuck, restart navigation"] |}.

(** [detect_state]: [h, w = screen.shape[:2]] first *)
Definition detect_state (self : StateDetector) (screen : Screen)
  : result StateDetectionResult :=
  match screen with
  | NoneType => Raise AttributeError
  | Array0 => Raise ValueError
  | Array1 _ => Raise ValueError
  | Img f => detect_frame self f
  end.

End WithOpenCV.

(** The confidences that [detect_state] gives. *)
Definition confidences : list Q :=
  [95 # 100; 85 # 100; 90 # 100; 80 # 100; 3 # 10]%Q.

(** One step of an [escape_sequence]: a tuple of a kind and its argument. *)
Inductive StepArg :=
| SKey (k : string)
| SNum (d : Q)
| SPos (p : Z * Z).

(** A recovery action: a dictionary with these optional keys. *)
Record Action := {
  action : option string;
  position : option (Z * Z);
  key : option string;
  duration : option Q;
  steps : option (list (string * StepArg));
  description : option string;
}.

Definition action_dict (a : string) (d : string) : Action :=
  {| action := Some a; position := None; key := None; duration := None;
     steps := None; description := Some d |}.

Definition tap_action (p : Z * Z) (d : string) : Action :=
  {| action := Some "tap"; position := Some p; key := None; duration := None;
     steps := None; description := Some d |}.

Definition timed_action (a : string) (t : Q) (d : string) : Action :=
  {| action := Some a; position := None; key := None; duration := Some t;
     steps := None; description := Some d |}.

(** [get_recovery_action] *)
Definition get_recovery_action (st : GameState) : Action :=
  match st with
  | EXIT_MENU => tap_action (779, 457) "Click CANCEL on exit menu"
  | CONNECTION_ERROR => tap_action (800, 500) "Click OK/Retry on error popup"
  | CONFIRMATION_POPUP => tap_action (700, 450) "Click Cancel on confirmation"
  | LOADING_SCREEN => timed_action "wait" 3 "Wait for loading to complete"
  | BLACK_SCREEN =>
      timed_action "wait_and_check" 5 "Wait and check if game responds"
  | UNKNOWN =>
      {| action := Some "escape_sequence"; position := None; key := None;
         duration := None;
         steps := Some [("key", SKey "KEYCODE_ESCAPE");
                        ("wait", SNum (3 # 10));
                        ("tap", SPos (800, 450));
                        ("wait", SNum (3 # 10))];
         description := Some "Try escape sequence to recover" |}
  | GOVERNOR_PROFILE => tap_action (1050, 180) "Close governor profile"
  | RANKINGS_POWER => action_dict "ready" "On rankings - ready to scan"
  | IDLE_MAP => action_dict "ready" "On map - ready for commands"
  | _ => action_dict "unknown" "No specific recovery action"
  end.

(** [is_error_state] *)
Definition is_error_state (st : GameState) : bool :=
  bool_decide (st ∈ [CONNECTION_ERROR; BLACK_SCREEN; FROZEN; UNKNOWN]).

(** [is_popup_state] *)
Definition is_popup_state (st : GameState) : bool :=
  bool_decide (st ∈ [EXIT_MENU; CONFIRMATION_POPUP; EVENT_POPUP; REWARD_POPUP]).

End GameState.

(** ** [game_state.py]: [IntelligentRecovery] *)

Module Recovery.
Import Py Image GameState.
Local Open Scope string_scope.

(** What the program does to the device and to the clock, in order. *)
Inductive Event :=
| Screencap                      (** [adb.secure_adb_screencap()] *)
| TapEv (arg : StepArg)          (** [adb.secure_adb_tap(arg)] *)
| KeyEvent (arg : StepArg)       (** [adb.secure_adb_shell(f"input keyevent {arg}")] *)
| SleepEv (arg : StepArg).       (** [time.sleep(arg)] *)

(** The emulator behind the ADB client: a state [W] that every call may
    change and whose calls may raise. *)
Record Device (W : Type) := {
  (** [np.array(adb.secure_adb_screencap())] *)
  dev_screencap : W -> W * result Screen;
  dev_tap : W -> StepArg -> W * result unit;
  dev_keyevent : W -> StepArg -> W * result unit;
  (** the device while the program sleeps *)
  dev_sleep : W -> Q -> W;
}.
Arguments dev_screencap {W}.
Arguments dev_tap {W}.
Arguments dev_keyevent {W}.
Arguments dev_sleep {W}.

(** The detector object that [IntelligentRecovery] is constructed with. *)
Record Detector := {
  det_detect_state : Screen -> result StateDetectionResult;
  det_get_recovery_action : GameState.GameState -> Action;
}.

(** The two methods of a [StateDetector]. *)
Definition state_detector `{OpenCV} (sd : StateDetector) : Detector :=
  {| det_detect_state := detect_state sd;
     det_get_recovery_action := get_recovery_action |}.

(** [IntelligentRecovery] *)
Record IntelligentRecovery := {
  detector : Detector;
  recovery_attempts : Z;
  max_attempts : Z;
}.

(** [IntelligentRecovery(adb_client, state_detector)] *)
Definition new (d : Detector) : IntelligentRecovery :=
  {| detector := d; recovery_attempts := 0; max_attempts := 5 |}.

Definition set_attempts (self : IntelligentRecovery) (n : Z) : IntelligentRecovery :=
  {| detector := detector self; recovery_attempts := n;
     max_attempts := max_attempts self |}.

Section WithDevice.
Context {W : Type} (adb : Device W).

(** The device and the events so far, latest last. *)
Record Run := {
  world : W;
  trace : list Event;
}.

Definition do_tap (r : Run) (arg : StepArg) : Run * result unit :=
  let '(w, res) := dev_tap adb (world r) arg in
  ({| world := w; trace := trace r ++ [TapEv arg] |}, res).

Definition do_keyevent (r : Run) (arg : StepArg) : Run * result unit :=
  let '(w, res) := dev_keyevent adb (world r) arg in
  ({| world := w; trace := trace r ++ [KeyEvent arg] |}, res).

(** [time.sleep(arg)] raises unless [arg] is a number that is not
    negative. *)
Definition do_sleep (r : Run) (arg : StepArg) : Run * result unit :=
  match arg with
  | SNum d =>
      if Num.Qltb d 0 then (r, Raise ValueError)
      else ({| world := dev_sleep adb (world r) d;
               trace := trace r ++ [SleepEv arg] |}, Ok tt)
  | _ => (r, Raise OtherError)
  end.

Definition do_screencap (r : Run) : Run * result Screen :=
  let '(w, res) := dev_screencap adb (world r) in
  ({| world := w; trace := trace r ++ [Screencap] |}, res).

(** The loop over the steps of an [escape_sequence]; a step of another
    kind does nothing. *)
Fixpoint run_steps (r : Run) (steps : list (string * StepArg)) : Run * result unit :=
  match steps with
  | [] => (r, Ok tt)
  | (step_type, arg) :: rest =>
      let '(r, res) :=
        if String.eqb step_type "key" then do_keyevent r arg
        else if String.eqb step_type "tap" then do_tap r arg
        else if String.eqb step_type "wait" then do_sleep r arg
        else (r, Ok tt) in
      match res with
      | Ok _ => run_steps r rest
      | Raise e => (r, Raise e)
      end
  end.

Definition succeeded (res : result unit) : bool :=
  match res with
  | Ok _ => true
  | Raise _ => false
  end.

(** [_execute_action]: an exception of the device ends the action with
    [False]. *)
Definition _execute_action (r : Run) (a : Action) : Run * bool :=
  match action a with
  | Some action_type =>
      if String.eqb action_type "tap" then
        match position a with
        | Some pos => let '(r, res) := do_tap r (SPos pos) in (r, succeeded res)
        | None => (r, false)
        end
      else if String.eqb action_type "key" then
        match key a with
        | Some k =>
            if String.eqb k "" then (r, false)
            else let '(r, res) := do_keyevent r (SKey k) in (r, succeeded res)
        | None => (r, false)
        end
      else if String.eqb action_type "wait" then
        let '(r, res) := do_sleep r (SNum (default 1%Q (duration a))) in
        (r, succeeded res)
      else if String.eqb action_type "wait_and_check" then
        let '(r, res) := do_sleep r (SNum (default 3%Q (duration a))) in
        (r, succeeded res)
      else if String.eqb action_type "escape_sequence" then
        let '(r, res) := run_steps r (default [] (steps a)) in
        (r, succeeded res)
      else if String.eqb action_type "ready" then (r, true)
      else (r, false)
  | None => (r, false)
  end.

(** The [while] loop of [recover_to_idle].  Each turn of the loop uses
    one unit of [fuel]; [None] means that the fuel ran out before the
    loop ended. *)
Fixpoint recover_loop (fuel : nat) (self : IntelligentRecovery) (r : Run)
  : option (Run * IntelligentRecovery * result bool) :=
  if (recovery_attempts self <? max_attempts self)%Z then
    match fuel with
    | O => None
    | S fuel' =>
        let self := set_attempts self (recovery_attempts self + 1) in
        let '(r, shot) := do_screencap r in
        match shot with
        | Raise _ =>
            let '(r, _) := do_sleep r (SNum 1%Q) in
            recover_loop fuel' self r
        | Ok screen =>
            match det_detect_state (detector self) screen with
            | Raise e => Some (r, self, Raise e)
            | Ok result =>
                if bool_decide (state result = IDLE_MAP)
                then Some (r, self, Ok true)
                else
                  let action :=
                    det_get_recovery_action (detector self) (state result) in
                  let '(r, success) := _execute_action r action in
                  let '(r, _) := do_sleep r (SNum (5 # 10)%Q) in
                  recover_loop fuel' self r
            end
        end
    end
  else Some (r, self, Ok false).

(** [recover_to_idle] *)
Definition recover_to_idle (fuel : nat) (self : IntelligentRecovery) (r : Run)
  : option (Run * IntelligentRecovery * result bool) :=
  recover_loop fuel (set_attempts self 0) r.

(** The loop of [handle_error_popup] over [ok_positions]: a tap and a
    pause for each. *)
Fixpoint tap_each (r : Run) (positions : list (Z * Z)) : Run * result unit :=
  match positions with
  | [] => (r, Ok tt)
  | pos :: rest =>
      let '(r, res) := do_tap r (SPos pos) in
      match res with
      | Raise e => (r, Raise e)
      | Ok _ =>
          let '(r, res) := do_sleep r (SNum (3 # 10)%Q) in
          match res with
          | Raise e => (r, Raise e)
          | Ok _ => tap_each r rest
          end
      end
  end.

(** [handle_error_popup]: nothing catches what the detector or the
    device raise. *)
Definition handle_error_popup (self : IntelligentRecovery) (r : Run)
    (screen : Screen) : Run * result bool :=
  match det_detect_state (detector self) screen with
  | Raise e => (r, Raise e)
  | Ok result =>
      if bool_decide (state result = CONNECTION_ERROR) then
        let '(r, res) := tap_each r [(800, 500); (700, 500); (900, 500)] in
        (r, (fun _ => true) <$> res)
      else if bool_decide (state result = EXIT_MENU) then
        let '(r, res) := do_tap r (SPos (779, 457)) in
        (r, (fun _ => true) <$> res)
      else (r, Ok false)
  end.

(** The number of classify/act cycles in a trace: each cycle starts
    with one screen capture. *)
Definition cycles (t : list Event) : nat :=
  length (List.filter (fun e => if e is Screencap then true else false) t).

End WithDevice.

End Recovery.

(** ** [navigation_positions.py]: [GameNavigator] *)

Module Navigator.
Import Py Image GameState Recovery.
Local Open Scope string_scope.

(** [cv2.cvtColor(f, cv2.COLOR_RGB2BGR)]: the first and the third
    channel change places; a fourth channel is dropped. *)
Definition cvtColor_rgb2bgr (f : Frame) : result Frame :=
  if (0 <? height f)%Z && (0 <? width f)%Z
     && match depth f with
        | Some d => (d =? 3)%Z || (d =? 4)%Z
        | None => false
        end
  then Ok {| height := height f; width := width f; depth := Some 3%Z;
             px := fun r c k => px f r c (2 - k)%Z |}
  else Raise cv2_error.

(** The conversion of what the capture gave. *)
Definition to_bgr (screen : Screen) : result Screen :=
  match screen with
  | Img f => Img <$> cvtColor_rgb2bgr f
  | _ => Raise cv2_error
  end.

(** [a[r0:r1, c0:c1, :]]: three indices need three axes. *)
Definition crop3 (screen : Screen) (r0 r1 c0 c1 : Z) : result Frame :=
  match screen with
  | Img f =>
      match depth f with
      | Some _ => Ok (crop f r0 r1 c0 c1)
      | None => Raise IndexError
      end
  | _ => Raise IndexError
  end.

(** The fields of [GameNavigator] that the methods below use: the
    detector, with the templates it has loaded, and the cached state
    with its time and its time to live. *)
Record GameNavigator := {
  state_detector : StateDetector;
  _current_state : option StateDetectionResult;
  _state_cache_time : Q;
  _state_cache_ttl : Q;
}.

(** The fields as [__init__] sets them. *)
Definition new (sd : StateDetector) : GameNavigator :=
  {| state_detector := sd; _current_state := None;
     _state_cache_time := 0; _state_cache_ttl := 5 # 10 |}.

Section WithDevice.
Context `{OpenCV} {W : Type} (adb : Device W).
(** [str(e)] *)
Context (exn_text : exn -> string).

(** Go on with [k] unless the step before has raised. *)
Definition and_next {A B : Type} (x : @Run W * result A)
    (k : @Run W -> A -> @Run W * result B) : @Run W * result B :=
  let '(r, res) := x in
  match res with
  | Ok a => k r a
  | Raise e => (r, Raise e)
  end.

(** The body of the [try] of [get_current_state], after the capture. *)
Definition detect_captured (self : GameNavigator) (shot : result Screen)
  : result StateDetectionResult :=
  screen ← shot;
  screen ← to_bgr screen;
  detect_state (state_detector self) screen.

(** [get_current_state]; [current_time] is what [time.time()] returns. *)
Definition get_current_state (self : GameNavigator) (r : @Run W)
    (current_time : Q) (force_refresh : bool)
  : @Run W * GameNavigator * StateDetectionResult :=
  let cached :=
    if force_refresh then None
    else
      match _current_state self with
      | Some st =>
          if Num.Qltb (current_time - _state_cache_time self)%Q
               (_state_cache_ttl self)
          then Some st else None
      | None => None
      end in
  match cached with
  | Some st => (r, self, st)
  | None =>
      let '(r, shot) := do_screencap adb r in
      match detect_captured self shot with
      | Ok result =>
          (r,
           {| state_detector := state_detector self;
              _current_state := Some result;
              _state_cache_time := current_time;
              _state_cache_ttl := _state_cache_ttl self |},
           result)
      | Raise e =>
          (r, self,
           {| state := UNKNOWN; confidence := 0;
              details := [("error", DStr (exn_text e))];
              suggested_action := Some "retry";
              recovery_steps := None |})
      end
  end.

(** [_press_key]: an exception of the device is printed and dropped. *)
Definition _press_key (r : @Run W) (keycode : string) : @Run W :=
  fst (do_keyevent adb r (SKey keycode)).

(** The colour checks of [_is_exit_menu_visible] on the captured
    array, whose channels are R, G, B. *)
Definition exit_menu_colours (screen : Screen) : result bool :=
  popup_region ← crop3 screen 200 280 550 750;
  has_notice_color ←
    and_then (between 100 200 <$> mean_axis01 popup_region 0)
      (and_then (between 80 160 <$> mean_axis01 popup_region 1)
         (between 40 120 <$> mean_axis01 popup_region 2));
  cancel_region ← crop3 screen 430 490 700 860;
  has_cancel_button ←
    and_then ((fun m => Num.gt m (q 150)) <$> mean_axis01 cancel_region 2)
      ((fun m => Num.lt m (q 150)) <$> mean_axis01 cancel_region 0);
  Ok (has_notice_color || has_cancel_button).

(** [_is_exit_menu_visible]: any exception gives [False]. *)
Definition _is_exit_menu_visible (r : @Run W) : @Run W * bool :=
  let '(r, shot) := do_screencap adb r in
  (r, try_except (shot ≫= exit_menu_colours) false).

(** [_click_cancel_exit_menu]: exceptions are passed over. *)
Definition _click_cancel_exit_menu (r : @Run W) : @Run W :=
  let '(r, res) := do_tap adb r (SPos (779, 457)%Z) in
  match res with
  | Ok _ => fst (do_sleep adb r (SNum (3 # 10)))
  | Raise _ => r
  end.

(** [_press_escape_safe] *)
Definition _press_escape_safe (r : @Run W) : @Run W :=
  let r := _press_key r "KEYCODE_ESCAPE" in
  let r := fst (do_sleep adb r (SNum (3 # 10))) in
  let '(r, visible) := _is_exit_menu_visible r in
  if visible then _click_cancel_exit_menu r else r.

(** A tap and a pause for each position. *)
Fixpoint tap_and_pause (r : @Run W) (pause : Q) (positions : list (Z * Z))
  : @Run W * result unit :=
  match positions with
  | [] => (r, Ok tt)
  | pos :: rest =>
      and_next (do_tap adb r (SPos pos)) (fun r _ =>
      and_next (do_sleep adb r (SNum pause)) (fun r _ =>
      tap_and_pause r pause rest))
  end.

(** [handle_error_state] *)
Definition handle_error_state (self : GameNavigator) (r : @Run W)
    (result : StateDetectionResult) : @Run W * Py.result bool :=
  let a := get_recovery_action (state result) in
  match action a with
  | Some action_type =>
      if String.eqb action_type "wait" then
        and_next (do_sleep adb r (SNum (default 3%Q (duration a))))
          (fun r _ => (r, Ok true))
      else if String.eqb action_type "tap" then
        match position a with
        | Some pos =>
            and_next (do_tap adb r (SPos pos)) (fun r _ =>
            and_next (do_sleep adb r (SNum (5 # 10))) (fun r _ =>
            (r, Ok true)))
        | None => (r, Ok false)
        end
      else if String.eqb action_type "escape_sequence" then
        let r := _press_escape_safe r in
        and_next (do_sleep adb r (SNum (3 # 10))) (fun r _ =>
        and_next
          (tap_and_pause r (2 # 10) [(800, 450); (400, 400); (1200, 400)]%Z)
          (fun r _ => (r, Ok true)))
      else (r, Ok false)
  | None => (r, Ok false)
  end.

(** [dismiss_popup] *)
Definition dismiss_popup (self : GameNavigator) (r : @Run W)
    (result : StateDetectionResult) : @Run W * Py.result bool :=
  let st := state result in
  if bool_decide (st = EXIT_MENU) then (_click_cancel_exit_menu r, Ok true)
  else if bool_decide (st = CONFIRMATION_POPUP) then
    and_next (do_tap adb r (SPos (700, 450)%Z)) (fun r _ =>
    and_next (do_sleep adb r (SNum (3 # 10))) (fun r _ => (r, Ok true)))
  else if bool_decide (st = EVENT_POPUP) || bool_decide (st = REWARD_POPUP) then
    and_next (do_tap adb r (SPos (1050, 180)%Z)) (fun r _ =>
    and_next (do_sleep adb r (SNum (3 # 10))) (fun r _ => (r, Ok true)))
  else (_press_escape_safe r, Ok true).

End WithDevice.

End Navigator.

(** ** [title_bot.py]: the guarded escape and [ensure_idle] *)

Module TitleBot.

(** What the bot does to the device and to the clock, in order. *)
Inductive Event :=
| Screenshot            (** [adb.screenshot()] *)
| ScreenshotCv2         (** [adb.screenshot_cv2()] *)
| Esc                   (** [input keyevent KEYCODE_ESCAPE] *)
| TapEv (x y : Z)       (** [input tap x y] *)
| SleepEv (d : Q).      (** [time.sleep(d)] *)

(** [UI["exit_cancel"]] *)
Definition exit_cancel : Z * Z := (665, 505).

Section WithDevice.
(** [W]: the emulator; [Pil], [Cv]: the two forms of a screenshot. *)
Context {W Pil Cv : Type}.

(** The device behind [ADBHelper]. *)
Record Device := {
  dev_screenshot : W -> W * option Pil;
  dev_screenshot_cv2 : W -> W * option Cv;
  dev_escape : W -> W;
  dev_tap : W -> Z -> Z -> W;
  dev_sleep : W -> Q -> W;
}.

(** The methods of the bot's own [StateDetector] that are used here, and
    [config.idle_threshold]. *)
Record Bot := {
  adb : Device;
  detect_state : Pil -> string * Q;
  has_popup : Cv -> bool;
  is_exit_popup : Cv -> bool;
  idle_threshold : Q;
}.

Context (self : Bot).

Record Run := {
  world : W;
  trace : list Event;
}.

Definition sleep (r : Run) (d : Q) : Run :=
  {| world := dev_sleep (adb self) (world r) d;
     trace := trace r ++ [SleepEv d] |}.

(** [ADBHelper.press_escape] *)
Definition press_escape (r : Run) : Run :=
  sleep {| world := dev_escape (adb self) (world r);
           trace := trace r ++ [Esc] |} (3 # 10).

(** [ADBHelper.tap] *)
Definition tap (r : Run) (x y : Z) (delay : Q) : Run :=
  sleep {| world := dev_tap (adb self) (world r) x y;
           trace := trace r ++ [TapEv x y] |} delay.

Definition screenshot (r : Run) : Run * option Pil :=
  let '(w, s) := dev_screenshot (adb self) (world r) in
  ({| world := w; trace := trace r ++ [Screenshot] |}, s).

Definition screenshot_cv2 (r : Run) : Run * option Cv :=
  let '(w, s) := dev_screenshot_cv2 (adb self) (world r) in
  ({| world := w; trace := trace r ++ [ScreenshotCv2] |}, s).

(** [handle_exit_popup] *)
Definition handle_exit_popup (r : Run) : Run * bool :=
  let '(r, screen) := screenshot_cv2 r in
  match screen with
  | None => (r, false)
  | Some screen =>
      if is_exit_popup self screen
      then (tap r (fst exit_cancel) (snd exit_cancel) (5 # 10), true)
      else (r, false)
  end.

(** [safe_escape] *)
Definition safe_escape (r : Run) : Run :=
  let r := press_escape r in
  let r := sleep r (3 # 10) in
  fst (handle_exit_popup r).

Definition is_idle (st : string * Q) (threshold : Q) : bool :=
  String.eqb (fst st) "idle" && Qle_bool threshold (snd st).

(** The [for] loop of [ensure_idle] with [n] attempts to go. *)
Fixpoint ensure_idle_loop (n : nat) (r : Run) : Run * bool :=
  match n with
  | O => (r, false)
  | S n' =>
      let '(r, screen) := screenshot r in
      match screen with
      | None => ensure_idle_loop n' (sleep r (5 # 10))
      | Some screen =>
          let st := detect_state self screen in
          if is_idle st (idle_threshold self) then (r, true)
          else
            let '(r, screen_cv) := screenshot_cv2 r in
            let popup :=
              match screen_cv with
              | Some cv => has_popup self cv
              | None => false
              end in
            if popup && is_idle st (idle_threshold self - (3 # 100))%Q
            then (r, true)
            else ensure_idle_loop n' (sleep (safe_escape r) (35 # 100))
      end
  end.

(** [ensure_idle(max_attempts)] *)
Definition ensure_idle (max_attempts : Z) (r : Run) : Run * bool :=
  ensure_idle_loop (Z.to_nat max_attempts) r.

(** The number of attempts in a trace: each starts with [adb.screenshot()]. *)
Definition cycles (t : list Event) : nat :=
  length (List.filter (fun e => if e is Screenshot then true else false) t).

End WithDevice.

End TitleBot.

(** ** [title_bot.py]: [recover_to_idle] and [smart_close_profile] *)

Module TitleBotRecovery.
Import TitleBot.

(** Every escape key in [t] is followed by the two pauses and the
    screenshot in which the exit dialog is looked for, and every tap in
    [t] is the tap on CANCEL of that dialog. *)
Fixpoint guarded (t : list Event) : bool :=
  match t with
  | [] => true
  | Esc :: rest =>
      match rest with
      | SleepEv _ :: SleepEv _ :: ScreenshotCv2 :: rest' => guarded rest'
      | _ => false
      end
  | TapEv x y :: rest =>
      (x =? fst exit_cancel)%Z && (y =? snd exit_cancel)%Z && guarded rest
  | _ :: rest => guarded rest
  end.

(** The number of escape keys in [t]. *)
Definition escapes (t : list Event) : nat :=
  length (List.filter (fun e => if e is Esc then true else false) t).

(** The run [r'] continues [r] by guarded events with at most [k]
    escape keys. *)
Definition follows {W : Type} (k : nat) (r r' : @Run W) : Prop :=
  exists added,
    trace r' = trace r ++ added
    /\ guarded added = true
    /\ (escapes added <= k)%nat.

Section WithDevice.
Context {W Pil Cv : Type} (self : @Bot W Pil Cv).
(** Two more methods of the bot's [StateDetector]. *)
Context (is_event_screen_open is_build_menu_open : Cv -> bool).

(** [_is_idle_now] *)
Definition _is_idle_now (r : @Run W) : @Run W * bool :=
  let '(r, pil) := screenshot self r in
  match pil with
  | None => (r, false)
  | Some pil => (r, is_idle (detect_state self pil) (idle_threshold self))
  end.

(** The [for] loop of [recover_to_idle] with [n] attempts to go.
    ([save_debug] is given the screenshot and writes a file.) *)
Fixpoint recover_loop (n : nat) (r : @Run W) : @Run W * bool :=
  match n with
  | O => (r, false)
  | S n' =>
      let r := fst (handle_exit_popup self r) in
      let '(r, screen) := screenshot_cv2 self r in
      match screen with
      | None => recover_loop n' (sleep self r (3 # 10))
      | Some screen =>
          let '(r, idle) := _is_idle_now r in
          if idle : bool then (r, true)
          else if is_event_screen_open screen then
            recover_loop n' (sleep self (safe_escape self r) (4 # 10))
          else if is_build_menu_open screen then
            recover_loop n' (sleep self (safe_escape self r) (35 # 100))
          else if has_popup self screen then
            recover_loop n' (sleep self (safe_escape self r) (35 # 100))
          else
            let '(r, pil) := screenshot self r in
            if match pil with
               | Some pil =>
                   is_idle (detect_state self pil) (idle_threshold self)
               | None => false
               end
            then (r, true)
            else recover_loop n' (sleep self (safe_escape self r) (35 # 100))
      end
  end.

(** [recover_to_idle] *)
Definition recover_to_idle (r : @Run W) : @Run W * bool :=
  let '(r, screen) := screenshot_cv2 self r in
  recover_loop 6 r.

(** [smart_close_profile] *)
Definition smart_close_profile (r : @Run W) : @Run W * bool :=
  let r := press_escape self r in
  let r := sleep self r (3 # 10) in
  let '(r, screen) := screenshot_cv2 self r in
  let r :=
    match screen with
    | Some cv =>
        if is_exit_popup self cv
        then tap self r (fst exit_cancel) (snd exit_cancel) (3 # 10)
        else r
    | None => r
    end in
  (r, true).

End WithDevice.

End TitleBotRecovery.

(** ** Regular expressions, as [re] matches them *)

Module Re.
Import PyStr.

(** The constructs that the patterns of the chat parser use.  A
    repetition is over a character class, as in all of them. *)
Inductive regex :=
| Eps
| One (p : N -> bool)                       (** a character of a class *)
| Seq (a b : regex)
| Alt (a b : regex)                         (** [a|b] *)
| Rep (p : N -> bool) (lo : nat) (hi : option nat) (greedy : bool)
                                            (** [[p]{lo,hi}], [[p]+?] *)
| Opt (a : regex)                           (** [(?:a)?] *)
| Group (i : nat) (a : regex)               (** a capturing group *)
| Ahead (a : regex)                         (** [(?=a)] *)
| NotAhead (a : regex)                      (** [(?!a)] *)
| Dollar.                                   (** [$] *)

(** The text of the groups that have matched. *)
Definition Caps : Type := list (nat * str).

(** What is left to match: it gets the number of characters consumed,
    the rest of the text and the groups. *)
Definition Cont : Type := nat -> str -> Caps -> option (nat * Caps).

Definition more (hi : option nat) : bool :=
  match hi with
  | Some O => false
  | _ => true
  end.

Definition dec (hi : option nat) : option nat := option_map Nat.pred hi.

(** A greedy repetition: one more character first, then fewer. *)
Fixpoint rep_greedy (p : N -> bool) (lo : nat) (hi : option nat)
    (n : nat) (s : str) (caps : Caps) (k : Cont) {struct s} : option (nat * Caps) :=
  match s with
  | c :: s' =>
      if p c && more hi then
        match rep_greedy p (Nat.pred lo) (dec hi) (S n) s' caps k with
        | Some r => Some r
        | None => if Nat.eqb lo 0 then k n s caps else None
        end
      else if Nat.eqb lo 0 then k n s caps else None
  | [] => if Nat.eqb lo 0 then k n s caps else None
  end.

(** A lazy repetition: as few characters as the rest allows. *)
Fixpoint rep_lazy (p : N -> bool) (lo : nat) (hi : option nat)
    (n : nat) (s : str) (caps : Caps) (k : Cont) {struct s} : option (nat * Caps) :=
  match (if Nat.eqb lo 0 then k n s caps else None) with
  | Some r => Some r
  | None =>
      match s with
      | c :: s' =>
          if p c && more hi
          then rep_lazy p (Nat.pred lo) (dec hi) (S n) s' caps k
          else None
      | [] => None
      end
  end.

(** The backtracking matcher: the first way to match [r] and then [k],
    in the order in which [re] tries them. *)
Fixpoint m (r : regex) (n : nat) (s : str) (caps : Caps) (k : Cont)
  : option (nat * Caps) :=
  match r with
  | Eps => k n s caps
  | One p =>
      match s with
      | c :: s' => if p c then k (S n) s' caps else None
      | [] => None
      end
  | Seq a b => m a n s caps (fun n' s' caps' => m b n' s' caps' k)
  | Alt a b =>
      match m a n s caps k with
      | Some res => Some res
      | None => m b n s caps k
      end
  | Rep p lo hi greedy =>
      if greedy then rep_greedy p lo hi n s caps k
      else rep_lazy p lo hi n s caps k
  | Opt a =>
      match m a n s caps k with
      | Some res => Some res
      | None => k n s caps
      end
  | Group i a =>
      m a n s caps (fun n' s' caps' => k n' s' ((i, take (n' - n) s) :: caps'))
  | Ahead a =>
      match m a n s caps (fun _ _ c => Some (O, c)) with
      | Some _ => k n s caps
      | None => None
      end
  | NotAhead a =>
      match m a n s caps (fun _ _ c => Some (O, c)) with
      | Some _ => None
      | None => k n s caps
      end
  | Dollar =>
      match s with
      | [] => k n s caps
      | [c] => if (c =? 10)%N then k n s caps else None
      | _ => None
      end
  end.

(** A match of [r] at the start of [s]: its length and its groups. *)
Definition match_at (r : regex) (s : str) : option (nat * Caps) :=
  m r 0 s [] (fun n _ caps => Some (n, caps)).

(** [match.group(i)] *)
Fixpoint group (caps : Caps) (i : nat) : str :=
  match caps with
  | [] => []
  | (j, t) :: rest => if Nat.eqb i j then t else group rest i
  end.

(** A match object. *)
Record Match := {
  m_start : nat;
  m_end : nat;
  m_text : str;
  m_caps : Caps;
}.

(** [re.finditer(r, s)]: the matches from the left, without overlap.
    [skip] counts the characters of the last match that are still to be
    passed, [pos] is the index of the head of [s].  (After an empty match
    the search goes on one character later; no pattern of the parser
    matches the empty string.) *)
Fixpoint finditer_go (r : regex) (skip pos : nat) (s : str) : list Match :=
  match s with
  | [] =>
      match skip, match_at r [] with
      | O, Some (n, caps) =>
          [{| m_start := pos; m_end := pos; m_text := []; m_caps := caps |}]
      | _, _ => []
      end
  | c :: s' =>
      match skip with
      | S k => finditer_go r k (S pos) s'
      | O =>
          match match_at r s with
          | Some (n, caps) =>
              {| m_start := pos; m_end := pos + n; m_text := take n s;
                 m_caps := caps |} :: finditer_go r (n - 1) (S pos) s'
          | None => finditer_go r 0 (S pos) s'
          end
      end
  end.
Definition finditer (r : regex) (s : str) : list Match := finditer_go r 0 0 s.

(** [re.sub(r, repl, s)]; [repl] builds the replacement from the groups. *)
Fixpoint sub_go (r : regex) (repl : Caps -> str) (skip : nat) (s : str) : str :=
  match s with
  | [] =>
      match skip, match_at r [] with
      | O, Some (n, caps) => repl caps
      | _, _ => []
      end
  | c :: s' =>
      match skip with
      | S k => sub_go r repl k s'
      | O =>
          match match_at r s with
          | Some (n, caps) =>
              repl caps ++ (if Nat.eqb n 0 then [c] else [])
                ++ sub_go r repl (n - 1) s'
          | None => c :: sub_go r repl 0 s'
          end
      end
  end.
Definition sub (r : regex) (repl : Caps -> str) (s : str) : str :=
  sub_go r repl 0 s.

(** A sequence of regular expressions. *)
Fixpoint seq (rs : list regex) : regex :=
  match rs with
  | [] => Eps
  | [r] => r
  | r :: rest => Seq r (seq rest)
  end.

(** An alternation. *)
Fixpoint alt (rs : list regex) : regex :=
  match rs with
  | [] => NotAhead Eps
  | [r] => r
  | r :: rest => Alt r (alt rest)
  end.

Definition chr (c : N) : regex := One (N.eqb c).

End Re.

(** ** [vision_system.py]: the chat parser *)

Module ChatParser.
Import PyStr Re.

(** [ChatMessage] *)
Record ChatMessage := {
  alliance_tag : str;
  player_name : str;
  message : str;
  timestamp : option str;
  raw_text : str;
}.

(** [self.title_keywords] *)
Definition title_keywords : list str :=
  [lit "duke"; lit "scientist"; lit "architect"; lit "justice";
   lit "title"; lit "titulo"; lit "titre"; lit "titlu"].

(** The circled digits of the tag patterns: U+2460 to U+2469. *)
Definition is_circled (c : N) : bool := in_range 9312 9321 c.

(** [[A-Z0-9①②③④⑤⑥⑦⑧⑨⑩]] *)
Definition tag_upper (c : N) : bool :=
  is_ascii_upper c || is_ascii_digit c || is_circled c.

(** [[A-Za-z0-9①②③④⑤⑥⑦⑧⑨⑩]] *)
Definition tag_any (c : N) : bool :=
  is_ascii_letter c || is_ascii_digit c || is_circled c.

Definition lbracket : N := 91.
Definition rbracket : N := 93.

(** The replacement [[\1]]. *)
Definition repl_tag (caps : Caps) : str :=
  [lbracket] ++ group caps 1 ++ [rbracket].

(** The replacement [[\1]\2]. *)
Definition repl_tag_letter (caps : Caps) : str :=
  [lbracket] ++ group caps 1 ++ [rbracket] ++ group caps 2.

(** [\[([A-Z0-9①-⑩]{3,4})l(?=[A-Z])] *)
Definition re_bracket_l : regex :=
  seq [chr lbracket; Group 1 (Rep tag_upper 3 (Some 4%nat) true); chr 108;
       Ahead (One is_ascii_upper)].

(** [_normalize_tag] and the first step of [_normalize_player_name]:
    the replacements in the order of the dictionary. *)
Definition circle_map : list (N * N) :=
  [(9312, 49); (9313, 50); (9314, 51); (9315, 52); (9316, 53);
   (9317, 54); (9318, 55); (9319, 56); (9320, 57); (9321, 48)]%N.

Definition replace_all (table : list (N * N)) (s : str) : str :=
  fold_left (fun acc '(a, b) => replace [a] [b] acc) table s.

(** [_normalize_tag] *)
Definition _normalize_tag (tag : str) : str :=
  replace_all (circle_map ++ [(79, 48); (111, 48); (108, 49); (73, 49)]%N) tag.

(** What the replacements of [_normalize_tag] do to one character, and
    the characters that they replace. *)
Definition tag_char (c : N) : N :=
  fold_left (fun c '(a, b) => if (a =? c)%N then b else c)
    (circle_map ++ [(79, 48); (111, 48); (108, 49); (73, 49)]%N) c.

Definition tag_confusables : list N :=
  map fst (circle_map ++ [(79, 48); (111, 48); (108, 49); (73, 49)]%N).

Section WithUnicode.
Context `{UnicodeData}.

(** The form of a character that [re.IGNORECASE] compares. *)
Definition ci_fold (c : N) : N :=
  if is_ascii c then ascii_lower c else ud_casefold c.

(** A class under [re.IGNORECASE]. *)
Definition ci (p : N -> bool) (c : N) : bool := p c || p (ci_fold c).

(** A lower-case literal under [re.IGNORECASE]. *)
Definition lit_ci (w : str) : regex :=
  seq (map (fun a => One (fun c => (ci_fold c =? a)%N)) w).

(** [\w] *)
Definition is_word (c : N) : bool := isalnum c || (c =? 95)%N.

(** [(?=$|[\s\W])] *)
Definition end_guard : regex :=
  Ahead (Alt Dollar (One (fun c => isspace c || negb (is_word c)))).

(** [\[([A-Z0-9①-⑩]{3,4})J(?=[A-Z]{2}\s)] *)
Definition re_bracket_J : regex :=
  seq [chr lbracket; Group 1 (Rep tag_upper 3 (Some 4%nat) true); chr 74;
       Ahead (Seq (Rep is_ascii_upper 2 (Some 2%nat) true) (One isspace))].

(** [\[([A-Z0-9①-⑩]{3,4})([A-Za-z])(?!\])] *)
Definition re_bracket_missing : regex :=
  seq [chr lbracket; Group 1 (Rep tag_upper 3 (Some 4%nat) true);
       Group 2 (One is_ascii_letter); NotAhead (chr rbracket)].

(** [\s+] *)
Definition re_spaces : regex := Rep isspace 1 None true.

(** The first loop of [_clean_ocr_text]: what is kept of a character. *)
Definition keep_char (char : N) : list N :=
  let cat := category char in
  let major := match cat with String a _ => Some a | EmptyString => None end in
  if bool_decide (major ∈ [Some "L"; Some "N"; Some "P"; Some "S"; Some "Z"]%char)
     || bool_decide (char ∈ [10; 9; 58; 62; 65125; 9792; 9794]%N)
  then [char]
  else if String.eqb cat "Zs" then [32%N]
  else [].

(** [_clean_ocr_text] *)
Definition _clean_ocr_text (text : str) : str :=
  let text := flat_map keep_char text in
  let text := replace [124%N] [rbracket] text in
  let text := replace [40%N] [lbracket] text in
  let text := replace [41%N] [rbracket] text in
  let text := replace [64258%N] [] text in
  let text := replace [64257%N] [] text in
  let text := replace [65125%N] [58%N] text in
  let text := replace [65109%N] [58%N] text in
  let text := sub re_bracket_l repl_tag text in
  let text := sub re_bracket_J repl_tag text in
  let text := sub re_bracket_missing repl_tag_letter text in
  let text := sub re_spaces (fun _ => [32%N]) text in
  strip text.

(** [_normalize_player_name] *)
Definition _normalize_player_name (name : str) : str :=
  let result := replace_all circle_map name in
  let result :=
    if existsb is_ascii_letter result
    then drop_while (fun ch => negb (is_ascii_letter ch)) result
    else result in
  let result :=
    fold_left
      (fun result sep =>
         if contains sep result then List.last (split sep result) [] else result)
      [[12540; 12540; 12540]%N; lit "---"; [8212; 8212; 8212]%N] result in
  let result :=
    match result with
    | 108%N :: c :: rest => if isupper c then c :: rest else result
    | _ => result
    end in
  strip result.

(** [_clean_message] *)
Definition _clean_message (message : str) : str :=
  let msg_lower := lower message in
  let title_keywords :=
    [lit "duke"; lit "scientist"; lit "architect"; lit "justice"] in
  match List.find (fun kw => contains kw msg_lower) title_keywords with
  | Some kw =>
      let kw_end := (default 0 (find kw msg_lower) + length kw)%nat in
      let remaining := strip (drop kw_end message) in
      match split_ws remaining with
      | word :: _ =>
          if (length word <? 10)%nat && str_isalpha word
          then take kw_end message ++ [32%N] ++ word
          else take kw_end message
      | [] => take kw_end message
      end
  | None => message
  end.

(** The order of the tuples [(start, end, keyword)]. *)
Fixpoint str_ltb (a b : str) : bool :=
  match a, b with
  | [], [] => false
  | [], _ :: _ => true
  | _ :: _, [] => false
  | x :: a', y :: b' => (x <? y)%N || ((x =? y)%N && str_ltb a' b')
  end.

Definition pos_ltb (a b : nat * nat * str) : bool :=
  let '(s1, e1, k1) := a in
  let '(s2, e2, k2) := b in
  (s1 <? s2)%nat
  || ((s1 =? s2)%nat && ((e1 <? e2)%nat || ((e1 =? e2)%nat && str_ltb k1 k2))).

(** [list.sort()]: a stable sort. *)
Fixpoint insert_sorted (x : nat * nat * str) (l : list (nat * nat * str))
  : list (nat * nat * str) :=
  match l with
  | [] => [x]
  | y :: l' => if pos_ltb x y then x :: l else y :: insert_sorted x l'
  end.
Definition sort (l : list (nat * nat * str)) : list (nat * nat * str) :=
  fold_left (fun acc x => insert_sorted x acc) l [].

Definition is_space_or_colon (c : option N) : bool :=
  match c with
  | Some c => (c =? 32)%N || (c =? 58)%N
  | None => false
  end.

(** [while name_end > 0 and joined_text[name_end-1] in ' :': name_end -= 1] *)
Fixpoint back_over (text : str) (name_end : nat) : nat :=
  match name_end with
  | O => O
  | S i => if is_space_or_colon (text !! i) then back_over text i else name_end
  end.

(** [while name_start < name_end and joined_text[name_start] in ' :':
    name_start += 1], with [todo = name_end - name_start] *)
Fixpoint forward_over (text : str) (todo name_start : nat) : nat :=
  match todo with
  | O => name_start
  | S todo' =>
      if is_space_or_colon (text !! name_start)
      then forward_over text todo' (S name_start)
      else name_start
  end.

(** The pattern of a tagged request. *)
Definition tag_pattern : regex :=
  seq [chr lbracket;
       Group 1 (Rep (ci tag_any) 1 (Some 8%nat) true);
       chr rbracket;
       Group 2 (Rep (fun c => negb ((c =? 58)%N || (c =? lbracket)%N)) 1 None false);
       Opt (Rep (fun c => isspace c || (c =? 58)%N) 1 None true);
       Group 3 (alt (map lit_ci title_keywords));
       end_guard].

(** [[:\s]+$] *)
Definition re_trailing : regex :=
  Seq (Rep (fun c => (c =? 58)%N || isspace c) 1 None true) Dollar.

(** The first loop of [parse_messages]: the positions of the keywords. *)
Definition title_positions (joined_text : str) : list (nat * nat * str) :=
  sort (flat_map
          (fun keyword =>
             map (fun mt => (m_start mt, m_end mt, lower keyword))
               (finditer (Seq (lit_ci keyword) end_guard) joined_text))
          title_keywords).

(** The loop over the matches of [tag_pattern]: the messages and
    [tagged_ranges]. *)
Definition tagged (joined_text : str) : list ChatMessage * list (nat * nat) :=
  fold_left
    (fun '(messages, tagged_ranges) mt =>
       let alliance_tag := _normalize_tag (group (m_caps mt) 1) in
       let player_name := strip (group (m_caps mt) 2) in
       let message_part := lower (strip (group (m_caps mt) 3)) in
       let player_name := sub re_trailing (fun _ => []) player_name in
       let player_name := _clean_ocr_text player_name in
       let player_name := _normalize_player_name player_name in
       if negb (bool_decide (player_name = []))
          && negb (bool_decide (message_part = []))
       then (messages ++ [{| alliance_tag := alliance_tag;
                             player_name := player_name;
                             message := message_part;
                             timestamp := None;
                             raw_text := m_text mt |}],
             tagged_ranges ++ [(m_start mt, m_end mt)])
       else (messages, tagged_ranges))
    (finditer tag_pattern joined_text) ([], []).

(** The loop over [title_positions]: the requests without a tag. *)
Definition untagged (joined_text : str) (positions : list (nat * nat * str))
    (tagged_ranges : list (nat * nat)) (messages : list ChatMessage)
  : list ChatMessage :=
  fold_left
    (fun messages '(title_start, title_end, title) =>
       if existsb (fun '(start, end_) =>
                     (start <=? title_start)%nat && (title_start <=? end_)%nat)
            tagged_ranges
       then messages
       else
         let name_end := back_over joined_text title_start in
         let prev_title_end :=
           fold_left
             (fun prev_title_end '(_, prev_end, _) =>
                if (prev_end <? name_end)%nat && (prev_title_end <? prev_end)%nat
                then prev_end else prev_title_end)
             positions 0%nat in
         let name_start :=
           forward_over joined_text (name_end - prev_title_end) prev_title_end in
         let player_name := strip (slice name_start name_end joined_text) in
         let player_name := _clean_ocr_text player_name in
         let player_name := _normalize_player_name player_name in
         if (2 <=? length player_name)%nat
            && negb (startswith [12540%N] player_name)
         then
           if existsb (fun m => str_eqb (lower (ChatParser.player_name m))
                                  (lower player_name)) messages
           then messages
           else messages ++ [{| alliance_tag := [];
                                player_name := player_name;
                                message := title;
                                timestamp := None;
                                raw_text := player_name ++ [32%N] ++ title |}]
         else messages)
    positions messages.

(** The last loop of [parse_messages]: the first message of each player. *)
Definition unique (messages : list ChatMessage) : list ChatMessage :=
  snd (fold_left
         (fun '(seen_players, unique_messages) msg =>
            let key := lower (player_name msg) in
            if existsb (str_eqb key) seen_players
            then (seen_players, unique_messages)
            else (key :: seen_players,
                  unique_messages ++
                    [{| alliance_tag := alliance_tag msg;
                        player_name := player_name msg;
                        message := _clean_message (message msg);
                        timestamp := None;
                        raw_text := raw_text msg |}]))
         messages ([], [])).

(** [parse_messages] *)
Definition parse_messages (ocr_text : str) : list ChatMessage :=
  if bool_decide (ocr_text = []) then []
  else
    let ocr_text := _clean_ocr_text ocr_text in
    let lines := split [10%N] (strip ocr_text) in
    let joined_text :=
      join [32%N]
        (map strip (List.filter (fun line => negb (bool_decide (strip line = []))) lines)) in
    let positions := title_positions joined_text in
    let '(messages, tagged_ranges) := tagged joined_text in
    unique (untagged joined_text positions tagged_ranges messages).

(** No white-space character of [s] is another than the space, and no
    two spaces follow each other; with [prev_space], [s] does not start
    with a space either. *)
Fixpoint single_spaced (prev_space : bool) (s : str) : bool :=
  match s with
  | [] => true
  | c :: s' =>
      if isspace c
      then (c =? 32)%N && negb prev_space && single_spaced true s'
      else single_spaced false s'
  end.

(** [s] is single-spaced and has no space at its ends. *)
Definition ws_normal (s : str) : Prop :=
  single_spaced true s = true
  /\ (s = [] \/ isspace (List.last s 0%N) = false).

(** What holds of a message that [parse_messages] returns. *)
Definition well_named (m : ChatMessage) : Prop :=
  player_name m <> []
  /\ strip (player_name m) = player_name m
  /\ _normalize_tag (alliance_tag m) = alliance_tag m.

(** [find_title_requests] *)
Definition find_title_requests (messages : list ChatMessage) : list ChatMessage :=
  List.filter
    (fun msg => existsb (fun keyword => contains keyword (lower (message msg)))
                  title_keywords)
    messages.

(** [extract_title_type] *)
Definition extract_title_type (message : str) : str :=
  let msg_lower := lower message in
  if contains (lit "justice") msg_lower || contains (lit "jus") msg_lower
  then lit "justice"
  else if contains (lit "duke") msg_lower || contains (lit "duk") msg_lower
  then lit "duke"
  else if contains (lit "architect") msg_lower || contains (lit "arch") msg_lower
  then lit "architect"
  else if contains (lit "scientist") msg_lower || contains (lit "sci") msg_lower
  then lit "scientist"
  else lit "scientist".

End WithUnicode.

End ChatParser.

(** ** [vision_system.py], [rok_remote_bot.py]: from the chat to the tracker *)

Module RemoteBot.
Import PyStr.

Section WithUnicode.
Context `{UnicodeData}.

(** The loop of [VisionSystem.find_title_requests] over the messages
    that were read from the chat: the tuples
    [(player_name, alliance_tag, title_type)]. *)
Definition find_title_requests (messages : list ChatParser.ChatMessage)
  : list (str * str * str) :=
  map (fun msg =>
         (ChatParser.player_name msg, ChatParser.alliance_tag msg,
          ChatParser.extract_title_type (ChatParser.message msg)))
    (ChatParser.find_title_requests messages).

(** The loop of [run_title_bot] of [rok_remote_bot.py] over the
    requests found: each is handed to [track_request].  A request comes
    with what [time.time()] returns in its call. *)
Definition track_found (tracker : Tracker.TitleRequestTracker)
    (found : list (Z * (str * str * str))) : Tracker.TitleRequestTracker :=
  fold_left
    (fun tracker '(now, (player_name, alliance_tag, title_type)) =>
       fst (Tracker.track_request tracker now player_name alliance_tag
              title_type))
    found tracker.

(** Every request of every player is counted under one of the four
    titles. *)
Definition all_counted (tracker : Tracker.TitleRequestTracker) : Prop :=
  map_Forall
    (fun _ st => Tracker.counted st = Tracker.total_requests st)
    (Tracker.player_stats tracker).

End WithUnicode.

End RemoteBot.

(** ** Reference tables *)

(** The ASCII part of the tables with nothing above it: code points
    above 127 are unassigned, and so neither letters nor spaces. *)
Definition ascii_tables : PyStr.UnicodeData :=
  {| PyStr.ud_category := fun _ => "Cn"%string;
     PyStr.ud_isspace := fun _ => false;
     PyStr.ud_isalpha := fun _ => false;
     PyStr.ud_isalnum := fun _ => false;
     PyStr.ud_isupper := fun _ => false;
     PyStr.ud_lower := fun s => s;
     PyStr.ud_casefold := fun c => c |}.

(** OpenCV's conversions of 8-bit pixels.  The luma is computed in
    fixed point with 15 fractional bits. *)
Definition opencv_gray (b g r : Z) : Z :=
  Z.shiftr (b * 3735 + g * 19235 + r * 9798 + 16384) 15.

(** [n / i] rounded to the nearest integer, for the two tables below
    (none of their quotients lies half-way between two integers). *)
Definition round_div (n i : Z) : Z := (2 * n + i) / (2 * i).

(** [sdiv_table] and [hdiv_table180] of the 8-bit conversion to HSV:
    [255 / i] and [180 / (6 i)] with 12 fractional bits. *)
Definition sdiv_table (i : Z) : Z :=
  if i =? 0 then 0 else round_div (255 * 4096) i.

Definition hdiv_table180 (i : Z) : Z :=
  if i =? 0 then 0 else round_div (180 * 4096) (6 * i).

(** Hue (in steps of two degrees, from 0 to 180), saturation and value
    of an 8-bit pixel.  The products with the table entries are rounded,
    not truncated: (b, g, r) = (0, 49, 100) has hue 15. *)
Definition opencv_hsv (b g r : Z) : Z * Z * Z :=
  let v := Z.max b (Z.max g r) in
  let vmin := Z.min b (Z.min g r) in
  let diff := v - vmin in
  let s := Z.shiftr (diff * sdiv_table v + 2048) 12 in
  let h :=
    if v =? r then g - b
    else if v =? g then b - r + 2 * diff
    else r - g + 4 * diff in
  let h := Z.shiftr (h * hdiv_table180 diff + 2048) 12 in
  let h := if h <? 0 then h + 180 else h in
  (h, s, v).

Definition opencv : Image.OpenCV :=
  {| Image.bgr2gray := opencv_gray; Image.bgr2hsv := opencv_hsv |}.

(** ** Screens and devices to run the model on *)

Module Scenes.
Import Image.

Definition in_box (r c r0 r1 c0 c1 : Z) : bool :=
  (r0 <=? r) && (r <? r1) && (c0 <=? c) && (c <? c1).

Definition bgr (b g r k : Z) : Z :=
  if k =? 0 then b else if k =? 1 then g else r.

(** The exit dialog over the map: a beige box with the cyan CANCEL
    button in the middle of the screen, the menu bar at the bottom (dark
    on the left half, light on the right), grey elsewhere. *)
Definition exit_dialog_px (r c k : Z) : Z :=
  if in_box r c 430 490 700 860 then bgr 110 181 186 k
  else if in_box r c 200 500 450 850 then bgr 89 164 145 k
  else if in_box r c 830 900 0 1600 then (if c <? 800 then 20 else 180)
  else 120.

Definition exit_dialog : Frame :=
  {| height := 900; width := 1600; depth := Some 3; px := exit_dialog_px |}.

(** The same screen with a dark strip above the CANCEL button, in the
    square that [_is_loading] looks at. *)
Definition exit_dialog_strip_px (r c k : Z) : Z :=
  if in_box r c 400 420 750 850 then 16 else exit_dialog_px r c k.

Definition exit_dialog_strip : Frame :=
  {| height := 900; width := 1600; depth := Some 3; px := exit_dialog_strip_px |}.

(** A connection-error popup: a lighter box in the middle of a dark
    screen. *)
Definition error_popup_px (r c k : Z) : Z :=
  if in_box r c 300 600 400 1200 then 90 else 20.

Definition error_popup : Frame :=
  {| height := 900; width := 1600; depth := Some 3; px := error_popup_px |}.

(** A screenshot of one value in every pixel and channel. *)
Definition plain (v : Z) : Frame :=
  {| height := 900; width := 1600; depth := Some 3; px := fun _ _ _ => v |}.

(** Two rows of two black pixels. *)
Definition dark_patch : Frame :=
  {| height := 2; width := 2; depth := Some 3; px := fun _ _ _ => 0 |}.

(** Two rows of two grey values, without a channel axis. *)
Definition grey_patch : Frame :=
  {| height := 2; width := 2; depth := None; px := fun _ _ _ => 200 |}.

(** A detector without template files. *)
Definition no_templates : GameState.StateDetector :=
  {| GameState.exit_menu_template := None |}.

(** A device whose screen the classifier cannot place: captures succeed,
    taps and keys are accepted. *)
Definition quiet_device : Recovery.Device unit :=
  {| Recovery.dev_screencap := fun w => (w, Py.Ok Image.Array0);
     Recovery.dev_tap := fun w _ => (w, Py.Ok tt);
     Recovery.dev_keyevent := fun w _ => (w, Py.Ok tt);
     Recovery.dev_sleep := fun w _ => w |}.

(** A detector that answers [UNKNOWN] to every screen. *)
Definition blind_detector : Recovery.Detector :=
  {| Recovery.det_detect_state := fun _ =>
       Py.Ok {| GameState.state := GameState.UNKNOWN;
                GameState.confidence := 3 # 10;
                GameState.details := [];
                GameState.suggested_action := None;
                GameState.recovery_steps := None |};
     Recovery.det_get_recovery_action := GameState.get_recovery_action |}.

Definition quiet_start : @Recovery.Run unit :=
  {| Recovery.world := tt; Recovery.trace := [] |}.

(** A title bot in front of a screen that never looks idle. *)
Definition lost_bot : @TitleBot.Bot unit unit unit :=
  {| TitleBot.adb :=
       {| TitleBot.dev_screenshot := fun w => (w, Some tt);
          TitleBot.dev_screenshot_cv2 := fun w => (w, Some tt);
          TitleBot.dev_escape := fun w => w;
          TitleBot.dev_tap := fun w _ _ => w;
          TitleBot.dev_sleep := fun w _ => w |};
     TitleBot.detect_state := fun _ => ("unknown"%string, 0%Q);
     TitleBot.has_popup := fun _ => false;
     TitleBot.is_exit_popup := fun _ => false;
     TitleBot.idle_threshold := 85 # 100 |}.

Definition lost_start : @TitleBot.Run unit :=
  {| TitleBot.world := tt; TitleBot.trace := [] |}.

(** A title bot in front of the idle map. *)
Definition calm_bot : @TitleBot.Bot unit unit unit :=
  {| TitleBot.adb := TitleBot.adb lost_bot;
     TitleBot.detect_state := fun _ => ("idle"%string, 1%Q);
     TitleBot.has_popup := fun _ => false;
     TitleBot.is_exit_popup := fun _ => false;
     TitleBot.idle_threshold := 85 # 100 |}.

(** A player and a title; a tracker after the first request of the
    player, at time 1000, and after the grant that follows at 1001. *)
Definition bob : PyStr.str := PyStr.lit "Bob".
Definition duke : PyStr.str := PyStr.lit "duke".

Definition after_first : Tracker.TitleRequestTracker :=
  (Tracker.track_request (H := ascii_tables) Tracker.init 1000 bob [] duke).1.

Definition after_grant : Tracker.TitleRequestTracker :=
  (Tracker.record_grant (H := ascii_tables) after_first 1001 bob duke).1.

End Scenes.

(** * Properties *)

(** ** The tracker *)

Module TrackerFacts.
Import PyStr Tracker.

Section WithUnicode.
Context `{UnicodeData}.

Lemma cache_at_small self timestamp :
  (size (seen_messages self) <= 100)%nat ->
  cache_at self timestamp = seen_messages self.
Proof.
  intros Hsz. unfold cache_at. rewrite bool_decide_eq_false_2; [done | lia].
Qed.

Lemma cache_at_subseteq self timestamp :
  cache_at self timestamp ⊆ seen_messages self.
Proof.
  unfold cache_at. case_bool_decide; [| done].
  cbn. apply map_filter_subseteq.
Qed.

Lemma cache_at_lookup_None self timestamp h :
  seen_messages self !! h = None -> cache_at self timestamp !! h = None.
Proof.
  intros Hn. eapply lookup_weaken_None; [exact Hn | apply cache_at_subseteq].
Qed.

(** An entry that the cleaning drops is at least as old as the TTL. *)
Lemma cache_at_dropped self timestamp h v :
  seen_messages self !! h = Some v ->
  cache_at self timestamp !! h = None ->
  v <= timestamp - seen_messages_ttl self.
Proof.
  unfold cache_at. case_bool_decide; cbn; [| congruence].
  intros Hs Hn. apply map_lookup_filter_None in Hn as [Hn | Hn]; [congruence |].
  specialize (Hn _ Hs). cbn in Hn. lia.
Qed.

(** The answer of [track_request] is decided by the lookup of the hash. *)
Lemma track_request_is_new self timestamp p t k :
  (track_request self timestamp p t k).2.1
  = bool_decide (cache_at self timestamp !! _get_message_hash p k = None).
Proof.
  unfold track_request, cache_at.
  destruct (seen_messages _ !! _) eqn:E; cbn [fst snd];
    by case_bool_decide.
Qed.

(** A request that is new is in the cache afterwards, with its time. *)
Lemma track_request_records self timestamp p t k :
  (track_request self timestamp p t k).2.1 = true ->
  seen_messages (track_request self timestamp p t k).1
    !! _get_message_hash p k = Some timestamp.
Proof.
  unfold track_request.
  destruct (seen_messages _ !! _) eqn:E; cbn; [done |].
  intros _. apply lookup_insert_eq.
Qed.

(** Called twice while the cache is small, the second call is a
    duplicate, whatever the time between the calls. *)
Lemma track_request_twice self t1 t2 p t k :
  (track_request self t1 p t k).2.1 = true ->
  (size (seen_messages (track_request self t1 p t k).1) <= 100)%nat ->
  (track_request (track_request self t1 p t k).1 t2 p t k).2.1 = false.
Proof.
  intros Hnew Hsz. rewrite track_request_is_new, cache_at_small by done.
  rewrite track_request_records by done. done.
Qed.

(** With more than 100 entries in the cache, an entry older than the
    TTL is dropped and the request is new again. *)
Lemma track_request_after_ttl_large self timestamp p t k v :
  (100 < size (seen_messages self))%nat ->
  seen_messages self !! _get_message_hash p k = Some v ->
  v <= timestamp - seen_messages_ttl self ->
  (track_request self timestamp p t k).2.1 = true.
Proof.
  intros Hsz Hs Hv. rewrite track_request_is_new.
  apply bool_decide_eq_true_2. unfold cache_at.
  rewrite bool_decide_eq_true_2 by done. cbn.
  apply map_lookup_filter_None. right. intros v' Hs'. cbn.
  assert (v' = v) by congruence. lia.
Qed.

(** C10.  When [track_request] answers [isNew = false], the statistics
    of the players, the list of recent requests and the session counters
    are what they were, no entry has been added to the seen-cache, and
    an entry that has gone from it was at least as old as the TTL. *)
Theorem track_request_duplicate_is_atomic self timestamp p t k self' msg :
  track_request self timestamp p t k = (self', (false, msg)) ->
  player_stats self' = player_stats self
  /\ recent_requests self' = recent_requests self
  /\ session_requests self' = session_requests self
  /\ session_grants self' = session_grants self
  /\ seen_messages_ttl self' = seen_messages_ttl self
  /\ seen_messages self' ⊆ seen_messages self
  /\ (forall h v, seen_messages self !! h = Some v ->
                  seen_messages self' !! h = None ->
                  v <= timestamp - seen_messages_ttl self).
Proof.
  intros Ht.
  pose proof (cache_at_subseteq self timestamp) as Hsub.
  pose proof (cache_at_dropped self timestamp) as Hdrop.
  unfold track_request, cache_at in *.
  destruct (bool_decide (100 < size (seen_messages self))%nat);
    destruct (seen_messages _ !! _get_message_hash p k);
    inversion Ht; subst; cbn in *; auto 10.
Qed.

(** C3, as amended.  After [record_grant] has succeeded for a player
    and a title, the next [track_request] of that player for that title
    answers [isNew = true], at whatever time it comes. *)
Theorem record_grant_clears_dedup self now now' p t k self' :
  record_grant self now p k = (self', true) ->
  (track_request self' now' p t k).2.1 = true.
Proof.
  unfold record_grant.
  destruct (player_stats self !! _normalize_name p); [| discriminate].
  intros Hg. inversion Hg; subst; clear Hg.
  rewrite track_request_is_new. apply bool_decide_eq_true_2.
  apply cache_at_lookup_None. cbn. apply lookup_delete_eq.
Qed.

End WithUnicode.

Import Scenes.
#[local] Existing Instance ascii_tables.

(** C1.  On a fresh tracker the first request is new and the second, a
    second later, is a duplicate; the third comes 3602 seconds after the
    first, when the entry is older than the TTL of 3600 seconds, and is
    still answered as a duplicate: with one entry in the cache no
    cleaning takes place. *)
Theorem track_request_after_ttl_small_cache :
  (track_request init 1000 bob [] duke).2.1 = true
  /\ (track_request after_first 1001 bob [] duke).2.1 = false
  /\ seen_messages_ttl after_first = 3600
  /\ (track_request
        (track_request after_first 1001 bob [] duke).1 4602 bob [] duke).2
     = (false, AlreadySeen bob duke 1000 4602).
Proof. vm_compute. repeat split. Qed.

(** The same for every tracker: while the cache holds at most 100
    entries, an entry is never too old to make a request a duplicate. *)
Lemma track_request_small_cache_never_expires `{UnicodeData}
    self timestamp p t k v :
  (size (seen_messages self) <= 100)%nat ->
  seen_messages self !! _get_message_hash p k = Some v ->
  (track_request self timestamp p t k).2.1 = false.
Proof.
  intros Hsz Hs. rewrite track_request_is_new, cache_at_small by done.
  rewrite Hs. done.
Qed.

(** A duplicate to run C10 on. *)
Lemma track_request_duplicate_is_atomic_witness :
  track_request after_first 1001 bob [] duke
    = (after_first, (false, AlreadySeen bob duke 1000 1001))
  /\ player_stats after_first = player_stats after_first
  /\ recent_requests after_first = recent_requests after_first
  /\ session_requests after_first = session_requests after_first
  /\ session_grants after_first = session_grants after_first
  /\ seen_messages_ttl after_first = seen_messages_ttl after_first
  /\ seen_messages after_first ⊆ seen_messages after_first
  /\ (forall h v, seen_messages after_first !! h = Some v ->
                  seen_messages after_first !! h = None ->
                  v <= 1001 - seen_messages_ttl after_first).
Proof.
  assert (E : track_request after_first 1001 bob [] duke
              = (after_first, (false, AlreadySeen bob duke 1000 1001)))
    by (vm_compute; reflexivity).
  split; [exact E |].
  exact (track_request_duplicate_is_atomic after_first 1001 bob [] duke
           after_first (AlreadySeen bob duke 1000 1001) E).
Defined.

(** A grant to run C3 on. *)
Lemma record_grant_clears_dedup_witness :
  record_grant after_first 1001 bob duke = (after_grant, true)
  /\ (track_request after_grant 1002 bob [] duke).2.1 = true.
Proof.
  assert (E : record_grant after_first 1001 bob duke = (after_grant, true))
    by (vm_compute; reflexivity).
  split; [exact E |].
  exact (record_grant_clears_dedup after_first 1001 1002 bob [] duke after_grant E).
Defined.

(** C3, as stated, fails: [record_grant] is not the only path that
    removes an entry of the seen-cache before its TTL.  One second after
    the request, [clear_player_from_seen] removes the entry; no grant is
    recorded and the next request is new. *)
Lemma clear_player_from_seen_removes_early :
  seen_messages after_first !! _get_message_hash bob duke = Some 1000
  /\ seen_messages (clear_player_from_seen after_first bob (Some duke))
       !! _get_message_hash bob duke = None
  /\ session_grants (clear_player_from_seen after_first bob (Some duke)) = 0
  /\ (track_request (clear_player_from_seen after_first bob (Some duke))
        1001 bob [] duke).2.1 = true
  /\ seen_messages (reset_seen_messages after_first) = ∅.
Proof. vm_compute. repeat split. Qed.

End TrackerFacts.

(** ** The tracker: statistics and the queue *)

Module TrackerStatsFacts.
Import PyStr Tracker.

Lemma str_eqb_refl (a : str) : str_eqb a a = true.
Proof. by apply bool_decide_eq_true_2. Qed.

Ltac distinct_titles :=
  repeat case_bool_decide; subst; try lia;
  try (exfalso;
       match goal with
       | H : lit _ = lit _ |- _ => vm_compute in H; discriminate
       | H : lit _ <> lit _ |- _ => apply H; reflexivity
       end).

Lemma add_request_counted st k t :
  counted st <= counted (add_request st k t) <= counted st + 1.
Proof.
  unfold counted, add_request, bump, str_eqb. cbn -[lit]. distinct_titles.
Qed.

Section WithUnicode.
Context `{UnicodeData}.

Lemma add_request_ok key st k t :
  key = _normalize_name (player_name st) ->
  0 <= total_requests st -> 0 <= counted st <= total_requests st ->
  0 <= total_grants st ->
  stats_ok key (add_request st k t).
Proof.
  intros Hk Ht Hc Hg.
  pose proof (add_request_counted st k t) as Hcnt.
  split; cbn; try done; try lia.
  - destruct (first_request st); by eexists.
  - exists t. split; [done |]. split; [by rewrite last_snoc |].
    apply Forall_app. split.
    + apply Forall_forall. intros u Hu.
      apply list_elem_of_In, filter_In in Hu as [_ Hu]. lia.
    + apply Forall_singleton. lia.
Qed.

Lemma set_alliance_tag_counted st tag :
  counted (set_alliance_tag st tag) = counted st.
Proof. reflexivity. Qed.

Lemma call_keeps_stats_ok self c :
  map_Forall stats_ok (player_stats self) ->
  map_Forall stats_ok (player_stats (call self c)).
Proof.
  intros Hall. destruct c as [now p tag k | now p k | p k |]; cbn.
  - unfold track_request.
    set (self1 := if bool_decide _ then _ else self).
    assert (Hps : player_stats self1 = player_stats self)
      by (unfold self1; by case_bool_decide).
    destruct (seen_messages self1 !! _); cbn; [by rewrite Hps |].
    rewrite Hps. apply map_Forall_insert_2; [| done].
    destruct (player_stats self !! _normalize_name p) as [st |] eqn:E.
    + destruct (Hall _ _ E) as [Hk Ht Hc Hg _ _].
      destruct (_ && _); apply add_request_ok; cbn; try done; lia.
    + destruct (_ && _); apply add_request_ok; cbn; try done; lia.
  - unfold record_grant.
    destruct (player_stats self !! _normalize_name p) as [st |] eqn:E;
      cbn; [| done].
    apply map_Forall_insert_2; [| done].
    destruct (Hall _ _ E) as [Hk Ht Hc Hg Hf Hl].
    split; cbn; try done. lia.
  - unfold clear_player_from_seen.
    destruct k as [k |]; [case_bool_decide |]; done.
  - done.
Qed.

(** X1.  In every state that a fresh tracker reaches through its methods,
    the statistics of a player are stored under the normalized form of
    the name that the player had at the first request, count at least
    one request, have the first and the last request set, count under
    the four titles no more requests than in total, and keep as recent
    request times only times within the hour before the last request,
    the last of them being that of the last request. *)
Theorem calls_keep_stats_ok (cs : list Call) :
  map_Forall stats_ok (player_stats (calls cs)).
Proof.
  unfold calls.
  assert (Hgen : forall self,
             map_Forall stats_ok (player_stats self) ->
             map_Forall stats_ok (player_stats (fold_left call cs self))).
  { induction cs as [| c cs IH]; intros self Hs; [done |].
    cbn. apply IH. by apply call_keeps_stats_ok. }
  apply Hgen. cbn. apply map_Forall_empty.
Qed.

Lemma track_request_new_has_stats self now p tag k self' msg :
  track_request self now p tag k = (self', (true, msg)) ->
  is_Some (player_stats self' !! _normalize_name p).
Proof.
  unfold track_request.
  destruct (seen_messages _ !! _); [intros [= _ ?]; done |].
  intros [= <- _]. cbn. eexists. apply lookup_insert_eq.
Qed.

(** X2.  A request that is new is recorded in the statistics of the player:
    [get_player_stats] finds them, with one request more than before,
    this request as the last one, and the alliance tag of the request
    unless that is empty; the statistics of every player with another
    normalized name are what they were. *)
Theorem track_request_updates_stats self now p tag k self' msg :
  track_request self now p tag k = (self', (true, msg)) ->
  (exists st,
      get_player_stats self' p = Some st
      /\ last_request st = Some now
      /\ total_requests st
         = from_option total_requests 0 (get_player_stats self p) + 1
      /\ first_request st
         = Some (default now (get_player_stats self p ≫= first_request))
      /\ alliance_tag st
         = (if bool_decide (tag = [])
            then from_option alliance_tag [] (get_player_stats self p)
            else tag))
  /\ (forall q, _normalize_name q <> _normalize_name p ->
                get_player_stats self' q = get_player_stats self q)
  /\ session_requests self' = session_requests self + 1.
Proof.
  unfold track_request, get_player_stats.
  set (self1 := if bool_decide _ then _ else self).
  assert (Hps : player_stats self1 = player_stats self)
    by (unfold self1; by case_bool_decide).
  assert (Hsr : session_requests self1 = session_requests self)
    by (unfold self1; by case_bool_decide).
  destruct (seen_messages self1 !! _); [intros [= _ ?]; done |].
  intros [= <- _]. cbn. rewrite Hps, Hsr. split; [| split; [| done]].
  - eexists. split; [apply lookup_insert_eq |].
    destruct (player_stats self !! _normalize_name p) as [st |]; cbn.
    + unfold str_eqb. repeat case_bool_decide; cbn; subst;
        destruct (first_request st); try done.
    + unfold str_eqb. repeat case_bool_decide; cbn; subst; done.
  - intros q Hq. by rewrite lookup_insert_ne.
Qed.

Lemma filter_swap {A : Type} (f g : A -> bool) (l : list A) :
  List.filter f (List.filter g l) = List.filter g (List.filter f l).
Proof.
  induction l as [| x l IH]; [done |].
  cbn. destruct (f x) eqn:Ef, (g x) eqn:Eg; cbn; rewrite ?Ef, ?Eg;
    by rewrite IH.
Qed.

Lemma lookup_fold_delete_None {A : Type} (f : str -> str) titles :
  forall (m : gmap str A) h,
    m !! h = None ->
    fold_left (fun seen title => delete (f title) seen) titles m !! h = None.
Proof.
  induction titles as [| t titles IH]; intros m h Hm; [done |].
  cbn. apply IH. apply lookup_delete_None. by right.
Qed.

Lemma lookup_fold_delete {A : Type} (f : str -> str) titles :
  forall (m : gmap str A) t,
    t ∈ titles ->
    fold_left (fun seen title => delete (f title) seen) titles m !! f t = None.
Proof.
  induction titles as [| t' titles IH]; intros m t Ht; [by set_unfold |].
  cbn. apply elem_of_cons in Ht as [-> | Ht]; [| by apply IH].
  apply lookup_fold_delete_None, lookup_delete_eq.
Qed.

Lemma mark_granted_head normalized k now req rest :
  str_eqb (_normalize_name (req_player_name req)) normalized = true ->
  str_eqb (req_title_type req) k = true ->
  was_granted req = false ->
  mark_granted normalized k now (req :: rest)
  = {| req_player_name := req_player_name req;
       req_alliance_tag := req_alliance_tag req;
       req_title_type := req_title_type req;
       req_timestamp := req_timestamp req;
       was_granted := true; granted_at := Some now |} :: rest.
Proof. intros H1 H2 H3. cbn. by rewrite H1, H2, H3. Qed.

(** X3.  A request that is new and is granted next leaves the queue as it
    was before the two calls, without the requests that were older than
    two minutes when the request came: the grant marks this request and
    no other. *)
Theorem grant_after_request_leaves_queue self now now' p tag k self' msg :
  track_request self now p tag k = (self', (true, msg)) ->
  (record_grant self' now' p k).2 = true
  /\ get_queue (record_grant self' now' p k).1
     = List.filter (fun r => now - 120 <? req_timestamp r) (get_queue self).
Proof.
  intros Ht.
  destruct (track_request_new_has_stats _ _ _ _ _ _ _ Ht) as [st Hst].
  unfold record_grant. rewrite Hst. split; [done |].
  revert Ht. unfold track_request.
  set (self1 := if bool_decide _ then _ else self).
  assert (Hrr : recent_requests self1 = recent_requests self)
    by (unfold self1; by case_bool_decide).
  destruct (seen_messages self1 !! _); [intros [= _ ?]; done |].
  intros [= <- _]. unfold get_queue. cbn [recent_requests fst].
  rewrite Hrr, rev_app_distr. cbn [rev app].
  rewrite mark_granted_head by (try apply str_eqb_refl; done).
  cbn [rev]. rewrite rev_involutive, List.filter_app. cbn.
  rewrite app_nil_r.
  apply filter_swap.
Qed.

(** X4.  After [clear_player_from_seen(player)] without a title, a request
    of the player for any of the four titles is new. *)
Theorem clear_player_allows_all_titles self now p tag :
  Forall
    (fun k =>
       (track_request (clear_player_from_seen self p None) now p tag k).2.1
       = true)
    [lit "duke"; lit "scientist"; lit "architect"; lit "justice"].
Proof.
  apply Forall_forall. intros k Hk.
  rewrite TrackerFacts.track_request_is_new.
  apply bool_decide_eq_true_2, TrackerFacts.cache_at_lookup_None.
  unfold clear_player_from_seen. cbn [seen_messages set_seen].
  by apply (lookup_fold_delete (_get_message_hash p)).
Qed.

End WithUnicode.

(** X5.  [favorite_title] is ["none"] exactly when the four counts are zero;
    otherwise it is a title with the greatest count, and of several
    such the first in the order duke, scientist, architect, justice. *)
Theorem favorite_title_is_first_maximum (st : PlayerTitleStats) :
  let d := duke_requests st in
  let s := scientist_requests st in
  let a := architect_requests st in
  let j := justice_requests st in
  (favorite_title st = lit "none" <-> d = 0 /\ s = 0 /\ a = 0 /\ j = 0)
  /\ (favorite_title st = lit "duke" <->
      ~ (d = 0 /\ s = 0 /\ a = 0 /\ j = 0) /\ s <= d /\ a <= d /\ j <= d)
  /\ (favorite_title st = lit "scientist" <-> d < s /\ a <= s /\ j <= s)
  /\ (favorite_title st = lit "architect" <-> d < a /\ s < a /\ j <= a)
  /\ (favorite_title st = lit "justice" <-> d < j /\ s < j /\ a < j).
Proof.
  cbv zeta. unfold favorite_title, title_counts, max_by_count.
  cbn -[lit].
  destruct (Z.eqb_spec (duke_requests st) 0),
    (Z.eqb_spec (scientist_requests st) 0),
    (Z.eqb_spec (architect_requests st) 0),
    (Z.eqb_spec (justice_requests st) 0); cbn -[lit];
    repeat match goal with
           | |- context [(?x <? ?y)] =>
               lazymatch x with
               | context [if _ then _ else _] => fail
               | _ => destruct (Z.ltb_spec x y); cbn -[lit]
               end
           end;
    repeat split; intros;
    first [ done | lia | exfalso; lia
          | exfalso;
            match goal with
            | H : lit _ = lit _ |- _ => vm_compute in H; discriminate
            end ].
Qed.

#[local] Existing Instance ascii_tables.
Import Scenes.

Lemma track_request_updates_stats_witness :
  track_request init 1000 bob [] duke = (after_first, (true, Tracked [] bob duke))
  /\ (exists st,
        get_player_stats after_first bob = Some st
        /\ last_request st = Some 1000
        /\ total_requests st
           = from_option total_requests 0 (get_player_stats init bob) + 1
        /\ first_request st
           = Some (default 1000 (get_player_stats init bob ≫= first_request))
        /\ alliance_tag st
           = (if bool_decide ([] = ([] : str))
              then from_option alliance_tag [] (get_player_stats init bob)
              else []))
  /\ (forall q, _normalize_name q <> _normalize_name bob ->
                get_player_stats after_first q = get_player_stats init q)
  /\ session_requests after_first = session_requests init + 1.
Proof.
  assert (E : track_request init 1000 bob [] duke
              = (after_first, (true, Tracked [] bob duke)))
    by (vm_compute; reflexivity).
  split; [exact E |].
  exact (track_request_updates_stats init 1000 bob [] duke after_first
           (Tracked [] bob duke) E).
Defined.

Lemma grant_after_request_leaves_queue_witness :
  track_request init 1000 bob [] duke = (after_first, (true, Tracked [] bob duke))
  /\ (record_grant after_first 1001 bob duke).2 = true
  /\ get_queue (record_grant after_first 1001 bob duke).1
     = List.filter (fun r => 1000 - 120 <? req_timestamp r) (get_queue init).
Proof.
  assert (E : track_request init 1000 bob [] duke
              = (after_first, (true, Tracked [] bob duke)))
    by (vm_compute; reflexivity).
  split; [exact E |].
  exact (grant_after_request_leaves_queue init 1000 1001 bob [] duke
           after_first (Tracked [] bob duke) E).
Defined.

End TrackerStatsFacts.

(** ** The recovery loops and the escape key *)

Module RecoveryFacts.
Import Py Image GameState.

(** [cycles] counts the screen captures of a trace. *)
Lemma cycles_snoc_screencap t :
  Recovery.cycles (t ++ [Recovery.Screencap]) = S (Recovery.cycles t).
Proof.
  unfold Recovery.cycles. rewrite List.filter_app, length_app. cbn. lia.
Qed.

Lemma cycles_snoc_other t e :
  e <> Recovery.Screencap -> Recovery.cycles (t ++ [e]) = Recovery.cycles t.
Proof.
  intros He. unfold Recovery.cycles. rewrite List.filter_app, length_app.
  destruct e; cbn; try lia. congruence.
Qed.

Section WithDevice.
Context {W : Type} (adb : Recovery.Device W).
Import Recovery.

Lemma do_sleep_cycles r arg :
  cycles (trace (do_sleep adb r arg).1) = cycles (trace r).
Proof.
  unfold do_sleep. destruct arg as [| d |]; try done.
  destruct (Num.Qltb d 0); [done |]. cbn. by apply cycles_snoc_other.
Qed.

Lemma do_tap_cycles r arg :
  cycles (trace (do_tap adb r arg).1) = cycles (trace r).
Proof.
  unfold do_tap. destruct (dev_tap adb (world r) arg). cbn.
  by apply cycles_snoc_other.
Qed.

Lemma do_keyevent_cycles r arg :
  cycles (trace (do_keyevent adb r arg).1) = cycles (trace r).
Proof.
  unfold do_keyevent. destruct (dev_keyevent adb (world r) arg). cbn.
  by apply cycles_snoc_other.
Qed.

Lemma run_steps_cycles steps r :
  cycles (trace (run_steps adb r steps).1) = cycles (trace r).
Proof.
  revert r. induction steps as [| [step_type arg] rest IH]; intros r; [done |].
  cbn [run_steps].
  destruct (String.eqb step_type "key") eqn:Ek.
  { pose proof (do_keyevent_cycles r arg) as Hc.
    destruct (do_keyevent adb r arg) as [r1 [u | e]]; cbn in *;
      [rewrite IH |]; done. }
  destruct (String.eqb step_type "tap") eqn:Et.
  { pose proof (do_tap_cycles r arg) as Hc.
    destruct (do_tap adb r arg) as [r1 [u | e]]; cbn in *;
      [rewrite IH |]; done. }
  destruct (String.eqb step_type "wait") eqn:Ew.
  { pose proof (do_sleep_cycles r arg) as Hc.
    destruct (do_sleep adb r arg) as [r1 [u | e]]; cbn in *;
      [rewrite IH |]; done. }
  apply IH.
Qed.

(** An action captures no screen. *)
Lemma execute_action_cycles r a :
  cycles (trace (_execute_action adb r a).1) = cycles (trace r).
Proof.
  unfold _execute_action. destruct (action a) as [action_type |]; [| done].
  repeat (match goal with
          | |- context [if ?b then _ else _] => destruct b
          | |- context [match ?o with Some _ => _ | None => _ end] => destruct o
          end; try done).
  - pose proof (do_tap_cycles r (SPos p)) as Hc.
    by destruct (do_tap adb r (SPos p)).
  - pose proof (do_keyevent_cycles r (SKey s)) as Hc.
    by destruct (do_keyevent adb r (SKey s)).
  - pose proof (do_sleep_cycles r (SNum (default 1%Q (duration a)))) as Hc.
    by destruct (do_sleep adb r _).
  - pose proof (do_sleep_cycles r (SNum (default 3%Q (duration a)))) as Hc.
    by destruct (do_sleep adb r _).
  - pose proof (run_steps_cycles (default [] (steps a)) r) as Hc.
    by destruct (run_steps adb r _).
Qed.

(** The loop of [recover_to_idle] ends when its fuel covers the attempts
    that are left, and every turn captures the screen once. *)
Lemma recover_loop_bounded fuel : forall self r,
  (forall screen, exists res, det_detect_state (detector self) screen = Ok res) ->
  (Z.to_nat (max_attempts self - recovery_attempts self) <= fuel)%nat ->
  exists r' self' b,
    recover_loop adb fuel self r = Some (r', self', Ok b)
    /\ (cycles (trace r')
        <= cycles (trace r)
           + Z.to_nat (max_attempts self - recovery_attempts self))%nat
    /\ (b = false ->
        cycles (trace r')
        = (cycles (trace r)
           + Z.to_nat (max_attempts self - recovery_attempts self))%nat).
Proof.
  induction fuel as [| fuel IH]; intros self r Htotal Hfuel.
  - cbn. destruct (Z.ltb_spec (recovery_attempts self) (max_attempts self));
      [lia |].
    exists r, self, false. split; [done |].
    replace (Z.to_nat _) with 0%nat by lia. split; [lia |]. intros _. lia.
  - cbn [recover_loop].
    destruct (Z.ltb_spec (recovery_attempts self) (max_attempts self)) as [Hlt | Hge].
    2:{ exists r, self, false. split; [done |].
        replace (Z.to_nat _) with 0%nat by lia. split; [lia |]. intros _. lia. }
    set (self1 := set_attempts self (recovery_attempts self + 1)).
    assert (Hleft : (Z.to_nat (max_attempts self - recovery_attempts self)
                     = S (Z.to_nat (max_attempts self1 - recovery_attempts self1)))%nat)
      by (cbn; lia).
    assert (Htotal1 : forall screen, exists res,
               det_detect_state (detector self1) screen = Ok res) by exact Htotal.
    assert (Hfuel1 : (Z.to_nat (max_attempts self1 - recovery_attempts self1)
                      <= fuel)%nat) by lia.
    unfold do_screencap.
    destruct (dev_screencap adb (world r)) as [w [screen | e]].
    + destruct (Htotal screen) as [res Hres]. cbn [detector self1 set_attempts].
      change (detector self1) with (detector self). rewrite Hres.
      case_bool_decide.
      * eexists _, _, true. split; [reflexivity |]. cbn [trace].
        rewrite cycles_snoc_screencap. split; [lia | done].
      * set (r1 := {| world := w; trace := trace r ++ [Screencap] |}).
        pose proof (execute_action_cycles r1
                      (det_get_recovery_action (detector self) (state res))) as Hc.
        destruct (_execute_action adb r1 _) as [r2 success].
        pose proof (do_sleep_cycles r2 (SNum (5 # 10)%Q)) as Hs.
        destruct (do_sleep adb r2 _) as [r3 ?]. cbn [fst] in *.
        destruct (IH self1 r3 Htotal1 Hfuel1) as (r' & self' & b & E & Hle & Hex).
        exists r', self', b. split; [exact E |].
        assert (cycles (trace r3) = S (cycles (trace r)))
          by (rewrite Hs, Hc; apply cycles_snoc_screencap).
        split; [lia |]. intros Hb. specialize (Hex Hb). lia.
    + set (r1 := {| world := w; trace := trace r ++ [Screencap] |}).
      pose proof (do_sleep_cycles r1 (SNum 1%Q)) as Hs.
      destruct (do_sleep adb r1 _) as [r2 ?]. cbn [fst] in *.
      destruct (IH self1 r2 Htotal1 Hfuel1) as (r' & self' & b & E & Hle & Hex).
      exists r', self', b. split; [exact E |].
      assert (cycles (trace r2) = S (cycles (trace r)))
        by (rewrite Hs; apply cycles_snoc_screencap).
      split; [lia |]. intros Hb. specialize (Hex Hb). lia.
Qed.


End WithDevice.

Section WithBot.
Context {W Pil Cv : Type} (self : @TitleBot.Bot W Pil Cv).
Import TitleBot.

Lemma bot_cycles_snoc_screenshot t :
  cycles (t ++ [Screenshot]) = S (cycles t).
Proof. unfold cycles. rewrite List.filter_app, length_app. cbn. lia. Qed.

Lemma bot_cycles_snoc_other t e :
  e <> Screenshot -> cycles (t ++ [e]) = cycles t.
Proof.
  intros He. unfold cycles. rewrite List.filter_app, length_app.
  destruct e; cbn; try lia. congruence.
Qed.

Lemma sleep_cycles r d : cycles (trace (sleep self r d)) = cycles (trace r).
Proof. cbn. by apply bot_cycles_snoc_other. Qed.

(** [safe_escape] sends the key, waits, looks at the screen and, when it
    shows the exit dialog, taps CANCEL before anything else. *)
Lemma safe_escape_trace r :
  exists after,
    trace (safe_escape self r)
      = trace r ++ [Esc; SleepEv (3 # 10); SleepEv (3 # 10); ScreenshotCv2] ++ after
    /\ (after = [] \/
        after = [TapEv (fst exit_cancel) (snd exit_cancel); SleepEv (5 # 10)]).
Proof.
  unfold safe_escape, handle_exit_popup, screenshot_cv2, press_escape. cbn.
  destruct (dev_screenshot_cv2 _ _) as [w [cv |]]; cbn.
  - destruct (is_exit_popup self cv); cbn; rewrite <- !app_assoc; cbn;
      eexists; (split; [reflexivity |]); auto.
  - rewrite <- !app_assoc. cbn. exists []. auto.
Qed.

Lemma safe_escape_cycles r :
  cycles (trace (safe_escape self r)) = cycles (trace r).
Proof.
  destruct (safe_escape_trace r) as (after & -> & [-> | ->]);
    unfold cycles; rewrite List.filter_app, length_app; cbn; lia.
Qed.

(** [ensure_idle] makes at most as many attempts as it is allowed, and
    all of them when it answers [False]. *)
Lemma ensure_idle_loop_bounded n : forall r,
  (cycles (trace (ensure_idle_loop self n r).1) <= cycles (trace r) + n)%nat
  /\ ((ensure_idle_loop self n r).2 = false ->
      cycles (trace (ensure_idle_loop self n r).1) = (cycles (trace r) + n)%nat).
Proof.
  induction n as [| n IH]; intros r; [cbn; lia |].
  cbn [ensure_idle_loop]. unfold screenshot.
  destruct (dev_screenshot _ _) as [w [pil |]].
  - set (r1 := {| world := w; trace := trace r ++ [Screenshot] |}).
    assert (Hr1 : cycles (trace r1) = S (cycles (trace r)))
      by apply bot_cycles_snoc_screenshot.
    destruct (is_idle (detect_state self pil) (idle_threshold self)).
    { cbn [fst snd]. split; [lia | done]. }
    unfold screenshot_cv2.
    destruct (dev_screenshot_cv2 _ _) as [w2 cv].
    set (r2 := {| world := w2; trace := trace r1 ++ [ScreenshotCv2] |}).
    assert (Hr2 : cycles (trace r2) = S (cycles (trace r)))
      by (cbn [trace r2]; rewrite bot_cycles_snoc_other by done; exact Hr1).
    match goal with |- context [if ?b then _ else _] => destruct b end.
    { cbn [fst snd]. split; [lia | done]. }
    destruct (IH (sleep self (safe_escape self r2) (35 # 100))) as [Hle Hex].
    rewrite sleep_cycles, safe_escape_cycles in Hle, Hex.
    split; [lia |]. intros Hb. specialize (Hex Hb). lia.
  - set (r1 := {| world := w; trace := trace r ++ [Screenshot] |}).
    assert (Hr1 : cycles (trace r1) = S (cycles (trace r)))
      by apply bot_cycles_snoc_screenshot.
    destruct (IH (sleep self r1 (5 # 10))) as [Hle Hex].
    rewrite sleep_cycles in Hle, Hex.
    split; [lia |]. intros Hb. specialize (Hex Hb). lia.
Qed.

End WithBot.



(** The run of the witness: five cycles, then [False]. *)
Example recover_to_idle_gives_up :
  exists r' self',
    Recovery.recover_to_idle Scenes.quiet_device 5
      (Recovery.new Scenes.blind_detector) Scenes.quiet_start
    = Some (r', self', Ok false)
    /\ Recovery.cycles (Recovery.trace r') = 5%nat
    /\ Recovery.recovery_attempts self' = 5.
Proof. eexists _, _. vm_compute. repeat split. Qed.

End RecoveryFacts.

(** ** The recovery loops: what the outcomes mean *)

Module RecoveryOutcomeFacts.
Import Py Image GameState.

Section WithDevice.
Context {W : Type} (adb : Recovery.Device W).
Import Recovery.

(** X9.  The recovery action of a state is carried out, and
    [_execute_action] answers [True], for the nine states that have an
    entry in the table of [get_recovery_action]; for the others, among
    them [RANKINGS_KILLPOINTS], which the classifier reports, the action
    is ["unknown"]: nothing is sent to the device and the answer is
    [False]. *)
Theorem recovery_action_outcome (r : Run) (st : GameState.GameState) :
  (forall w arg, (dev_tap adb w arg).2 = Ok tt) ->
  (forall w arg, (dev_keyevent adb w arg).2 = Ok tt) ->
  (_execute_action adb r (get_recovery_action st)).2
  = bool_decide
      (st ∈ [EXIT_MENU; CONNECTION_ERROR; CONFIRMATION_POPUP; LOADING_SCREEN;
             BLACK_SCREEN; UNKNOWN; GOVERNOR_PROFILE; RANKINGS_POWER; IDLE_MAP])
  /\ ((_execute_action adb r (get_recovery_action st)).2 = false ->
      (_execute_action adb r (get_recovery_action st)).1 = r).
Proof.
  intros Htap Hkey.
  destruct st; cbn;
    unfold do_tap, do_keyevent;
    repeat match goal with
           | |- context [Num.Qltb (3 # 10) 0] =>
               change (Num.Qltb (3 # 10) 0) with false; cbn
           | |- context [dev_tap adb ?w ?a] =>
               let E := fresh in
               pose proof (Htap w a) as E;
               destruct (dev_tap adb w a) as [? ?]; cbn in E; subst; cbn
           | |- context [dev_keyevent adb ?w ?a] =>
               let E := fresh in
               pose proof (Hkey w a) as E;
               destruct (dev_keyevent adb w a) as [? ?]; cbn in E; subst; cbn
           end;
    (split; [by vm_compute | done]).
Qed.

(** X10.  [handle_error_popup] taps only when the classifier reports the
    connection error or the exit dialog.  For the exit dialog it sends
    one tap, on CANCEL at (779, 457), the position that
    [get_recovery_action] gives for [EXIT_MENU].  For the connection
    error it taps (800, 500), (700, 500) and (900, 500) in this order
    and sleeps 0.3 s after each: the first tap that raises ends it with
    that exception, and when none raises all six events are sent and
    the answer is [True].  For every other state it sends nothing and
    answers [False]. *)
Theorem handle_error_popup_outcome (self : IntelligentRecovery) (r : Run)
    (screen : Screen) (res : StateDetectionResult) :
  det_detect_state (detector self) screen = Ok res ->
  (state res = EXIT_MENU ->
   position (get_recovery_action EXIT_MENU) = Some (779, 457)
   /\ handle_error_popup adb self r screen
      = (let t := dev_tap adb (world r) (SPos (779, 457)) in
         ({| world := t.1; trace := trace r ++ [TapEv (SPos (779, 457))] |},
          (fun _ => true) <$> t.2)))
  /\ (state res = CONNECTION_ERROR ->
      let pause := SleepEv (SNum (3 # 10)) in
      let t1 := dev_tap adb (world r) (SPos (800, 500)) in
      let t2 := dev_tap adb (dev_sleep adb t1.1 (3 # 10)) (SPos (700, 500)) in
      let t3 := dev_tap adb (dev_sleep adb t2.1 (3 # 10)) (SPos (900, 500)) in
      handle_error_popup adb self r screen
      = match t1.2, t2.2, t3.2 with
        | Raise e, _, _ =>
            ({| world := t1.1;
                trace := trace r ++ [TapEv (SPos (800, 500))] |}, Raise e)
        | Ok _, Raise e, _ =>
            ({| world := t2.1;
                trace := trace r ++ [TapEv (SPos (800, 500)); pause;
                                     TapEv (SPos (700, 500))] |}, Raise e)
        | Ok _, Ok _, Raise e =>
            ({| world := t3.1;
                trace := trace r ++ [TapEv (SPos (800, 500)); pause;
                                     TapEv (SPos (700, 500)); pause;
                                     TapEv (SPos (900, 500))] |}, Raise e)
        | Ok _, Ok _, Ok _ =>
            ({| world := dev_sleep adb t3.1 (3 # 10);
                trace := trace r ++ [TapEv (SPos (800, 500)); pause;
                                     TapEv (SPos (700, 500)); pause;
                                     TapEv (SPos (900, 500)); pause] |},
             Ok true)
        end)
  /\ (state res <> EXIT_MENU -> state res <> CONNECTION_ERROR ->
      handle_error_popup adb self r screen = (r, Ok false)).
Proof.
  intros Hres. unfold handle_error_popup. rewrite Hres.
  split; [| split].
  - intros ->. rewrite bool_decide_eq_false_2, bool_decide_eq_true_2 by done.
    split; [reflexivity |].
    unfold do_tap. by destruct (dev_tap adb _ _) as [? ?].
  - intros ->. rewrite bool_decide_eq_true_2 by done.
    cbn. unfold do_tap.
    change (Num.Qltb (3 # 10) 0) with false.
    destruct (dev_tap adb (world r) _) as [w1 [[] | e1]]; cbn; [| done].
    destruct (dev_tap adb (dev_sleep adb w1 _) _) as [w2 [[] | e2]]; cbn.
    2:{ by rewrite <- !app_assoc. }
    destruct (dev_tap adb (dev_sleep adb w2 _) _) as [w3 [[] | e3]]; cbn;
      by rewrite <- !app_assoc.
  - intros H1 H2. by rewrite !bool_decide_eq_false_2.
Qed.

(** The same for the loop of [recover_to_idle], from any number of
    attempts made. *)
Lemma recover_loop_outcome fuel : forall self r r' self' out,
  recover_loop adb fuel self r = Some (r', self', out) ->
  match out with
  | Ok true =>
      exists r0 screen res,
        do_screencap adb r0 = (r', Ok screen)
        /\ det_detect_state (detector self) screen = Ok res
        /\ state res = IDLE_MAP
  | Ok false => max_attempts self' <= recovery_attempts self'
  | Raise e =>
      exists r0 screen,
        do_screencap adb r0 = (r', Ok screen)
        /\ det_detect_state (detector self) screen = Raise e
  end.
Proof.
  induction fuel as [| fuel IH]; intros self r r' self' out; cbn [recover_loop];
    destruct (Z.ltb_spec (recovery_attempts self) (max_attempts self));
    try discriminate; try (intros [= <- <- <-]; lia).
  destruct (do_screencap adb r) as [r1 [screen | e]] eqn:Eshot.
  - cbn [detector set_attempts].
    destruct (det_detect_state (detector self) screen) as [res | e] eqn:Edet.
    + case_bool_decide.
      * intros [= <- <- <-]. by exists r, screen, res.
      * destruct (_execute_action adb r1 _) as [r2 success].
        destruct (do_sleep adb r2 _) as [r3 ?].
        intros Hloop. by apply IH in Hloop.
    + intros [= <- <- <-]. by exists r, screen.
  - destruct (do_sleep adb r1 _) as [r2 ?].
    intros Hloop. by apply IH in Hloop.
Qed.

(** X11.  What the outcomes of [recover_to_idle] mean.  It answers [True]
    only directly after a capture that the detector classified as
    [IDLE_MAP]: nothing is sent to the device after that capture.  It
    answers [False] only with the attempts used up.  And it raises only
    what the detector raised on the last capture: an exception of the
    detector is not caught. *)
Theorem recover_to_idle_outcome fuel self r r' self' out :
  recover_to_idle adb fuel self r = Some (r', self', out) ->
  match out with
  | Ok true =>
      exists r0 screen res,
        do_screencap adb r0 = (r', Ok screen)
        /\ det_detect_state (detector self) screen = Ok res
        /\ state res = IDLE_MAP
  | Ok false => max_attempts self' <= recovery_attempts self'
  | Raise e =>
      exists r0 screen,
        do_screencap adb r0 = (r', Ok screen)
        /\ det_detect_state (detector self) screen = Raise e
  end.
Proof.
  intros Hloop.
  exact (recover_loop_outcome fuel (set_attempts self 0) r r' self' out Hloop).
Qed.

End WithDevice.

Section WithBot.
Context {W Pil Cv : Type} (self : @TitleBot.Bot W Pil Cv).
Import TitleBot.


End WithBot.

#[local] Existing Instance opencv.
Import Scenes.

Lemma recovery_action_outcome_witness :
  (forall w arg, (Recovery.dev_tap quiet_device w arg).2 = Ok tt)
  /\ (forall w arg, (Recovery.dev_keyevent quiet_device w arg).2 = Ok tt)
  /\ (Recovery._execute_action quiet_device quiet_start
        (get_recovery_action RANKINGS_KILLPOINTS)).2
     = bool_decide
         (RANKINGS_KILLPOINTS
          ∈ [EXIT_MENU; CONNECTION_ERROR; CONFIRMATION_POPUP; LOADING_SCREEN;
             BLACK_SCREEN; UNKNOWN; GOVERNOR_PROFILE; RANKINGS_POWER; IDLE_MAP])
  /\ ((Recovery._execute_action quiet_device quiet_start
         (get_recovery_action RANKINGS_KILLPOINTS)).2 = false ->
      (Recovery._execute_action quiet_device quiet_start
         (get_recovery_action RANKINGS_KILLPOINTS)).1 = quiet_start).
Proof.
  assert (H1 : forall w arg, (Recovery.dev_tap quiet_device w arg).2 = Ok tt)
    by reflexivity.
  assert (H2 : forall w arg,
             (Recovery.dev_keyevent quiet_device w arg).2 = Ok tt)
    by reflexivity.
  split; [exact H1 |]. split; [exact H2 |].
  exact (recovery_action_outcome quiet_device quiet_start RANKINGS_KILLPOINTS
           H1 H2).
Defined.

Lemma recover_to_idle_outcome_witness :
  exists r' self',
    Recovery.recover_to_idle quiet_device 5 (Recovery.new blind_detector)
      quiet_start
    = Some (r', self', Ok false)
    /\ Recovery.max_attempts self' <= Recovery.recovery_attempts self'.
Proof.
  eexists _, _. split; [vm_compute; reflexivity |].
  refine (recover_to_idle_outcome quiet_device 5 (Recovery.new blind_detector)
            quiet_start _ _ (Ok false) _).
  vm_compute. reflexivity.
Defined.


End RecoveryOutcomeFacts.

(** ** The title bot: escapes that are guarded *)

Module TitleBotRecoveryFacts.
Import TitleBot TitleBotRecovery.

Lemma guarded_app_bounded (n : nat) : forall a b,
  (length a <= n)%nat ->
  guarded a = true -> guarded b = true -> guarded (a ++ b) = true.
Proof.
  induction n as [| n IH]; intros a b Hn Ha Hb.
  - destruct a; [done | cbn in Hn; lia].
  - destruct a as [| e a]; [done |].
    cbn in Hn. destruct e as [| | | x y | d]; cbn in *.
    + apply IH; [lia | done | done].
    + apply IH; [lia | done | done].
    + destruct a as [| [| | | |] a]; try done.
      destruct a as [| [| | | |] a]; try done.
      destruct a as [| [| | | |] a]; try done.
      cbn in *. apply IH; [lia | done | done].
    + apply andb_true_iff in Ha as [-> Ha]. cbn.
      apply IH; [lia | done | done].
    + apply IH; [lia | done | done].
Qed.

Lemma guarded_app (a b : list Event) :
  guarded a = true -> guarded b = true -> guarded (a ++ b) = true.
Proof. by apply (guarded_app_bounded (length a)). Qed.

Lemma escapes_app (a b : list Event) :
  escapes (a ++ b) = (escapes a + escapes b)%nat.
Proof. unfold escapes. by rewrite List.filter_app, length_app. Qed.

Section WithDevice.
Context {W Pil Cv : Type} (self : @Bot W Pil Cv).
Context (is_event_screen_open is_build_menu_open : Cv -> bool).

Lemma follows_refl (r : @Run W) : follows 0 r r.
Proof. exists []. by rewrite app_nil_r. Qed.

Lemma follows_trans j k (r r1 r2 : @Run W) :
  follows j r r1 -> follows k r1 r2 -> follows (j + k) r r2.
Proof.
  intros (a & Ha & Hga & Hea) (b & Hb & Hgb & Heb). exists (a ++ b).
  split; [by rewrite Hb, Ha, app_assoc |].
  split; [by apply guarded_app |]. rewrite escapes_app. lia.
Qed.

Lemma follows_mono j k (r r' : @Run W) :
  (j <= k)%nat -> follows j r r' -> follows k r r'.
Proof. intros Hjk (a & Ha & Hg & He). exists a. repeat split; [done.. | lia]. Qed.

Lemma follows_sleep (r : @Run W) d : follows 0 r (sleep self r d).
Proof. by exists [SleepEv d]. Qed.

Lemma follows_screenshot (r : @Run W) : follows 0 r (screenshot self r).1.
Proof.
  unfold screenshot. destruct (dev_screenshot _ _). by exists [Screenshot].
Qed.

Lemma follows_screenshot_cv2 (r : @Run W) :
  follows 0 r (screenshot_cv2 self r).1.
Proof.
  unfold screenshot_cv2. destruct (dev_screenshot_cv2 _ _).
  by exists [ScreenshotCv2].
Qed.

Lemma follows_tap_cancel (r : @Run W) d :
  follows 0 r (tap self r (fst exit_cancel) (snd exit_cancel) d).
Proof.
  exists [TapEv (fst exit_cancel) (snd exit_cancel); SleepEv d].
  split; [| done]. cbn. by rewrite <- app_assoc.
Qed.

Lemma follows_press_escape_checked (r : @Run W) :
  follows 1 r (screenshot_cv2 self (sleep self (press_escape self r) (3 # 10))).1.
Proof.
  unfold screenshot_cv2. destruct (dev_screenshot_cv2 _ _) as [w cv].
  exists [Esc; SleepEv (3 # 10); SleepEv (3 # 10); ScreenshotCv2].
  split; [| split; [done | cbn; lia]]. cbn. by rewrite <- !app_assoc.
Qed.

Lemma follows_handle_exit_popup (r : @Run W) :
  follows 0 r (handle_exit_popup self r).1.
Proof.
  unfold handle_exit_popup.
  pose proof (follows_screenshot_cv2 r) as H1.
  destruct (screenshot_cv2 self r) as [r1 [cv |]]; cbn [fst] in *; [| done].
  destruct (is_exit_popup self cv); cbn [fst]; [| done].
  apply (follows_trans _ _ _ _ _ H1 (follows_tap_cancel r1 _)).
Qed.

Lemma follows_safe_escape (r : @Run W) : follows 1 r (safe_escape self r).
Proof.
  destruct (RecoveryFacts.safe_escape_trace self r) as (after & Ht & Hafter).
  eexists. split; [exact Ht |].
  destruct Hafter as [-> | ->]; cbn; split; (done || lia).
Qed.

Lemma follows_recover_loop (n : nat) : forall r : @Run W,
  follows n r (recover_loop self is_event_screen_open is_build_menu_open n r).1.
Proof.
  induction n as [| n IH]; intros r; [apply follows_refl |].
  cbn [recover_loop].
  pose proof (follows_handle_exit_popup r) as H1.
  set (r1 := (handle_exit_popup self r).1) in *.
  pose proof (follows_screenshot_cv2 r1) as H2.
  destruct (screenshot_cv2 self r1) as [r2 screen]. cbn [fst] in H2.
  pose proof (follows_trans _ _ _ _ _ H1 H2) as H12. cbn in H12.
  assert (Hesc : forall r3 d,
    follows 0 r r3 ->
    follows (S n) r
      (recover_loop self is_event_screen_open is_build_menu_open n
         (sleep self (safe_escape self r3) d)).1).
  { intros r3 d H3.
    pose proof (follows_trans _ _ _ _ _ H3 (follows_safe_escape r3)) as H4.
    pose proof (follows_trans _ _ _ _ _ H4
                  (follows_sleep (safe_escape self r3) d)) as H5.
    apply (follows_trans _ _ _ _ _ H5 (IH _)). }
  destruct screen as [screen |].
  - unfold _is_idle_now.
    pose proof (follows_screenshot r2) as H3.
    destruct (screenshot self r2) as [r3 pil]. cbn [fst] in H3.
    pose proof (follows_trans _ _ _ _ _ H12 H3) as H123. cbn in H123.
    assert (Hrest :
      follows (S n) r
        (if is_event_screen_open screen
         then recover_loop self is_event_screen_open is_build_menu_open n
                (sleep self (safe_escape self r3) (4 # 10))
         else if is_build_menu_open screen
         then recover_loop self is_event_screen_open is_build_menu_open n
                (sleep self (safe_escape self r3) (35 # 100))
         else if has_popup self screen
         then recover_loop self is_event_screen_open is_build_menu_open n
                (sleep self (safe_escape self r3) (35 # 100))
         else
           let '(r, pil) := screenshot self r3 in
           if match pil with
              | Some pil =>
                  is_idle (detect_state self pil) (idle_threshold self)
              | None => false
              end
           then (r, true)
           else recover_loop self is_event_screen_open is_build_menu_open n
                  (sleep self (safe_escape self r) (35 # 100))).1).
    { destruct (is_event_screen_open screen); [by apply Hesc |].
      destruct (is_build_menu_open screen); [by apply Hesc |].
      destruct (has_popup self screen); [by apply Hesc |].
      pose proof (follows_screenshot r3) as H4.
      destruct (screenshot self r3) as [r4 pil']. cbn [fst] in H4.
      pose proof (follows_trans _ _ _ _ _ H123 H4) as H1234. cbn in H1234.
      match goal with |- context [if ?b then _ else _] => destruct b end.
      - apply (follows_mono 0); [lia | done].
      - by apply Hesc. }
    destruct pil as [pil |]; [| exact Hrest].
    destruct (is_idle _ _); [| exact Hrest].
    apply (follows_mono 0); [lia | done].
  - pose proof (follows_trans _ _ _ _ _ H12 (follows_sleep r2 (3 # 10))) as H3.
    pose proof (follows_trans _ _ _ _ _ H3 (IH (sleep self r2 (3 # 10)))) as H4.
    apply (follows_mono n); [lia | exact H4].
Qed.

Lemma follows_ensure_idle_loop (n : nat) : forall r : @Run W,
  follows n r (ensure_idle_loop self n r).1.
Proof.
  induction n as [| n IH]; intros r; [apply follows_refl |].
  cbn [ensure_idle_loop].
  pose proof (follows_screenshot r) as H1.
  destruct (screenshot self r) as [r1 pil]. cbn [fst] in H1.
  destruct pil as [pil |].
  - destruct (is_idle _ (idle_threshold self));
      [apply (follows_mono 0); [lia | done] |].
    pose proof (follows_screenshot_cv2 r1) as H2.
    destruct (screenshot_cv2 self r1) as [r2 cv]. cbn [fst] in H2.
    pose proof (follows_trans _ _ _ _ _ H1 H2) as H12. cbn in H12.
    match goal with |- context [if ?b then _ else _] => destruct b end.
    + apply (follows_mono 0); [lia | done].
    + pose proof (follows_trans _ _ _ _ _ H12 (follows_safe_escape r2)) as H3.
      pose proof (follows_trans _ _ _ _ _ H3
                    (follows_sleep (safe_escape self r2) (35 # 100))) as H4.
      apply (follows_trans _ _ _ _ _ H4 (IH _)).
  - pose proof (follows_trans _ _ _ _ _ H1 (follows_sleep r1 (5 # 10))) as H2.
    pose proof (follows_trans _ _ _ _ _ H2 (IH (sleep self r1 (5 # 10)))) as H3.
    apply (follows_mono n); [lia | exact H3].
Qed.


End WithDevice.

End TitleBotRecoveryFacts.

(** ** Sums over images made of boxes *)

Module ImageFacts.
Import Py Image.

Lemma sum_from_ext n : forall i0 g1 g2,
  (forall i, i0 <= i < i0 + Z.of_nat n -> g1 i = g2 i) ->
  sum_from n i0 g1 = sum_from n i0 g2.
Proof.
  induction n as [| n IH]; intros i0 g1 g2 Hext; [done |].
  cbn [sum_from]. rewrite (Hext i0) by lia. f_equal. apply IH.
  intros i Hi. apply Hext. lia.
Qed.

Lemma sum_from_const n : forall i0 g v,
  (forall i, i0 <= i < i0 + Z.of_nat n -> g i = v) ->
  sum_from n i0 g = Z.of_nat n * v.
Proof.
  induction n as [| n IH]; intros i0 g v Hc; [done |].
  cbn [sum_from]. rewrite (Hc i0) by lia.
  rewrite (IH (i0 + 1) g v) by (intros i Hi; apply Hc; lia). lia.
Qed.

Lemma sum_from_split a : forall b i0 g,
  sum_from (a + b) i0 g = sum_from a i0 g + sum_from b (i0 + Z.of_nat a) g.
Proof.
  induction a as [| a IH]; intros b i0 g.
  - cbn. by rewrite Z.add_0_r.
  - cbn [sum_from Nat.add]. rewrite IH.
    replace (i0 + 1 + Z.of_nat a) with (i0 + Z.of_nat (S a)) by lia. lia.
Qed.

Lemma same_side_refl cuts x : same_side cuts x x.
Proof. unfold same_side. apply Forall_forall. intros. done. Qed.

(** The sum of a function that is constant between the cuts. *)
Lemma sum_from_segments cuts : forall lo n g,
  increasing cuts = true ->
  (forall x y, lo <= x < lo + Z.of_nat n -> lo <= y < lo + Z.of_nat n ->
               same_side cuts x y -> g x = g y) ->
  sum_from n lo g = sum_segments (segments cuts lo (lo + Z.of_nat n)) g.
Proof.
  induction cuts as [| t rest IH]; intros lo n g Hinc Hg.
  - cbn. rewrite (sum_from_const n lo g (g lo)); [lia |].
    intros i Hi. destruct n; [lia |]. apply Hg; [lia | lia | constructor].
  - cbn [increasing] in Hinc. apply andb_true_iff in Hinc as [Hgt Hinc].
    rewrite forallb_forall in Hgt.
    cbn [segments].
    destruct (Z.ltb_spec lo t) as [Hlo | Hlo]; cbn [andb];
      [destruct (Z.ltb_spec t (lo + Z.of_nat n)) as [Hhi | Hhi] |].
    + set (a := Z.to_nat (t - lo)).
      replace (sum_from n lo g)
        with (sum_from a lo g + sum_from (n - a) (lo + Z.of_nat a) g)
        by (rewrite <- sum_from_split; f_equal; lia).
      rewrite (sum_from_const a lo g (g lo)).
      2:{ intros i Hi. apply Hg; [lia | lia |].
          constructor; [lia |]. apply Forall_forall. intros u Hu.
          apply list_elem_of_In, Hgt, Z.ltb_lt in Hu. lia. }
      rewrite (IH (lo + Z.of_nat a) (n - a)%nat g Hinc).
      2:{ intros x y Hx Hy Hs. apply Hg; [lia | lia |].
          constructor; [lia | exact Hs]. }
      cbn [sum_segments fold_right].
      replace (lo + Z.of_nat a) with t by lia.
      replace (t + Z.of_nat (n - a)) with (lo + Z.of_nat n) by lia.
      f_equal. lia.
    + apply IH; [exact Hinc |]. intros x y Hx Hy Hs. apply Hg; [lia | lia |].
      constructor; [lia | exact Hs].
    + apply IH; [exact Hinc |]. intros x y Hx Hy Hs. apply Hg; [lia | lia |].
      constructor; [lia | exact Hs].
Qed.

Lemma sum_segments_ext segs g1 g2 :
  (forall s, g1 s = g2 s) -> sum_segments segs g1 = sum_segments segs g2.
Proof.
  intros Hext. unfold sum_segments.
  induction segs as [| [s len] segs IH]; [done |].
  cbn [fold_right]. by rewrite Hext, IH.
Qed.

Lemma sum_upto_segments cuts n g :
  increasing cuts = true ->
  (forall x y, same_side cuts x y -> g x = g y) ->
  sum_upto n g = sum_segments (segments cuts 0 (Z.max 0 n)) g.
Proof.
  intros Hinc Hg. unfold sum_upto.
  rewrite (sum_from_segments cuts 0 (Z.to_nat n) g Hinc) by eauto.
  do 2 f_equal. lia.
Qed.

(** The sum over an image whose pixels are constant on the cells of a
    grid, cell by cell. *)
Lemma sum_elems_grid f g R C `{!GridConstant f R C} :
  increasing R = true -> increasing C = true ->
  sum_elems f g = grid_sum R C f g.
Proof.
  intros HR HC. unfold sum_elems, grid_sum.
  assert (Hrow : forall x y, same_side R x y ->
            sum_upto (width f) (fun c =>
              sum_upto (depth_or_1 f) (fun k => g (px f x c k)))
            = sum_upto (width f) (fun c =>
                sum_upto (depth_or_1 f) (fun k => g (px f y c k)))).
  { intros x y Hs. unfold sum_upto.
    apply sum_from_ext. intros c _. apply sum_from_ext. intros k _.
    rewrite (grid_constant x y c c k Hs (same_side_refl C c)). done. }
  rewrite (sum_upto_segments R _ _ HR Hrow).
  apply sum_segments_ext. intros r.
  apply (sum_upto_segments C); [exact HC |].
  intros x y Hs. unfold sum_upto. apply sum_from_ext. intros k _.
  rewrite (grid_constant r r x y k (same_side_refl R r) Hs). done.
Qed.

Lemma mean_grid f R C `{!GridConstant f R C} :
  increasing R = true -> increasing C = true ->
  mean f = Num.ratio (grid_sum R C f (fun v => v)) (size f).
Proof. intros HR HC. unfold mean. by rewrite (sum_elems_grid f _ R C). Qed.

Lemma var_grid f R C `{!GridConstant f R C} :
  increasing R = true -> increasing C = true ->
  var f = Num.variance (grid_sum R C f (fun v => v))
            (grid_sum R C f (fun v => v * v)) (size f).
Proof. intros HR HC. unfold var. by rewrite !(sum_elems_grid f _ R C). Qed.

Lemma same_side_shift cuts d x y :
  same_side (map (fun t => t - d) cuts) x y -> same_side cuts (d + x) (d + y).
Proof.
  unfold same_side. rewrite Forall_map. intros Hs.
  eapply Forall_impl; [exact Hs |]. intros t Ht. cbn in Ht. lia.
Qed.

#[export] Instance grid_constant_crop f R C a b c d `{!GridConstant f R C} :
  GridConstant (crop f a b c d)
    (map (fun t => t - clip (height f) a) R)
    (map (fun t => t - clip (width f) c) C).
Proof.
  intros r r' x x' k Hr Hx. cbn.
  apply grid_constant; by apply same_side_shift.
Qed.

#[export] Instance grid_constant_channel f R C k `{!GridConstant f R C} :
  GridConstant (channel f k) R C.
Proof. intros r r' x x' k' Hr Hx. cbn. by apply grid_constant. Qed.

#[export] Instance grid_constant_gray `{OpenCV} f R C `{!GridConstant f R C} :
  GridConstant (of_gray (gray_of f)) R C.
Proof.
  intros r r' x x' k Hr Hx. cbn.
  by rewrite !(grid_constant r r' x x' _ Hr Hx).
Qed.

End ImageFacts.

(** ** The state classifier *)

Module GameStateFacts.
Import Py Image GameState.

Section WithOpenCV.
Context `{OpenCV}.

Lemma bind_ok {A B : Type} (a : A) (k : A -> result B) :
  (Ok a ≫= k) = k a.
Proof. reflexivity. Qed.

Lemma cvtColor_gray_ok (f : Frame) :
  convertible f = true -> exists g, cvtColor_gray f = Ok g.
Proof. intros Hc. unfold cvtColor_gray. rewrite Hc. eauto. Qed.

Lemma cvtColor_hsv_ok (f : Frame) :
  convertible f = true -> exists g, cvtColor_hsv f = Ok g.
Proof. intros Hc. unfold cvtColor_hsv. rewrite Hc. eauto. Qed.

Lemma and_then_ok (a b : result bool) :
  (exists x, a = Ok x) -> (exists y, b = Ok y) -> exists z, and_then a b = Ok z.
Proof. intros [x ->] [y ->]. unfold and_then. destruct x; cbn; eauto. Qed.

Lemma fmap_mean_axis01_ok (g : Num.num -> bool) (f : Frame) (k d : Z) :
  depth f = Some d -> 0 <= k < d -> exists x, g <$> mean_axis01 f k = Ok x.
Proof.
  intros Hd Hk. unfold mean_axis01. rewrite Hd.
  destruct (Z.leb_spec 0 k), (Z.ltb_spec k d); try lia. cbn. eauto.
Qed.

Ltac concrete f :=
  destruct f as [h w d px]; unfold well_formed; cbn [height width depth];
  intros (-> & -> & ->).

Lemma _is_loading_total f : well_formed f -> exists b, _is_loading f = Ok b.
Proof.
  concrete f. unfold _is_loading. cbv zeta.
  match goal with |- context [cvtColor_gray ?g] =>
    destruct (cvtColor_gray_ok g) as [gray ->]; [reflexivity |] end.
  rewrite bind_ok. eauto.
Qed.

Lemma _is_rankings_screen_total f :
  well_formed f -> exists b, _is_rankings_screen f = Ok b.
Proof.
  concrete f. unfold _is_rankings_screen. cbv zeta.
  match goal with |- context [cvtColor_hsv ?g] =>
    destruct (cvtColor_hsv_ok g) as [hsv ->]; [reflexivity |] end.
  rewrite bind_ok.
  match goal with |- context [cvtColor_gray ?g] =>
    destruct (cvtColor_gray_ok g) as [gray ->]; [reflexivity |] end.
  rewrite bind_ok. eauto.
Qed.

Lemma _is_on_map_total f : well_formed f -> exists b, _is_on_map f = Ok b.
Proof.
  concrete f. unfold _is_on_map. cbv zeta.
  unfold split3.
  match goal with |- context [if ?c then Ok ?v else _] =>
    replace c with true by reflexivity end.
  rewrite bind_ok. unfold green_plane. cbn [depth crop].
  replace (1 <? 3) with true by reflexivity. rewrite bind_ok. eauto.
Qed.

Lemma _is_chat_expanded_total f :
  well_formed f -> exists b, _is_chat_expanded f = Ok b.
Proof.
  concrete f. unfold _is_chat_expanded. cbv zeta.
  repeat apply and_then_ok; eapply fmap_mean_axis01_ok; try reflexivity; lia.
Qed.

(** On a well-formed screenshot every check gives an answer, and so
    does the classifier. *)
Lemma detect_frame_total sd f :
  well_formed f -> exists res, detect_frame sd f = Ok res.
Proof.
  intros Hwf. unfold detect_frame.
  destruct (_is_black_screen f); [eauto |].
  destruct (_is_loading_total f Hwf) as [loading ->]. rewrite bind_ok.
  destruct loading; [eauto |].
  destruct (_is_connection_error f); [eauto |].
  destruct (_is_exit_menu sd f); [eauto |].
  destruct (_is_governor_profile f); [eauto |].
  destruct (_is_rankings_screen_total f Hwf) as [rankings ->]. rewrite bind_ok.
  destruct rankings; [eauto |].
  destruct (_is_on_map_total f Hwf) as [on_map ->]. rewrite bind_ok.
  destruct on_map; [| eauto].
  destruct (_is_chat_expanded_total f Hwf) as [expanded ->]. rewrite bind_ok.
  eauto.
Qed.

Ltac step :=
  match goal with
  | |- context [if ?b then _ else _] => destruct b eqn:?
  | |- context [?m ≫= _] =>
      match type of m with
      | result _ => let E := fresh "E" in destruct m eqn:E; cbn [mbind result_bind Py.bind]
      end
  end.

Lemma detect_frame_confidence sd f res :
  detect_frame sd f = Ok res ->
  confidence res ∈ confidences /\ (state res = UNKNOWN -> confidence res = (3 # 10)%Q).
Proof.
  unfold detect_frame, confidences.
  repeat step; intros Hres; inversion Hres; subst; cbn;
    (split; [set_solver | try discriminate; try done]).
  unfold _detect_ranking_type. cbn.
  repeat match goal with |- context [if ?b then _ else _] => destruct b end;
    cbn; discriminate.
Qed.


(** C4, as amended.  On a frame that satisfies the signature of the
    exit dialog and that of the idle map, [detect_state] never answers
    [IDLE_MAP].  Its answer is the state of the first of the three
    error checks that come before the exit dialog (black screen,
    loading, connection error) that fires, and [EXIT_MENU] when none of
    them fires; so it answers [EXIT_MENU] exactly when none fires.  It
    raises only if the loading check does. *)
Theorem exit_menu_before_idle_map sd f :
  _is_exit_menu sd f = true ->
  _is_on_map f = Ok true ->
  (forall res,
      detect_state sd (Img f) = Ok res ->
      state res <> IDLE_MAP
      /\ state res
         = (if _is_black_screen f then BLACK_SCREEN
            else match _is_loading f with
                 | Ok true => LOADING_SCREEN
                 | _ =>
                     if _is_connection_error f then CONNECTION_ERROR
                     else EXIT_MENU
                 end)
      /\ state res ∈ [BLACK_SCREEN; LOADING_SCREEN; CONNECTION_ERROR; EXIT_MENU]
      /\ (state res = EXIT_MENU <->
          _is_black_screen f = false /\ _is_loading f = Ok false
          /\ _is_connection_error f = false))
  /\ (forall e,
        detect_state sd (Img f) = Raise e ->
        _is_black_screen f = false /\ _is_loading f = Raise e).
Proof.
  intros Hexit Hmap. cbn [detect_state]. unfold detect_frame. rewrite Hexit.
  destruct (_is_black_screen f); cbn.
  { split; [| discriminate]. intros res [= <-]. cbn.
    split; [done |]. split; [done |]. split; [set_solver |].
    split; [done | intros (? & _); done]. }
  destruct (_is_loading f) as [[] | e]; cbn.
  { split; [| discriminate]. intros res [= <-]. cbn.
    split; [done |]. split; [done |]. split; [set_solver |].
    split; [done | intros (_ & ? & _); done]. }
  2:{ split; [discriminate |]. by intros e' [= <-]. }
  destruct (_is_connection_error f); cbn.
  { split; [| discriminate]. intros res [= <-]. cbn.
    split; [done |]. split; [done |]. split; [set_solver |].
    split; [done | intros (_ & _ & ?); done]. }
  split; [| discriminate]. intros res [= <-]. cbn.
  split; [done |]. split; [done |]. split; [set_solver |]. done.
Qed.

End WithOpenCV.

(** *** The classifier on the screens of [Scenes] *)

#[local] Existing Instance opencv.
Import Scenes ImageFacts.

Lemma same_side_leb cuts x y t :
  same_side cuts x y -> In t cuts -> (t <=? x) = (t <=? y).
Proof.
  intros Hs Hin. unfold same_side in Hs. rewrite Forall_forall in Hs.
  apply list_elem_of_In, Hs in Hin.
  destruct (Z.leb_spec t x), (Z.leb_spec t y); lia.
Qed.

Lemma same_side_ltb cuts x y t :
  same_side cuts x y -> In t cuts -> (x <? t) = (y <? t).
Proof.
  intros Hs Hin. rewrite !Z.ltb_antisym.
  by rewrite (same_side_leb cuts x y t).
Qed.

Lemma in_box_same_side R C r r' c c' r0 r1 c0 c1 :
  same_side R r r' -> same_side C c c' ->
  In r0 R -> In r1 R -> In c0 C -> In c1 C ->
  in_box r c r0 r1 c0 c1 = in_box r' c' r0 r1 c0 c1.
Proof.
  intros Hr Hc ? ? ? ?. unfold in_box.
  rewrite (same_side_leb R r r' r0), (same_side_ltb R r r' r1),
    (same_side_leb C c c' c0), (same_side_ltb C c c' c1); auto.
Qed.

Ltac in_cuts := cbn; tauto.

#[export] Instance exit_dialog_grid :
  GridConstant exit_dialog [200; 430; 490; 500; 830; 900]
    [0; 450; 700; 800; 850; 860; 1600].
Proof.
  intros r r' c c' k Hr Hc.
  cbn [px exit_dialog]. unfold exit_dialog_px.
  rewrite !(in_box_same_side _ _ r r' c c' _ _ _ _ Hr Hc) by in_cuts.
  rewrite (same_side_ltb _ c c' 800 Hc) by in_cuts.
  reflexivity.
Qed.

#[export] Instance exit_dialog_strip_grid :
  GridConstant exit_dialog_strip [200; 400; 420; 430; 490; 500; 830; 900]
    [0; 450; 700; 750; 800; 850; 860; 1600].
Proof.
  intros r r' c c' k Hr Hc.
  cbn [px exit_dialog_strip]. unfold exit_dialog_strip_px, exit_dialog_px.
  rewrite !(in_box_same_side _ _ r r' c c' _ _ _ _ Hr Hc) by in_cuts.
  rewrite (same_side_ltb _ c c' 800 Hc) by in_cuts.
  reflexivity.
Qed.

(** Replace the sums over the pixels by the sums over the cells, and
    evaluate what is bound once it is closed. *)
Ltac by_cells :=
  repeat first
    [ match goal with
      | |- context [convertible ?F] => change (convertible F) with true; cbv iota
      | |- context [mean ?F] => rewrite (mean_grid F _ _) by reflexivity
      | |- context [var ?F] => rewrite (var_grid F _ _) by reflexivity
      end
    | rewrite bind_ok
    | progress cbv zeta
    | match goal with
      | |- context [and_then ?a ?b] =>
          let v := eval vm_compute in (and_then a b) in
          change (and_then a b) with v
      | |- context [split3 ?F] =>
          let v := eval cbv in (depth F) in change (depth F) with v;
          change (split3 F) with (Ok (channel F 0, channel F 1, channel F 2))
      end ].

Lemma exit_dialog_is_exit_menu :
  _is_exit_menu no_templates exit_dialog = true.
Proof.
  unfold _is_exit_menu, _is_exit_menu_body, mean_axis01, cvtColor_gray.
  cbn [exit_menu_template no_templates].
  by_cells.
  vm_compute. reflexivity.
Qed.

Lemma exit_dialog_is_on_map : _is_on_map exit_dialog = Ok true.
Proof.
  unfold _is_on_map, green_plane.
  by_cells.
  vm_compute. reflexivity.
Qed.

Lemma exit_dialog_strip_is_exit_menu :
  _is_exit_menu no_templates exit_dialog_strip = true.
Proof.
  unfold _is_exit_menu, _is_exit_menu_body, mean_axis01, cvtColor_gray.
  cbn [exit_menu_template no_templates].
  by_cells.
  vm_compute. reflexivity.
Qed.

Lemma exit_dialog_strip_is_on_map : _is_on_map exit_dialog_strip = Ok true.
Proof.
  unfold _is_on_map, green_plane.
  by_cells.
  vm_compute. reflexivity.
Qed.

Lemma exit_dialog_strip_not_black : _is_black_screen exit_dialog_strip = false.
Proof.
  unfold _is_black_screen.
  by_cells.
  vm_compute. reflexivity.
Qed.

Lemma exit_dialog_strip_is_loading : _is_loading exit_dialog_strip = Ok true.
Proof.
  unfold _is_loading, cvtColor_gray.
  by_cells.
  vm_compute. reflexivity.
Qed.

(** The exit dialog over the map satisfies both signatures. *)
Lemma exit_menu_before_idle_map_witness :
  _is_exit_menu no_templates exit_dialog = true
  /\ _is_on_map exit_dialog = Ok true
  /\ (forall res,
        detect_state no_templates (Img exit_dialog) = Ok res ->
        state res <> IDLE_MAP
        /\ state res
           = (if _is_black_screen exit_dialog then BLACK_SCREEN
              else match _is_loading exit_dialog with
                   | Ok true => LOADING_SCREEN
                   | _ =>
                       if _is_connection_error exit_dialog
                       then CONNECTION_ERROR
                       else EXIT_MENU
                   end)
        /\ state res ∈ [BLACK_SCREEN; LOADING_SCREEN; CONNECTION_ERROR; EXIT_MENU]
        /\ (state res = EXIT_MENU <->
            _is_black_screen exit_dialog = false
            /\ _is_loading exit_dialog = Ok false
            /\ _is_connection_error exit_dialog = false))
  /\ (forall e,
        detect_state no_templates (Img exit_dialog) = Raise e ->
        _is_black_screen exit_dialog = false
        /\ _is_loading exit_dialog = Raise e).
Proof.
  split; [exact exit_dialog_is_exit_menu |].
  split; [exact exit_dialog_is_on_map |].
  exact (exit_menu_before_idle_map no_templates exit_dialog
           exit_dialog_is_exit_menu exit_dialog_is_on_map).
Defined.

(** C4, as stated, fails: this frame satisfies the signature of the exit
    dialog and that of the idle map, and the classifier answers
    [LOADING_SCREEN], because the dark strip in the middle of the screen
    makes the loading check fire first. *)
Lemma exit_dialog_classified_as_loading :
  _is_exit_menu no_templates exit_dialog_strip = true
  /\ _is_on_map exit_dialog_strip = Ok true
  /\ state <$> detect_state no_templates (Img exit_dialog_strip)
     = Ok LOADING_SCREEN.
Proof.
  split; [exact exit_dialog_strip_is_exit_menu |].
  split; [exact exit_dialog_strip_is_on_map |].
  cbn [detect_state]. unfold detect_frame.
  rewrite exit_dialog_strip_not_black, exit_dialog_strip_is_loading.
  reflexivity.
Qed.



(** *** A connection-error popup, and what [handle_error_popup] does
    with it *)

#[export] Instance error_popup_grid :
  GridConstant error_popup [300; 600] [400; 1200].
Proof.
  intros r r' c c' k Hr Hc.
  cbn [px error_popup]. unfold error_popup_px.
  rewrite (in_box_same_side _ _ r r' c c' _ _ _ _ Hr Hc) by in_cuts.
  reflexivity.
Qed.

Lemma error_popup_not_black : _is_black_screen error_popup = false.
Proof.
  unfold _is_black_screen.
  by_cells.
  vm_compute. reflexivity.
Qed.

Lemma error_popup_not_loading : _is_loading error_popup = Ok false.
Proof.
  unfold _is_loading, cvtColor_gray.
  by_cells.
  vm_compute. reflexivity.
Qed.

Lemma error_popup_is_connection_error :
  _is_connection_error error_popup = true.
Proof.
  unfold _is_connection_error.
  by_cells.
  vm_compute. reflexivity.
Qed.

(** The classifier reports the connection error on this screen. *)
Lemma error_popup_detected :
  detect_state no_templates (Img error_popup)
  = Ok {| state := CONNECTION_ERROR; confidence := 90 # 100;
          details := [("reason"%string, DStr "Connection error popup detected")];
          suggested_action := Some "click_ok"%string;
          recovery_steps :=
            Some ["Click OK/Retry button"; "Wait and retry"]%string |}.
Proof.
  cbn [detect_state]. unfold detect_frame.
  rewrite error_popup_not_black, error_popup_not_loading.
  rewrite bind_ok, error_popup_is_connection_error.
  reflexivity.
Qed.

(** On a device that accepts every tap, the three taps and the three
    pauses are sent. *)
Lemma handle_error_popup_outcome_witness :
  Recovery.det_detect_state
    (Recovery.detector (Recovery.new (Recovery.state_detector no_templates)))
    (Img error_popup)
  = Ok {| state := CONNECTION_ERROR; confidence := 90 # 100;
          details := [("reason"%string, DStr "Connection error popup detected")];
          suggested_action := Some "click_ok"%string;
          recovery_steps :=
            Some ["Click OK/Retry button"; "Wait and retry"]%string |}
  /\ Recovery.handle_error_popup quiet_device
       (Recovery.new (Recovery.state_detector no_templates)) quiet_start
       (Img error_popup)
     = ({| Recovery.world := tt;
           Recovery.trace :=
             [Recovery.TapEv (SPos (800, 500));
              Recovery.SleepEv (SNum (3 # 10));
              Recovery.TapEv (SPos (700, 500));
              Recovery.SleepEv (SNum (3 # 10));
              Recovery.TapEv (SPos (900, 500));
              Recovery.SleepEv (SNum (3 # 10))] |}, Ok true).
Proof.
  split; [exact error_popup_detected |].
  exact (proj1 (proj2 (RecoveryOutcomeFacts.handle_error_popup_outcome
                         quiet_device
                         (Recovery.new (Recovery.state_detector no_templates))
                         quiet_start (Img error_popup) _ error_popup_detected))
           eq_refl).
Defined.

End GameStateFacts.

(** ** The state classifier: what it can report *)

Module GameStateRangeFacts.
Import Py Image GameState.

Ltac branch :=
  match goal with
  | |- context [if ?b then _ else _] => destruct b eqn:?
  | |- context [?m ≫= _] =>
      match type of m with
      | result _ =>
          let E := fresh "E" in
          destruct m eqn:E; cbn [mbind result_bind Py.bind]
      end
  end.

Section WithOpenCV.
Context `{OpenCV}.

Lemma _detect_ranking_type_cases f :
  _detect_ranking_type f = RANKINGS_POWER
  \/ _detect_ranking_type f = RANKINGS_KILLPOINTS.
Proof.
  unfold _detect_ranking_type. cbn.
  repeat match goal with |- context [if ?b then _ else _] => destruct b end;
    cbn; auto.
Qed.

(** X6.  Of the states of [GameState], [detect_state] reports nine, each
    with one confidence. *)
Theorem detect_state_reports_nine_states sd screen res :
  detect_state sd screen = Ok res ->
  (state res, confidence res)
  ∈ [(BLACK_SCREEN, 95 # 100); (LOADING_SCREEN, 85 # 100);
     (CONNECTION_ERROR, 90 # 100); (EXIT_MENU, 95 # 100);
     (GOVERNOR_PROFILE, 85 # 100); (RANKINGS_POWER, 85 # 100);
     (RANKINGS_KILLPOINTS, 85 # 100); (IDLE_MAP, 80 # 100);
     (UNKNOWN, 3 # 10)]%Q.
Proof.
  destruct screen as [| | n | f]; try discriminate.
  cbn [detect_state]. unfold detect_frame.
  repeat branch; intros Hres; inversion Hres; subst; cbn;
    try set_solver.
  destruct (_detect_ranking_type_cases f) as [-> | ->]; set_solver.
Qed.

End WithOpenCV.

#[local] Existing Instance opencv.
Import Scenes.

Lemma detect_state_reports_nine_states_witness :
  detect_state no_templates (Img dark_patch)
  = Ok {| state := BLACK_SCREEN; confidence := 95 # 100;
          details := [("reason"%string, DStr "Screen is mostly black")];
          suggested_action := Some "wait_or_restart"%string;
          recovery_steps :=
            Some ["Wait 5 seconds"; "If still black, restart game"]%string |}
  /\ (BLACK_SCREEN, (95 # 100)%Q)
     ∈ [(BLACK_SCREEN, 95 # 100); (LOADING_SCREEN, 85 # 100);
        (CONNECTION_ERROR, 90 # 100); (EXIT_MENU, 95 # 100);
        (GOVERNOR_PROFILE, 85 # 100); (RANKINGS_POWER, 85 # 100);
        (RANKINGS_KILLPOINTS, 85 # 100); (IDLE_MAP, 80 # 100);
        (UNKNOWN, 3 # 10)]%Q.
Proof.
  split; [reflexivity |].
  exact (detect_state_reports_nine_states no_templates (Img dark_patch) _
           eq_refl).
Defined.

End GameStateRangeFacts.

(** ** Dark, bright and plain screenshots *)

Module BrightnessFacts.
Import Py Image GameState.

Lemma sum_from_bounds n : forall i0 g lo hi,
  (forall i, i0 <= i < i0 + Z.of_nat n -> lo <= g i <= hi) ->
  Z.of_nat n * lo <= sum_from n i0 g <= Z.of_nat n * hi.
Proof.
  induction n as [| n IH]; intros i0 g lo hi Hg; [cbn; lia |].
  cbn [sum_from].
  pose proof (Hg i0 ltac:(lia)) as H0.
  pose proof (IH (i0 + 1) g lo hi ltac:(intros; apply Hg; lia)) as H1.
  lia.
Qed.

Lemma sum_upto_bounds n g lo hi :
  (forall i, 0 <= i < n -> lo <= g i <= hi) ->
  Z.max 0 n * lo <= sum_upto n g <= Z.max 0 n * hi.
Proof.
  intros Hg. unfold sum_upto.
  pose proof (sum_from_bounds (Z.to_nat n) 0 g lo hi
                ltac:(intros; apply Hg; lia)) as Hb.
  replace (Z.of_nat (Z.to_nat n)) with (Z.max 0 n) in Hb by lia. exact Hb.
Qed.

Lemma sum_upto_const n g v :
  (forall i, 0 <= i < n -> g i = v) -> sum_upto n g = Z.max 0 n * v.
Proof.
  intros Hg.
  pose proof (sum_upto_bounds n g v v ltac:(intros; rewrite Hg; lia)). lia.
Qed.

(** The sum of the elements of a non-empty array lies between its size
    times the least and its size times the greatest element. *)
Lemma sum_elems_bounds f lo hi :
  0 < height f -> 0 < width f -> 0 < depth_or_1 f -> within f lo hi ->
  size f * lo <= sum_elems f (fun v => v) <= size f * hi.
Proof.
  intros Hh Hw Hd Hf. unfold sum_elems, size.
  pose proof (sum_upto_bounds (height f)
    (fun r => sum_upto (width f) (fun c =>
       sum_upto (depth_or_1 f) (fun k => px f r c k)))
    (width f * (depth_or_1 f * lo)) (width f * (depth_or_1 f * hi))) as Hb.
  replace (Z.max 0 (height f)) with (height f) in Hb by lia.
  assert (Hrows : forall r, 0 <= r < height f ->
    width f * (depth_or_1 f * lo)
    <= sum_upto (width f) (fun c =>
         sum_upto (depth_or_1 f) (fun k => px f r c k))
    <= width f * (depth_or_1 f * hi)).
  { intros r Hr.
    pose proof (sum_upto_bounds (width f)
      (fun c => sum_upto (depth_or_1 f) (fun k => px f r c k))
      (depth_or_1 f * lo) (depth_or_1 f * hi)) as Hc.
    replace (Z.max 0 (width f)) with (width f) in Hc by lia.
    apply Hc. intros c Hc'.
    pose proof (sum_upto_bounds (depth_or_1 f) (fun k => px f r c k) lo hi)
      as Hk.
    replace (Z.max 0 (depth_or_1 f)) with (depth_or_1 f) in Hk by lia.
    apply Hk. intros k Hk'. by apply Hf. }
  specialize (Hb Hrows). lia.
Qed.

(** The sum of [g] over an array that has [v] in every element. *)
Lemma sum_elems_uniform f g v :
  uniform f v -> sum_elems f g = size f * g v.
Proof.
  intros (Hh & Hw & Hd & Hf). unfold sum_elems, size.
  rewrite (sum_upto_const (height f) _ (width f * (depth_or_1 f * g v))).
  { lia. }
  intros r Hr.
  rewrite (sum_upto_const (width f) _ (depth_or_1 f * g v)).
  { lia. }
  intros c Hc.
  rewrite (sum_upto_const (depth_or_1 f) _ (g v)).
  { lia. }
  intros k Hk. f_equal. specialize (Hf r c k Hr Hc Hk). lia.
Qed.

Lemma size_pos f : 0 < height f -> 0 < width f -> 0 < depth_or_1 f -> 0 < size f.
Proof. unfold size. nia. Qed.

Lemma lt_ratio s n t :
  0 < n -> Num.lt (Num.ratio s n) (Num.of_Z t) = (s <? t * n).
Proof.
  intros Hn. unfold Num.ratio, Num.lt, Num.of_Z, Num.Qltb.
  destruct (Z.leb_spec n 0); [lia |]. cbn.
  rewrite Z2Pos.id by lia. f_equal. lia.
Qed.

Lemma gt_ratio s n t :
  0 < n -> Num.gt (Num.ratio s n) (Num.of_Z t) = (t * n <? s).
Proof.
  intros Hn. unfold Num.ratio, Num.gt, Num.lt, Num.of_Z, Num.Qltb.
  destruct (Z.leb_spec n 0); [lia |]. cbn.
  rewrite Z2Pos.id by lia. f_equal. lia.
Qed.

Lemma mean_uniform f v :
  uniform f v -> mean f = Num.ratio (size f * v) (size f).
Proof. intros Hu. unfold mean. by rewrite (sum_elems_uniform f _ v). Qed.

Lemma uniform_size_pos f v : uniform f v -> 0 < size f.
Proof. intros (? & ? & ? & _). by apply size_pos. Qed.

Lemma mean_lt_uniform f v t :
  uniform f v -> Num.lt (mean f) (Num.of_Z t) = (v <? t).
Proof.
  intros Hu. pose proof (uniform_size_pos f v Hu).
  rewrite (mean_uniform f v Hu), lt_ratio by done.
  destruct (Z.ltb_spec (size f * v) (t * size f)), (Z.ltb_spec v t);
    try done; nia.
Qed.

Lemma mean_gt_uniform f v t :
  uniform f v -> Num.gt (mean f) (Num.of_Z t) = (t <? v).
Proof.
  intros Hu. pose proof (uniform_size_pos f v Hu).
  rewrite (mean_uniform f v Hu), gt_ratio by done.
  destruct (Z.ltb_spec (t * size f) (size f * v)), (Z.ltb_spec t v);
    try done; nia.
Qed.

(** Two plain regions of the same value are equally bright. *)
Lemma mean_lt_add_uniform f g v t :
  uniform f v -> uniform g v ->
  Num.lt (mean f) (Num.add (mean g) (Num.of_Z t)) = (0 <? t).
Proof.
  intros Hf Hg.
  pose proof (uniform_size_pos f v Hf). pose proof (uniform_size_pos g v Hg).
  rewrite (mean_uniform f v Hf), (mean_uniform g v Hg).
  unfold Num.ratio, Num.lt, Num.add, Num.of_Z, Num.Qltb.
  destruct (Z.leb_spec (size f) 0), (Z.leb_spec (size g) 0); try lia.
  cbn. rewrite !Pos2Z.inj_mul, !Z2Pos.id by lia.
  destruct (Z.ltb_spec (size f * v * (size g * 1))
              ((size g * v * 1 + t * size g) * size f)),
    (Z.ltb_spec 0 t); try done; nia.
Qed.

(** The variance of a plain region is zero. *)
Lemma var_uniform f v :
  uniform f v -> var f = Some (0 # Z.to_pos (size f * size f))%Q.
Proof.
  intros Hu. pose proof (uniform_size_pos f v Hu).
  unfold var. rewrite !(sum_elems_uniform f _ v) by done.
  unfold Num.variance. destruct (Z.leb_spec (size f) 0); [lia |].
  do 2 f_equal. ring.
Qed.

Lemma Qltb_zero_r (x : Q) (p : positive) :
  Num.Qltb x (0 # p)%Q = (Qnum x <? 0).
Proof.
  unfold Num.Qltb. cbn.
  destruct (Z.ltb_spec (Qnum x * Z.pos p) 0), (Z.ltb_spec (Qnum x) 0);
    try done; nia.
Qed.

Lemma Qltb_zero_l (x : Q) (p : positive) :
  Num.Qltb (0 # p)%Q x = (0 <? Qnum x).
Proof.
  unfold Num.Qltb. cbn.
  destruct (Z.ltb_spec 0 (Qnum x * Z.pos p)), (Z.ltb_spec 0 (Qnum x));
    try done; nia.
Qed.

Lemma gt_zero_variance p t :
  0 <= t -> Num.gt (Some (0 # p)%Q) (Num.of_Z t) = false.
Proof.
  intros Ht. unfold Num.gt, Num.lt, Num.of_Z. rewrite Qltb_zero_r. cbn.
  destruct (Z.ltb_spec t 0); [lia | done].
Qed.

Lemma std_gt_zero_variance p (t : Q) :
  0 <= Qnum t -> Num.std_gt (Some (0 # p)%Q) t = false.
Proof.
  intros Ht. unfold Num.std_gt, Num.sqrt_gt.
  unfold Num.Qltb. cbn.
  destruct (Z.ltb_spec (Qnum t * 1) (0 * Z.pos (Qden t))); [lia |].
  destruct (Z.ltb_spec (Qnum t * Qnum t * Z.pos p)
              (0 * Z.pos (Qden t * Qden t))); [nia | done].
Qed.

Lemma Qltb_spec (x y : Q) : BoolSpec (x < y)%Q (y <= x)%Q (Num.Qltb x y).
Proof.
  unfold Num.Qltb, Qlt, Qle.
  destruct (Z.ltb_spec (Qnum x * Z.pos (Qden y)) (Qnum y * Z.pos (Qden x)));
    constructor; lia.
Qed.

Lemma Qeq_zero (p : positive) : (0 # p == 0)%Q.
Proof. reflexivity. Qed.

Lemma std3_sum_gt_zero_variance p1 p2 p3 (t : Q) :
  (0 < t)%Q ->
  Num.std3_sum_gt (Some (0 # p1)%Q) (Some (0 # p2)%Q) (Some (0 # p3)%Q) t = false.
Proof.
  intros Ht. unfold Num.std3_sum_gt, Num.sqrt3_gt, Num.sqrt2_gt, Num.sqrt_gt.
  pose proof (Qeq_zero p1) as H1. pose proof (Qeq_zero p2) as H2.
  pose proof (Qeq_zero p3) as H3.
  set (x := (0 # p1)%Q) in *. set (y := (0 # p2)%Q) in *.
  set (z := (0 # p3)%Q) in *.
  assert (Htt : (0 < t * t)%Q) by nra.
  destruct (Qltb_spec t 0); [lra |].
  destruct (Qltb_spec (t * t) z); [lra |].
  destruct (Qeq_bool (t * t) z) eqn:E.
  { apply Qeq_bool_iff in E. lra. }
  destruct (Qltb_spec (t * t + z - x - y) 0); [lra |]. cbn.
  destruct (Qltb_spec
              ((t * t + z - x - y) * (t * t + z - x - y) - 4 * x * y
               - 4 * t * t * z) 0).
  { assert ((t * t + z - x - y) * (t * t + z - x - y) - 4 * x * y
             - 4 * t * t * z == (t * t) * (t * t))%Q as Heq.
    { rewrite H1, H2, H3. ring. }
    rewrite Heq in *. nra. }
  cbn.
  match goal with |- Num.Qltb ?a ?b = false => destruct (Qltb_spec a b) end;
    [| done].
  assert (4 * (4 * x * y) * (4 * t * t * z) == 0)%Q as Heq
    by (rewrite H1; ring).
  rewrite Heq in *.
  match goal with H : (?a * ?a < 0)%Q |- _ => nra end.
Qed.

Lemma clip_range n i : 0 <= n -> 0 <= clip n i <= n.
Proof. intros Hn. unfold clip. destruct (Z.ltb_spec i 0); lia. Qed.

Lemma uniform_crop f v a b c d :
  uniform f v ->
  0 < height (crop f a b c d) -> 0 < width (crop f a b c d) ->
  uniform (crop f a b c d) v.
Proof.
  intros (Hh & Hw & Hd & Hf) Hh' Hw'. split; [done |]. split; [done |].
  split; [done |]. intros r x k Hr Hx Hk. cbn in *.
  pose proof (clip_range (height f) a ltac:(lia)).
  pose proof (clip_range (height f) b ltac:(lia)).
  pose proof (clip_range (width f) c ltac:(lia)).
  pose proof (clip_range (width f) d ltac:(lia)).
  apply Hf; [lia | lia | done].
Qed.

Lemma uniform_channel f v k d :
  uniform f v -> depth f = Some d -> 0 <= k < d -> uniform (channel f k) v.
Proof.
  intros (Hh & Hw & Hd & Hf) Hdf Hk. split; [done |]. split; [done |].
  split; [done |]. intros r x k' Hr Hx Hk'. cbn in *.
  apply Hf; [done | done |]. unfold depth_or_1. by rewrite Hdf.
Qed.

Section WithOpenCV.
Context `{OpenCV}.

Lemma uniform_gray f v :
  uniform f v -> depth f = Some 3 ->
  uniform (of_gray (gray_of f)) (bgr2gray v v v).
Proof.
  intros (Hh & Hw & Hd & Hf) Hdf. split; [done |]. split; [done |].
  split; [done |]. intros r x k Hr Hx Hk. cbn in *.
  assert (Hv : forall j, 0 <= j < 3 -> px f r x j = v).
  { intros j Hj. specialize (Hf r x j Hr Hx). unfold depth_or_1 in Hf.
    rewrite Hdf in Hf. cbn in Hf. lia. }
  rewrite !Hv by lia. lia.
Qed.

Lemma and_then_false b : and_then (Ok false) b = Ok false.
Proof. reflexivity. Qed.

Lemma and_then_true b : and_then (Ok true) b = b.
Proof. reflexivity. Qed.

(** What the screenshot is made of, for the checks below. *)
Ltac plain_region :=
  repeat first
    [ eassumption
    | reflexivity
    | lia
    | eapply uniform_gray
    | eapply uniform_channel
    | eapply uniform_crop ].

Ltac whole f :=
  destruct f as [h w d px]; unfold well_formed; cbn [height width depth];
  intros (-> & -> & ->).

Lemma plain_screen_not_black f v :
  uniform f v -> 15 <= v -> _is_black_screen f = false.
Proof.
  intros Hu Hv. unfold _is_black_screen, q.
  rewrite (mean_lt_uniform f v) by done. destruct (Z.ltb_spec v 15); [lia | done].
Qed.

Lemma plain_screen_not_loading f v :
  well_formed f -> uniform f v -> _is_loading f = Ok false.
Proof.
  revert f. intros f. whole f. intros Hu.
  unfold _is_loading, cvtColor_gray. cbv zeta.
  match goal with |- context [convertible ?F] =>
    change (convertible F) with true; cbv iota end.
  rewrite GameStateFacts.bind_ok.
  erewrite var_uniform by plain_region.
  unfold q. by rewrite gt_zero_variance.
Qed.

Lemma plain_screen_no_connection_error f v :
  well_formed f -> uniform f v -> _is_connection_error f = false.
Proof.
  whole f. intros Hu. unfold _is_connection_error. cbv zeta.
  destruct (Num.gt _ _); [done |].
  unfold q. erewrite mean_lt_add_uniform by plain_region. done.
Qed.

Lemma between_uniform f v lo hi :
  uniform f v -> between lo hi (mean f) = (lo <? v) && (v <? hi).
Proof.
  intros Hu. unfold between, q.
  change (Num.lt (Num.of_Z lo) (mean f)) with (Num.gt (mean f) (Num.of_Z lo)).
  by rewrite (mean_gt_uniform f v), (mean_lt_uniform f v).
Qed.

(** The colours of the exit dialog are not those of a grey screen. *)
Lemma plain_screen_no_exit_colours sd f v :
  well_formed f -> uniform f v -> exit_menu_template sd = None ->
  _is_exit_menu sd f = false.
Proof.
  whole f. intros Hu Hsd.
  unfold _is_exit_menu, _is_exit_menu_body, mean_axis01, cvtColor_gray.
  rewrite Hsd. rewrite GameStateFacts.bind_ok. cbv zeta. cbn [depth crop].
  change ((0 <=? 0) && (0 <? 3)) with true.
  change ((0 <=? 1) && (1 <? 3)) with true.
  change ((0 <=? 2) && (2 <? 3)) with true. cbv iota.
  unfold fmap, result_fmap. cbn [Py.bind].
  repeat match goal with
         | |- context [between ?lo ?hi (mean ?F)] =>
             rewrite (between_uniform F v lo hi) by plain_region
         end.
  match goal with |- context [convertible ?F] =>
    change (convertible F) with true; cbv iota end.
  destruct (Z.ltb_spec 60 v), (Z.ltb_spec v 120), (Z.ltb_spec 130 v);
    try lia; cbn; try done;
    destruct (Z.ltb_spec 80 v), (Z.ltb_spec v 150), (Z.ltb_spec 150 v);
    try lia; cbn; done.
Qed.

Lemma plain_screen_no_governor_profile f v :
  well_formed f -> uniform f v -> _is_governor_profile f = false.
Proof.
  whole f. intros Hu. unfold _is_governor_profile. cbv zeta.
  destruct (Num.lt _ _); [done |].
  erewrite var_uniform by plain_region.
  rewrite std_gt_zero_variance by done. apply andb_false_r.
Qed.

Lemma plain_screen_no_rankings f v :
  well_formed f -> uniform f v -> _is_rankings_screen f = Ok false.
Proof.
  whole f. intros Hu. unfold _is_rankings_screen, cvtColor_hsv, cvtColor_gray.
  cbv zeta.
  repeat match goal with |- context [convertible ?F] =>
    change (convertible F) with true; cbv iota end.
  rewrite !GameStateFacts.bind_ok.
  erewrite var_uniform by plain_region.
  rewrite std_gt_zero_variance by done. by rewrite andb_false_r.
Qed.

Lemma plain_screen_not_on_map f v :
  well_formed f -> uniform f v -> _is_on_map f = Ok false.
Proof.
  whole f. intros Hu. unfold _is_on_map, split3, green_plane. cbv zeta.
  cbn [depth crop height width].
  match goal with |- context [if ?c then Ok ?x else Raise ValueError] =>
    change c with true; cbv iota end.
  rewrite GameStateFacts.bind_ok.
  change (1 <? 3) with true. cbv iota. rewrite GameStateFacts.bind_ok.
  erewrite !var_uniform by plain_region.
  rewrite std3_sum_gt_zero_variance by done. by rewrite andb_false_r.
Qed.

(** X7.  A screenshot that is dark in every pixel is [BLACK_SCREEN]; one
    that is nowhere darker than 15 is never [BLACK_SCREEN]. *)
Theorem black_screen_by_brightness sd f lo hi :
  0 < height f -> 0 < width f -> 0 < depth_or_1 f -> within f lo hi ->
  (hi < 15 -> state <$> detect_state sd (Img f) = Ok BLACK_SCREEN)
  /\ (15 <= lo ->
      forall res, detect_state sd (Img f) = Ok res -> state res <> BLACK_SCREEN).
Proof.
  intros Hh Hw Hd Hf.
  pose proof (sum_elems_bounds f lo hi Hh Hw Hd Hf) as Hs.
  pose proof (size_pos f Hh Hw Hd) as Hn.
  assert (Hb : _is_black_screen f = (sum_elems f (fun v => v) <? 15 * size f)).
  { unfold _is_black_screen, mean, q. by rewrite lt_ratio. }
  cbn [detect_state]. unfold detect_frame. rewrite Hb. split.
  - intros Hhi. destruct (Z.ltb_spec (sum_elems f (fun v => v)) (15 * size f));
      [done | nia].
  - intros Hlo res.
    destruct (Z.ltb_spec (sum_elems f (fun v => v)) (15 * size f)); [nia |].
    repeat GameStateRangeFacts.branch; intros Hres; inversion Hres; subst; cbn;
      try done.
    destruct (GameStateRangeFacts._detect_ranking_type_cases f) as [-> | ->];
      done.
Qed.

(** X8.  A screenshot of one grey value, not a dark one, in every pixel shows
    none of the signatures: without a template of the exit dialog the
    classifier answers [UNKNOWN], and with one [UNKNOWN] or, if the
    template matches, [EXIT_MENU]. *)
Theorem plain_screen_is_unknown sd f v :
  well_formed f -> uniform f v -> 15 <= v ->
  exists res,
    detect_state sd (Img f) = Ok res
    /\ state res ∈ [EXIT_MENU; UNKNOWN]
    /\ (exit_menu_template sd = None -> state res = UNKNOWN).
Proof.
  intros Hwf Hu Hv. cbn [detect_state]. unfold detect_frame.
  rewrite (plain_screen_not_black f v), (plain_screen_not_loading f v),
    (plain_screen_no_connection_error f v),
    (plain_screen_no_governor_profile f v),
    (plain_screen_no_rankings f v), (plain_screen_not_on_map f v) by done.
  rewrite !GameStateFacts.bind_ok.
  destruct (_is_exit_menu sd f) eqn:E.
  - eexists. split; [done |]. cbn. split; [set_solver |].
    intros Hsd. by rewrite (plain_screen_no_exit_colours sd f v) in E.
  - eexists. split; [done |]. cbn. split; [set_solver | done].
Qed.

End WithOpenCV.

#[local] Existing Instance opencv.
Import Scenes.

Lemma black_screen_by_brightness_witness :
  0 < height dark_patch /\ 0 < width dark_patch /\ 0 < depth_or_1 dark_patch
  /\ within dark_patch 0 0
  /\ (0 < 15 ->
      state <$> detect_state no_templates (Img dark_patch) = Ok BLACK_SCREEN)
  /\ (15 <= 0 ->
      forall res,
        detect_state no_templates (Img dark_patch) = Ok res ->
        state res <> BLACK_SCREEN).
Proof.
  assert (Hf : within dark_patch 0 0) by (intros r c k _ _ _; cbn; lia).
  split; [reflexivity |]. split; [reflexivity |]. split; [reflexivity |].
  split; [exact Hf |].
  exact (black_screen_by_brightness no_templates dark_patch 0 0
           eq_refl eq_refl eq_refl Hf).
Defined.

Lemma plain_screen_is_unknown_witness :
  well_formed (plain 128) /\ uniform (plain 128) 128 /\ 15 <= 128
  /\ exists res,
       detect_state no_templates (Img (plain 128)) = Ok res
       /\ state res ∈ [EXIT_MENU; UNKNOWN]
       /\ (exit_menu_template no_templates = None -> state res = UNKNOWN).
Proof.
  assert (Hwf : well_formed (plain 128)) by (repeat split).
  assert (Hu : uniform (plain 128) 128).
  { split; [reflexivity |]. split; [reflexivity |]. split; [reflexivity |].
    intros r c k _ _ _. cbn. lia. }
  assert (Hv : 15 <= 128) by lia.
  split; [exact Hwf |]. split; [exact Hu |]. split; [exact Hv |].
  exact (plain_screen_is_unknown no_templates (plain 128) 128 Hwf Hu Hv).
Defined.

End BrightnessFacts.

(** ** The navigator: failures of detection and the guarded escape *)

Module NavigatorFacts.
Import Py Image GameState Recovery Navigator.

Section WithDevice.
Context `{OpenCV} {W : Type} (adb : Device W) (exn_text : exn -> string).

(** X13.  [get_current_state] with [force_refresh] captures the screen once.
    When capture, conversion and detection succeed, the result is that
    of [detect_state] on the converted capture, it is cached with the
    time of the call, and its confidence is at least 0.3.  When any of
    them raises, the result is [UNKNOWN] with confidence 0 and the
    suggestion to retry, and the cache is left as it was: a confidence
    of 0 always means that detection failed. *)
Theorem get_current_state_outcome (self : GameNavigator) (r : @Run W)
    (now : Q) r' self' res :
  get_current_state adb exn_text self r now true = (r', self', res) ->
  exists shot,
    do_screencap adb r = (r', shot)
    /\ ((detect_captured self shot = Ok res
         /\ _current_state self' = Some res
         /\ _state_cache_time self' = now
         /\ (3 # 10 <= confidence res)%Q)
        \/ (exists e,
              detect_captured self shot = Raise e
              /\ self' = self
              /\ state res = UNKNOWN
              /\ confidence res = 0%Q
              /\ suggested_action res = Some "retry"%string)).
Proof.
  unfold get_current_state.
  destruct (do_screencap adb r) as [r1 shot].
  destruct (detect_captured self shot) as [result | e] eqn:Edet.
  - intros [= <- <- <-]. exists shot. split; [done |]. left.
    repeat split; try done.
    unfold detect_captured in Edet.
    destruct shot as [screen | ?]; [| discriminate]. cbn in Edet.
    destruct (to_bgr screen) as [[| | n | f] | ?]; try discriminate.
    cbn in Edet.
    apply GameStateFacts.detect_frame_confidence in Edet as [Hin _].
    unfold confidences in Hin.
    repeat (apply elem_of_cons in Hin as [-> | Hin]; [by vm_compute |]).
    by apply elem_of_nil in Hin.
  - intros [= <- <- <-]. exists shot. split; [done |]. right. by exists e.
Qed.

(** Within the time to live of the cache and without [force_refresh],
    the cached state is returned and the device is not touched. *)
Lemma get_current_state_cached (self : GameNavigator) (r : @Run W)
    (now : Q) st :
  _current_state self = Some st ->
  (now - _state_cache_time self < _state_cache_ttl self)%Q ->
  get_current_state adb exn_text self r now false = (r, self, st).
Proof.
  intros Hst Hnow. unfold get_current_state. rewrite Hst.
  destruct (BrightnessFacts.Qltb_spec (now - _state_cache_time self)
              (_state_cache_ttl self)); [done | lra].
Qed.

(** X14.  [_press_escape_safe] sends the escape key, waits and captures the
    screen; whether it taps then is decided by the colours of that
    capture: if they are those of the exit dialog, the tap on CANCEL
    at (779, 457) is the next thing sent, and otherwise nothing more is
    sent. *)
Theorem _press_escape_safe_guarded (r : @Run W) :
  let r1 := fst (do_sleep adb (_press_key adb r "KEYCODE_ESCAPE")
                   (SNum (3 # 10))) in
  trace r1 = trace r ++ [KeyEvent (SKey "KEYCODE_ESCAPE"); SleepEv (SNum (3 # 10))]
  /\ trace (_is_exit_menu_visible adb r1).1 = trace r1 ++ [Screencap]
  /\ exists after,
       trace (_press_escape_safe adb r)
       = trace (_is_exit_menu_visible adb r1).1 ++ after
       /\ (if (_is_exit_menu_visible adb r1).2
           then after = [TapEv (SPos (779, 457))]
                \/ after = [TapEv (SPos (779, 457)); SleepEv (SNum (3 # 10))]
           else after = []).
Proof.
  cbv zeta. unfold _press_escape_safe, _press_key, do_keyevent.
  destruct (dev_keyevent adb (world r) _) as [w1 ?]. cbn [fst].
  unfold do_sleep. change (Num.Qltb (3 # 10) 0) with false. cbn [fst trace].
  split; [by rewrite <- app_assoc |].
  unfold _is_exit_menu_visible, do_screencap. cbn [world trace].
  destruct (dev_screencap adb _) as [w2 shot]. cbn [fst snd trace].
  split; [done |].
  destruct (try_except _ _).
  - unfold _click_cancel_exit_menu, do_tap, do_sleep.
    change (Num.Qltb (3 # 10) 0) with false. cbn [world trace].
    destruct (dev_tap adb _ _) as [w3 [[] | e]]; cbn [fst trace].
    + eexists. rewrite <- (app_assoc _ [_] [_]). split; [reflexivity |].
      by right.
    + eexists. split; [reflexivity |]. by left.
  - exists []. by rewrite app_nil_r.
Qed.

(** X15.  With taps that do not raise, [handle_error_state] answers [True]
    for the states whose recovery action is a wait, a tap or the escape
    sequence.  Of the states that [is_error_state] accepts these are
    [CONNECTION_ERROR] and [UNKNOWN]; for [BLACK_SCREEN], whose action
    is ["wait_and_check"], and for [FROZEN] it answers [False] and
    nothing is sent or waited for. *)
Theorem handle_error_state_outcome (self : GameNavigator) (r : @Run W)
    (res : StateDetectionResult) :
  (forall w arg, (dev_tap adb w arg).2 = Ok tt) ->
  (handle_error_state adb self r res).2
  = Ok (bool_decide
          (state res ∈ [EXIT_MENU; CONNECTION_ERROR; CONFIRMATION_POPUP;
                        LOADING_SCREEN; UNKNOWN; GOVERNOR_PROFILE]))
  /\ ((handle_error_state adb self r res).2 = Ok false ->
      (handle_error_state adb self r res).1 = r)
  /\ (is_error_state (state res) = true ->
      (handle_error_state adb self r res).2
      = Ok (bool_decide (state res ∈ [CONNECTION_ERROR; UNKNOWN]))).
Proof.
  intros Htap. unfold handle_error_state.
  destruct (state res); cbn;
    unfold and_next, do_tap;
    repeat match goal with
           | |- context [Num.Qltb ?a 0] =>
               let b := eval vm_compute in (Num.Qltb a 0) in
               change (Num.Qltb a 0) with b; cbn
           | |- context [dev_tap adb ?w ?a] =>
               let E := fresh in
               pose proof (Htap w a) as E;
               destruct (dev_tap adb w a) as [? ?]; cbn in E; subst; cbn
           end;
    (split; [by vm_compute | split; [done | by vm_compute]]).
Qed.

End WithDevice.

#[local] Existing Instance opencv.
Import Scenes.

Lemma get_current_state_outcome_witness :
  get_current_state quiet_device (fun _ => "error"%string)
    (Navigator.new no_templates) quiet_start 10 true
  = ({| world := tt; trace := [Screencap] |}, Navigator.new no_templates,
     {| state := UNKNOWN; confidence := 0;
        details := [("error"%string, DStr "error")];
        suggested_action := Some "retry"%string;
        recovery_steps := None |})
  /\ exists shot,
      do_screencap quiet_device quiet_start
      = ({| world := tt; trace := [Screencap] |}, shot)
      /\ ((detect_captured (Navigator.new no_templates) shot
           = Ok {| state := UNKNOWN; confidence := 0;
                   details := [("error"%string, DStr "error")];
                   suggested_action := Some "retry"%string;
                   recovery_steps := None |}
           /\ _current_state (Navigator.new no_templates)
              = Some {| state := UNKNOWN; confidence := 0;
                        details := [("error"%string, DStr "error")];
                        suggested_action := Some "retry"%string;
                        recovery_steps := None |}
           /\ _state_cache_time (Navigator.new no_templates) = 10%Q
           /\ (3 # 10 <= 0)%Q)
          \/ (exists e,
                detect_captured (Navigator.new no_templates) shot = Raise e
                /\ Navigator.new no_templates = Navigator.new no_templates
                /\ UNKNOWN = UNKNOWN
                /\ 0%Q = 0%Q
                /\ Some "retry"%string = Some "retry"%string)).
Proof.
  split; [reflexivity |].
  exact (get_current_state_outcome quiet_device (fun _ => "error"%string)
           (Navigator.new no_templates) quiet_start 10 _ _ _ eq_refl).
Defined.

Lemma handle_error_state_outcome_witness :
  (forall w arg, (dev_tap quiet_device w arg).2 = Ok tt)
  /\ (handle_error_state quiet_device (Navigator.new no_templates) quiet_start
        {| state := BLACK_SCREEN; confidence := 95 # 100; details := [];
           suggested_action := None; recovery_steps := None |}).2
     = Ok (bool_decide
             (BLACK_SCREEN ∈ [EXIT_MENU; CONNECTION_ERROR; CONFIRMATION_POPUP;
                              LOADING_SCREEN; UNKNOWN; GOVERNOR_PROFILE]))
  /\ ((handle_error_state quiet_device (Navigator.new no_templates) quiet_start
         {| state := BLACK_SCREEN; confidence := 95 # 100; details := [];
            suggested_action := None; recovery_steps := None |}).2 = Ok false ->
      (handle_error_state quiet_device (Navigator.new no_templates) quiet_start
         {| state := BLACK_SCREEN; confidence := 95 # 100; details := [];
            suggested_action := None; recovery_steps := None |}).1
      = quiet_start)
  /\ (is_error_state BLACK_SCREEN = true ->
      (handle_error_state quiet_device (Navigator.new no_templates) quiet_start
         {| state := BLACK_SCREEN; confidence := 95 # 100; details := [];
            suggested_action := None; recovery_steps := None |}).2
      = Ok (bool_decide (BLACK_SCREEN ∈ [CONNECTION_ERROR; UNKNOWN]))).
Proof.
  assert (H1 : forall w arg, (dev_tap quiet_device w arg).2 = Ok tt)
    by reflexivity.
  split; [exact H1 |].
  exact (handle_error_state_outcome quiet_device
           (Navigator.new no_templates) quiet_start
           {| state := BLACK_SCREEN; confidence := 95 # 100; details := [];
              suggested_action := None; recovery_steps := None |} H1).
Defined.

End NavigatorFacts.

(** ** The chat parser *)

Module ChatParserFacts.
Import PyStr Re ChatParser.

Lemma startswith_app_l (p q s : str) :
  startswith (p ++ q) s = true -> startswith p s = true.
Proof.
  revert s. induction p as [| a p IH]; intros s; [done |].
  destruct s as [| b s]; cbn; [done |].
  intros [-> Hs]%andb_true_iff. cbn. eauto.
Qed.

(** A string that contains [p ++ q] contains [p]. *)
Lemma contains_app_l (p q s : str) :
  contains (p ++ q) s = true -> contains p s = true.
Proof.
  induction s as [| c s IH].
  - cbn. rewrite !orb_false_r. apply startswith_app_l.
  - cbn [contains]. intros [Hs | Hc]%orb_true_iff.
    + apply startswith_app_l in Hs. by rewrite Hs.
    + rewrite (IH Hc). apply orb_true_r.
Qed.

Lemma contains_app_l_false (p q s : str) :
  contains p s = false -> contains (p ++ q) s = false.
Proof.
  intros Hp. destruct (contains (p ++ q) s) eqn:E; [| done].
  apply contains_app_l in E. congruence.
Qed.

Section WithUnicode.
Context `{UnicodeData}.

(** C5, as amended.  [extract_title_type] answers ["scientist"] for
    every message whose lower-case form contains none of ["jus"],
    ["duk"] and ["arch"]: so for every message without a title keyword,
    where ["scientist"] is the default. *)
Theorem extract_title_type_defaults_to_scientist (message : str) :
  contains (lit "jus") (lower message) = false ->
  contains (lit "duk") (lower message) = false ->
  contains (lit "arch") (lower message) = false ->
  extract_title_type message = lit "scientist".
Proof.
  intros Hj Hd Ha. unfold extract_title_type.
  rewrite Hj, Hd, Ha.
  rewrite (contains_app_l_false (lit "jus") (lit "tice")) by done.
  rewrite (contains_app_l_false (lit "duk") (lit "e")) by done.
  rewrite (contains_app_l_false (lit "arch") (lit "itect")) by done.
  cbn. by destruct (_ || _).
Qed.

(** With several keywords in a message the first of justice, duke,
    architect and scientist, in this order, is the answer. *)
Lemma extract_title_type_priority (message : str) :
  extract_title_type message
  = if contains (lit "jus") (lower message) then lit "justice"
    else if contains (lit "duk") (lower message) then lit "duke"
    else if contains (lit "arch") (lower message) then lit "architect"
    else lit "scientist".
Proof.
  unfold extract_title_type.
  destruct (contains (lit "jus") _) eqn:Hj; [by rewrite orb_true_r |].
  rewrite (contains_app_l_false (lit "jus") (lit "tice")) by done. cbn [orb].
  destruct (contains (lit "duk") _) eqn:Hd; [by rewrite orb_true_r |].
  rewrite (contains_app_l_false (lit "duk") (lit "e")) by done. cbn [orb].
  destruct (contains (lit "arch") _) eqn:Ha; [by rewrite orb_true_r |].
  rewrite (contains_app_l_false (lit "arch") (lit "itect")) by done. cbn [orb].
  by destruct (_ || _).
Qed.

(** C7.  For the OCR text ["[F28AlWATUZI scientist"], where the closing
    bracket of the tag was read as a lower-case l, the cleaning pass
    gives ["[F28A]WATUZI scientist"] and [parse_messages] gives one
    message, with tag ["F28A"], player ["WATUZI"] and message
    ["scientist"]. *)
Theorem parse_messages_repairs_bracket_loss :
  _clean_ocr_text (lit "[F28AlWATUZI scientist") = lit "[F28A]WATUZI scientist"
  /\ parse_messages (lit "[F28AlWATUZI scientist")
     = [{| alliance_tag := lit "F28A";
           player_name := lit "WATUZI";
           message := lit "scientist";
           timestamp := None;
           raw_text := lit "[F28A]WATUZI scientist" |}].
Proof. split; vm_compute; reflexivity. Qed.

(** Scenario A of the specification. *)
Example parse_messages_tagged_request :
  parse_messages (lit "[F28A]HolyDeeW: duke")
  = [{| alliance_tag := lit "F28A";
        player_name := lit "HolyDeeW";
        message := lit "duke";
        timestamp := None;
        raw_text := lit "[F28A]HolyDeeW: duke" |}].
Proof. vm_compute. reflexivity. Qed.

End WithUnicode.

#[local] Existing Instance ascii_tables.

Lemma extract_title_type_defaults_to_scientist_witness :
  contains (lit "jus") (lower (lit "hello")) = false
  /\ contains (lit "duk") (lower (lit "hello")) = false
  /\ contains (lit "arch") (lower (lit "hello")) = false
  /\ extract_title_type (lit "hello") = lit "scientist".
Proof.
  split; [reflexivity |]. split; [reflexivity |]. split; [reflexivity |].
  exact (extract_title_type_defaults_to_scientist (lit "hello")
           eq_refl eq_refl eq_refl).
Defined.

(** C5, as stated, fails: ["hello"] contains no title keyword and no
    abbreviation of one, and the answer is ["scientist"]; and in
    ["duke scientist"], with two candidates, the answer is not the
    fallback but ["duke"]. *)
Lemma extract_title_type_silent_default :
  forallb (fun kw => negb (contains kw (lower (lit "hello"))))
    (title_keywords ++ [lit "sci"; lit "arch"; lit "duk"; lit "jus"]) = true
  /\ extract_title_type (lit "hello") = lit "scientist"
  /\ extract_title_type (lit "duke scientist") = lit "duke".
Proof. vm_compute. repeat split. Qed.

End ChatParserFacts.

(** ** The chat parser: tags and names of the parsed messages *)

Module ChatMessageFacts.
Import PyStr Re ChatParser.

(** Replacing one character by another is a map over the string. *)
Lemma replace_char (a b : N) (s : str) :
  replace [a] [b] s = map (fun c => if (a =? c)%N then b else c) s.
Proof.
  unfold replace. induction s as [| c s IH]; [done |].
  cbn. rewrite andb_true_r. destruct (a =? c)%N; cbn; by rewrite IH.
Qed.

Lemma replace_all_map (table : list (N * N)) : forall s,
  replace_all table s
  = map (fun c => fold_left (fun c '(a, b) => if (a =? c)%N then b else c)
                    table c) s.
Proof.
  unfold replace_all.
  induction table as [| [a b] table IH]; intros s; cbn.
  - by rewrite map_id.
  - rewrite IH, replace_char, map_map. done.
Qed.

Lemma _normalize_tag_map (tag : str) : _normalize_tag tag = map tag_char tag.
Proof. apply replace_all_map. Qed.

Ltac decide_by_computing :=
  refine (bool_decide_unpack _ _); vm_compute; exact I.

Lemma tag_char_cases (c : N) :
  ((c ∈ tag_confusables)
   /\ tag_char c ∈ [48; 49; 50; 51; 52; 53; 54; 55; 56; 57]%N)
  \/ ((c ∉ tag_confusables) /\ tag_char c = c).
Proof.
  destruct (decide (c ∈ tag_confusables)) as [Hin | Hnin]; [left | right];
    (split; [done |]).
  - unfold tag_confusables in Hin. cbn in Hin.
    repeat (apply elem_of_cons in Hin as [-> | Hin];
            [match goal with
             | |- context [tag_char ?k] =>
                 let v := eval vm_compute in (tag_char k) in
                 change (tag_char k) with v
             end; decide_by_computing |]).
    by apply elem_of_nil in Hin.
  - unfold tag_char. cbn [circle_map app fold_left].
    repeat match goal with
           | |- context [(?a =? c)%N] =>
               destruct (N.eqb_spec a c);
               [subst c; exfalso; apply Hnin; decide_by_computing |]
           end.
    done.
Qed.

Lemma tag_char_digit (c : N) :
  c ∈ [48; 49; 50; 51; 52; 53; 54; 55; 56; 57]%N ->
  (c ∉ tag_confusables) /\ tag_char c = c.
Proof.
  intros Hin.
  repeat (apply elem_of_cons in Hin as [-> | Hin];
          [split; [intros Hc; apply (bool_decide_pack _) in Hc;
                   vm_compute in Hc; exact Hc
                  | vm_compute; reflexivity] |]).
  by apply elem_of_nil in Hin.
Qed.

Lemma tag_char_clean (c : N) : tag_char c ∉ tag_confusables.
Proof.
  destruct (tag_char_cases c) as [[_ Hd] | [Hc ->]]; [| done].
  by apply tag_char_digit in Hd as [? _].
Qed.

Lemma map_tag_char_fixed (s : str) :
  Forall (fun c => c ∉ tag_confusables) s -> map tag_char s = s.
Proof.
  intros Hs. induction Hs as [| c s Hc Hs IH]; [done |].
  cbn -[tag_char]. rewrite IH. f_equal.
  destruct (tag_char_cases c) as [[? _] | [_ ?]]; done.
Qed.

Lemma _normalize_tag_idem (tag : str) :
  _normalize_tag (_normalize_tag tag) = _normalize_tag tag.
Proof.
  rewrite !_normalize_tag_map. apply map_tag_char_fixed.
  apply Forall_map, Forall_forall. intros c _. apply tag_char_clean.
Qed.

(** X16.  [_normalize_tag] keeps the length of a tag; its result contains
    none of the characters that it replaces (the circled digits, [O],
    [o], [l] and [I]), so normalizing again changes nothing; and a tag
    without these characters is left as it is. *)
Theorem _normalize_tag_canonical (tag : str) :
  length (_normalize_tag tag) = length tag
  /\ Forall (fun c => c ∉ tag_confusables) (_normalize_tag tag)
  /\ _normalize_tag (_normalize_tag tag) = _normalize_tag tag
  /\ (Forall (fun c => c ∉ tag_confusables) tag -> _normalize_tag tag = tag).
Proof.
  split; [by rewrite _normalize_tag_map, length_map |].
  split.
  { rewrite _normalize_tag_map. apply Forall_map, Forall_forall.
    intros c _. apply tag_char_clean. }
  split; [apply _normalize_tag_idem |].
  intros Htag. rewrite _normalize_tag_map. by apply map_tag_char_fixed.
Qed.

Lemma drop_while_idem (p : N -> bool) (s : str) :
  drop_while p (drop_while p s) = drop_while p s.
Proof.
  induction s as [| c s IH]; [done |].
  cbn. destruct (p c) eqn:E; [done |]. cbn. by rewrite E.
Qed.

Lemma drop_while_snoc (p : N -> bool) (s : str) (c : N) :
  p c = false -> drop_while p (s ++ [c]) = drop_while p s ++ [c].
Proof.
  intros Hc. induction s as [| a s IH]; cbn; [by rewrite Hc |].
  by destruct (p a).
Qed.

Section WithUnicode.
Context `{UnicodeData}.

Lemma rstrip_idem (s : str) : rstrip (rstrip s) = rstrip s.
Proof. unfold rstrip. by rewrite rev_involutive, drop_while_idem. Qed.

Lemma rstrip_cons (c : N) (s : str) :
  isspace c = false -> rstrip (c :: s) = c :: rstrip s.
Proof.
  intros Hc. unfold rstrip. cbn [rev].
  by rewrite drop_while_snoc, rev_app_distr.
Qed.

(** Stripping a stripped string changes nothing. *)
Lemma strip_idem (s : str) : strip (strip s) = strip s.
Proof.
  unfold strip, lstrip.
  destruct (drop_while isspace s) as [| c t] eqn:E; [done |].
  assert (Hc : isspace c = false).
  { clear -E. induction s as [| a s IH]; [done |].
    cbn in E. destruct (isspace a) eqn:Ea; [auto |]. by inversion E; subst. }
  rewrite rstrip_cons by done. cbn [drop_while]. rewrite Hc.
  by rewrite rstrip_cons, rstrip_idem.
Qed.

Lemma _normalize_player_name_stripped (name : str) :
  strip (_normalize_player_name name) = _normalize_player_name name.
Proof. unfold _normalize_player_name. apply strip_idem. Qed.

Lemma fold_left_invariant {A S : Type} (I : S -> Prop) (f : S -> A -> S)
    (l : list A) (s : S) :
  (forall s x, I s -> I (f s x)) -> I s -> I (fold_left f l s).
Proof.
  intros Hf. revert s. induction l as [| x l IH]; intros s Hs; [done |].
  cbn. by apply IH, Hf.
Qed.

Lemma tagged_well_named (joined_text : str) :
  Forall well_named (tagged joined_text).1.
Proof.
  unfold tagged.
  apply (fold_left_invariant
           (fun acc : list ChatMessage * list (nat * nat) =>
              Forall well_named acc.1)); [| done].
  intros [messages ranges] mt Hacc. cbv zeta.
  case_bool_decide as Hn; cbn [negb andb]; [done |].
  destruct (negb _); cbn [fst]; [| done].
  apply Forall_app. split; [done |]. apply Forall_singleton.
  split; [done |]. split; [apply _normalize_player_name_stripped |].
  apply _normalize_tag_idem.
Qed.

Lemma untagged_well_named joined_text positions ranges messages :
  Forall well_named messages ->
  Forall well_named (untagged joined_text positions ranges messages).
Proof.
  unfold untagged. apply fold_left_invariant.
  intros acc [[title_start title_end] title] Hacc.
  destruct (existsb _ ranges); [done |]. cbv zeta.
  match goal with
  | |- context [if (2 <=? length ?name)%nat && _ then _ else _] =>
      set (player := name)
  end.
  destruct (Nat.leb_spec 2 (length player)) as [Hlen | ?]; cbn [andb];
    [| done].
  destruct (negb _); [| done]. destruct (existsb _ acc); [done |].
  apply Forall_app. split; [done |]. apply Forall_singleton.
  split; [| split].
  - cbn [player_name]. intros Hnil. rewrite Hnil in Hlen. cbn in Hlen. lia.
  - apply _normalize_player_name_stripped.
  - reflexivity.
Qed.

Lemma unique_spec (messages : list ChatMessage) :
  Forall well_named messages ->
  NoDup (map (fun m => lower (player_name m)) (unique messages))
  /\ Forall well_named (unique messages).
Proof.
  intros Hm. unfold unique.
  pose (I := fun acc : list str * list ChatMessage =>
    (forall key, key ∈ acc.1 <->
                 key ∈ map (fun m => lower (player_name m)) acc.2)
    /\ NoDup (map (fun m => lower (player_name m)) acc.2)
    /\ Forall well_named acc.2).
  assert (Hgen : forall l acc,
    Forall well_named l -> I acc ->
    I (fold_left
         (fun '(seen_players, unique_messages) msg =>
            let key := lower (player_name msg) in
            if existsb (str_eqb key) seen_players
            then (seen_players, unique_messages)
            else (key :: seen_players,
                  unique_messages ++
                    [{| alliance_tag := alliance_tag msg;
                        player_name := player_name msg;
                        message := _clean_message (message msg);
                        timestamp := None;
                        raw_text := raw_text msg |}]))
         l acc)).
  { induction l as [| msg l IH]; intros [seen out] Hl (Hkeys & Hnd & Hout);
      [done |].
    cbn [fold_left]. cbv zeta. cbn [fst snd] in *.
    apply Forall_cons in Hl as [Hmsg Hl].
    destruct (existsb _ seen) eqn:E; [by apply IH |].
    assert (Hfresh : lower (player_name msg) ∉ seen).
    { intros Hin. apply not_true_iff_false in E. apply E.
      apply existsb_exists. exists (lower (player_name msg)).
      split; [by apply list_elem_of_In | by apply bool_decide_eq_true_2]. }
    apply IH; [done |]. split; [| split]; cbn [fst snd].
    - intros key. rewrite map_app, elem_of_cons, elem_of_app. cbn.
      rewrite <- Hkeys, list_elem_of_singleton. tauto.
    - rewrite map_app. cbn. apply NoDup_app. split; [done |].
      split; [| apply NoDup_singleton].
      intros key Hin ->%list_elem_of_singleton. by apply Hkeys in Hin.
    - apply Forall_app. split; [done |]. by apply Forall_singleton. }
  destruct (Hgen messages ([], []) Hm) as (_ & Hnd & Hout); [| done].
  split; [done |]. split; [apply NoDup_nil_2 | done].
Qed.

(** X17.  No two messages that [parse_messages] returns have the same player
    name up to the case of the letters, and each has a name that is
    not empty and has no white space around it, and an alliance tag
    that [_normalize_tag] leaves as it is (none, for a request without
    a tag). *)
Theorem parse_messages_names (ocr_text : str) :
  NoDup (map (fun m => lower (player_name m)) (parse_messages ocr_text))
  /\ Forall
       (fun m =>
          player_name m <> []
          /\ strip (player_name m) = player_name m
          /\ _normalize_tag (alliance_tag m) = alliance_tag m)
       (parse_messages ocr_text).
Proof.
  unfold parse_messages. case_bool_decide; [split; constructor |].
  cbv zeta.
  match goal with |- context [tagged ?X] =>
    pose proof (tagged_well_named X) as Ht; destruct (tagged X) as [ms rs]
  end.
  apply unique_spec, untagged_well_named, Ht.
Qed.

(** [extract_title_type] answers with one of the four titles. *)
Lemma extract_title_type_range (message : str) :
  extract_title_type message
  ∈ [lit "justice"; lit "duke"; lit "architect"; lit "scientist"].
Proof.
  rewrite ChatParserFacts.extract_title_type_priority.
  repeat (destruct (contains _ _); [set_unfold; tauto |]).
  set_unfold; tauto.
Qed.

Lemma add_request_counted_known st k t :
  k ∈ [lit "justice"; lit "duke"; lit "architect"; lit "scientist"] ->
  Tracker.counted (Tracker.add_request st k t) = Tracker.counted st + 1.
Proof.
  intros Hk. unfold Tracker.counted, Tracker.add_request, Tracker.bump, str_eqb.
  cbn -[lit].
  repeat (apply elem_of_cons in Hk as [-> | Hk];
          [repeat case_bool_decide; try lia;
           try (exfalso;
                match goal with
                | E : lit _ = lit _ |- _ => vm_compute in E; discriminate
                | E : lit _ <> lit _ |- _ => apply E; reflexivity
                end) |]).
  by apply elem_of_nil in Hk.
Qed.

Lemma track_request_all_counted tracker now p tag k :
  k ∈ [lit "justice"; lit "duke"; lit "architect"; lit "scientist"] ->
  RemoteBot.all_counted tracker ->
  RemoteBot.all_counted (Tracker.track_request tracker now p tag k).1.
Proof.
  intros Hk Hall. unfold RemoteBot.all_counted in *. unfold Tracker.track_request.
  set (self1 := if bool_decide _ then _ else tracker).
  assert (Hps : Tracker.player_stats self1 = Tracker.player_stats tracker)
    by (unfold self1; by case_bool_decide).
  destruct (Tracker.seen_messages self1 !! _);
    cbn [fst Tracker.player_stats]; [by rewrite Hps |].
  rewrite Hps. apply map_Forall_insert_2; [| done].
  rewrite add_request_counted_known by done.
  cbn [Tracker.add_request Tracker.total_requests]. f_equal.
  destruct (Tracker.player_stats tracker !! _) as [st |] eqn:E.
  - specialize (Hall _ _ E). cbn beta in Hall. by destruct (_ && _).
  - by destruct (_ && _).
Qed.

(** X18.  The title monitor hands to [track_request] only the four titles
    that the statistics count: if every request of every player is
    counted under one of the four titles before the requests found in
    the chat are tracked, this is so afterwards. *)
Theorem monitor_counts_every_request tracker
    (times : list Z) (messages : list ChatMessage) :
  RemoteBot.all_counted tracker ->
  RemoteBot.all_counted
    (RemoteBot.track_found tracker
       (zip times (RemoteBot.find_title_requests messages))).
Proof.
  unfold RemoteBot.track_found, RemoteBot.find_title_requests.
  generalize (find_title_requests messages). intros found.
  revert tracker times.
  induction found as [| msg found IH]; intros tracker times Hall.
  - by destruct times.
  - destruct times as [| now times]; [done |]. cbn.
    apply IH, track_request_all_counted; [| done].
    apply extract_title_type_range.
Qed.

End WithUnicode.

#[local] Existing Instance ascii_tables.

Lemma monitor_counts_every_request_witness :
  RemoteBot.all_counted Tracker.init
  /\ RemoteBot.all_counted
       (RemoteBot.track_found Tracker.init
          (zip [1000]
             (RemoteBot.find_title_requests
                (parse_messages (lit "[F28A]HolyDeeW: duke"))))).
Proof.
  assert (H0 : RemoteBot.all_counted Tracker.init) by apply map_Forall_empty.
  split; [exact H0 |].
  exact (monitor_counts_every_request Tracker.init [1000]
           (parse_messages (lit "[F28A]HolyDeeW: duke")) H0).
Defined.

End ChatMessageFacts.

(** ** The chat parser: white space of the cleaned text *)

Module CleanTextFacts.
Import PyStr Re ChatParser.

Lemma drop_while_length (p : N -> bool) (s : str) :
  (length (drop_while p s) <= length s)%nat.
Proof.
  induction s as [| c s IH]; cbn; [lia |]. destruct (p c); cbn; lia.
Qed.

(** A greedy repetition without a bound takes the whole run. *)
Lemma rep_greedy_run (p : N -> bool) (s : str) : forall n caps,
  rep_greedy p 0 None n s caps (fun n _ caps => Some (n, caps))
  = Some ((n + (length s - length (drop_while p s)))%nat, caps).
Proof.
  induction s as [| c s IH]; intros n caps; cbn.
  - do 2 f_equal. lia.
  - destruct (p c) eqn:E; cbn.
    + rewrite IH. pose proof (drop_while_length p s). do 2 f_equal. lia.
    + do 2 f_equal. lia.
Qed.

Section WithUnicode.
Context `{UnicodeData}.

Lemma match_at_spaces (s : str) :
  match_at re_spaces s
  = match s with
    | c :: s' => if isspace c then Some (S (length s' - length (drop_while isspace s')), []) else None
    | [] => None
    end.
Proof.
  unfold match_at, re_spaces. cbn [m].
  destruct s as [| c s]; [done |]. cbn.
  destruct (isspace c); cbn; [| done]. by rewrite rep_greedy_run.
Qed.

(** The text after [re.sub(r'\s+', ' ', text)]: outside a run of white
    space, and inside one, with the rest of the run still to be passed. *)
Lemma sub_spaces_single_spaced (s : str) :
  single_spaced false (sub_go re_spaces (fun _ => [32%N]) 0 s) = true
  /\ single_spaced true
       (sub_go re_spaces (fun _ => [32%N])
          (length s - length (drop_while isspace s)) s) = true.
Proof.
  induction s as [| c s [IH0 IH1]].
  - cbn [sub_go length drop_while Nat.sub]. by rewrite match_at_spaces.
  - cbn [sub_go]. rewrite match_at_spaces.
    cbn [drop_while length]. destruct (isspace c) eqn:E.
    + pose proof (drop_while_length isspace s).
      replace (S (length s) - length (drop_while isspace s))%nat
        with (S (length s - length (drop_while isspace s))) by lia.
      cbn [Nat.eqb app Nat.sub]. rewrite Nat.sub_0_r.
      split; [| exact IH1].
      cbn [single_spaced].
      change (isspace 32) with true. cbn. exact IH1.
    + replace (S (length s) - length (c :: s))%nat with 0%nat by (cbn; lia).
      cbn [single_spaced]. rewrite E. by split.
Qed.

Lemma single_spaced_weaken (b : bool) (s : str) :
  single_spaced b s = true -> single_spaced false s = true.
Proof.
  destruct s as [| c s]; [done |]. cbn.
  destruct (isspace c); [| done].
  intros [[-> _]%andb_true_iff ->]%andb_true_iff. done.
Qed.

Lemma single_spaced_lstrip (s : str) :
  single_spaced false s = true -> single_spaced true (lstrip s) = true.
Proof.
  unfold lstrip. induction s as [| c s IH]; [done |].
  cbn. destruct (isspace c) eqn:E.
  - intros [_ Hs]%andb_true_iff. by apply single_spaced_weaken, IH in Hs.
  - intros Hs. cbn. by rewrite E.
Qed.

Lemma single_spaced_prefix (s t : str) : forall b,
  single_spaced b (s ++ t) = true -> single_spaced b s = true.
Proof.
  induction s as [| c s IH]; intros b; [done |].
  cbn. destruct (isspace c); [| apply IH].
  intros [-> Hs]%andb_true_iff. cbn. by apply IH.
Qed.

Lemma drop_while_suffix (p : N -> bool) (s : str) :
  exists l, s = l ++ drop_while p s.
Proof.
  induction s as [| c s [l IH]]; [by exists [] |].
  cbn. destruct (p c); [| by exists []].
  exists (c :: l). cbn. by rewrite <- IH.
Qed.

Lemma drop_while_head (p : N -> bool) (s : str) (c : N) (t : str) :
  drop_while p s = c :: t -> p c = false.
Proof.
  induction s as [| a s IH]; [done |].
  cbn. destruct (p a) eqn:E; [done |]. by intros [= <- _].
Qed.

Lemma rstrip_prefix (s : str) : exists t, s = rstrip s ++ t.
Proof.
  unfold rstrip. destruct (drop_while_suffix isspace (rev s)) as [l Hl].
  exists (rev l). rewrite <- rev_app_distr, <- Hl. by rewrite rev_involutive.
Qed.

Lemma rstrip_last (s : str) :
  rstrip s = [] \/ isspace (List.last (rstrip s) 0%N) = false.
Proof.
  unfold rstrip. destruct (drop_while isspace (rev s)) as [| c t] eqn:E;
    [by left | right].
  cbn. rewrite last_last. by apply drop_while_head in E.
Qed.

Lemma strip_ws_normal (s : str) :
  single_spaced false s = true -> ws_normal (strip s).
Proof.
  intros Hs. apply single_spaced_lstrip in Hs. unfold strip. split.
  - destruct (rstrip_prefix (lstrip s)) as [t Ht].
    rewrite Ht in Hs. by apply single_spaced_prefix in Hs.
  - apply rstrip_last.
Qed.

Lemma single_spaced_spaces (s : str) : forall b,
  single_spaced b s = true ->
  Forall (fun c => isspace c = true -> c = 32%N) s.
Proof.
  induction s as [| c s IH]; intros b; [constructor |].
  cbn [single_spaced]. destruct (isspace c) eqn:E.
  - intros [[Hc%N.eqb_eq _]%andb_true_iff Hs]%andb_true_iff.
    constructor; [done | by eapply IH].
  - intros Hs. constructor; [congruence | by eapply IH].
Qed.

(** X19.  The text that [_clean_ocr_text] returns has no white space at its
    ends, no white-space character other than the space (so no line
    break and no tab), and no two spaces in a row. *)
Theorem _clean_ocr_text_ws_normal (text : str) :
  ws_normal (_clean_ocr_text text)
  /\ Forall (fun c => isspace c = true -> c = 32%N) (_clean_ocr_text text).
Proof.
  assert (Hn : ws_normal (_clean_ocr_text text)).
  { unfold _clean_ocr_text. cbv zeta. apply strip_ws_normal.
    apply sub_spaces_single_spaced. }
  split; [exact Hn |]. destruct Hn as [Hs _].
  by eapply single_spaced_spaces.
Qed.

Lemma ws_normal_strip (s : str) : ws_normal s -> strip s = s.
Proof.
  intros [Hs Hl]. unfold strip.
  assert (Hls : lstrip s = s).
  { unfold lstrip. destruct s as [| c s]; [done |].
    cbn in *. destruct (isspace c); [| done].
    by rewrite andb_false_r in Hs. }
  rewrite Hls. destruct Hl as [-> | Hl]; [done |].
  unfold rstrip. destruct (rev s) as [| c t] eqn:E.
  { by rewrite <- (rev_involutive s), E. }
  assert (Hs' : s = rev t ++ [c]) by (by rewrite <- (rev_involutive s), E).
  rewrite Hs', last_last in Hl. cbn [drop_while]. rewrite Hl. cbn [rev].
  by rewrite Hs'.
Qed.

Lemma split_go_absent (sep : N) (s : str) : forall cur,
  sep ∉ s -> split_go [sep] 0 cur s = [rev cur ++ s].
Proof.
  induction s as [| c s IH]; intros cur Hs; cbn.
  - by rewrite app_nil_r.
  - apply not_elem_of_cons in Hs as [Hc Hs].
    destruct (N.eqb_spec sep c); [done |]. cbn.
    rewrite IH by done. cbn. by rewrite <- app_assoc.
Qed.

(** X20.  In [parse_messages] the cleaned text is one line: splitting it at
    line breaks, stripping the lines and joining them with spaces gives
    the cleaned text back, and the messages are those found in it. *)
Theorem parse_messages_single_line (ocr_text : str) :
  parse_messages ocr_text
  = if bool_decide (ocr_text = []) then []
    else
      let text := _clean_ocr_text ocr_text in
      unique (untagged text (title_positions text) (tagged text).2
                (tagged text).1).
Proof.
  unfold parse_messages. case_bool_decide; [done |]. cbv zeta.
  assert (Hn : ws_normal (_clean_ocr_text ocr_text)).
  { unfold _clean_ocr_text. cbv zeta.
    apply strip_ws_normal, sub_spaces_single_spaced. }
  pose proof (single_spaced_spaces _ _ (proj1 Hn)) as Hsp.
  set (text := _clean_ocr_text ocr_text) in *.
  assert (Hjoin :
    join [32%N]
      (map strip
         (List.filter (fun line => negb (bool_decide (strip line = [])))
            (split [10%N] (strip text)))) = text).
  { rewrite (ws_normal_strip text Hn). unfold split.
    rewrite split_go_absent.
    2:{ intros Hin. rewrite Forall_forall in Hsp.
        by specialize (Hsp _ Hin eq_refl). }
    cbn [rev app List.filter]. rewrite (ws_normal_strip text Hn).
    case_bool_decide as Ht; cbn; [done | by apply ws_normal_strip]. }
  rewrite Hjoin. by destruct (tagged text).
Qed.

End WithUnicode.

End CleanTextFacts.

(** ** The tracker: what counts as the same request *)

Module TrackerDedupFacts.
Import PyStr Tracker.

Section WithUnicode.
Context `{UnicodeData}.

(** X22.  Requests are compared by the normalized name of the player and the
    lower-case title: after a request that is new, and while the cache
    holds no more than 100 entries, a request that differs only in the
    letter case or the outer white space of the name, in the letter
    case of the title, or in the alliance tag answers [isNew = false],
    and its statistics are those of the first name. *)
Theorem track_request_same_after_normalizing self t1 t2 p p' tag tag' k k' :
  _normalize_name p = _normalize_name p' ->
  lower k = lower k' ->
  (track_request self t1 p tag k).2.1 = true ->
  (size (seen_messages (track_request self t1 p tag k).1) <= 100)%nat ->
  (track_request (track_request self t1 p tag k).1 t2 p' tag' k').2.1 = false
  /\ get_player_stats (track_request self t1 p tag k).1 p'
     = get_player_stats (track_request self t1 p tag k).1 p.
Proof.
  intros Hp Hk Hnew Hsz. split.
  - rewrite TrackerFacts.track_request_is_new, TrackerFacts.cache_at_small
      by done.
    assert (Hh : _get_message_hash p' k' = _get_message_hash p k)
      by (unfold _get_message_hash; by rewrite Hp, Hk).
    rewrite Hh, TrackerFacts.track_request_records by done. done.
  - unfold get_player_stats. by rewrite Hp.
Qed.

End WithUnicode.

#[local] Existing Instance ascii_tables.
Import Scenes.

Lemma track_request_same_after_normalizing_witness :
  _normalize_name bob = _normalize_name (lit " BOB ")
  /\ lower duke = lower (lit "Duke")
  /\ (track_request init 1000 bob [] duke).2.1 = true
  /\ (size (seen_messages (track_request init 1000 bob [] duke).1) <= 100)%nat
  /\ (track_request (track_request init 1000 bob [] duke).1 1001
        (lit " BOB ") (lit "F28A") (lit "Duke")).2.1 = false
  /\ get_player_stats (track_request init 1000 bob [] duke).1 (lit " BOB ")
     = get_player_stats (track_request init 1000 bob [] duke).1 bob.
Proof.
  assert (H1 : _normalize_name bob = _normalize_name (lit " BOB "))
    by reflexivity.
  assert (H2 : lower duke = lower (lit "Duke")) by reflexivity.
  assert (H3 : (track_request init 1000 bob [] duke).2.1 = true)
    by (vm_compute; reflexivity).
  assert (H4 : (size (seen_messages (track_request init 1000 bob [] duke).1)
                <= 100)%nat).
  { apply (bool_decide_unpack _). vm_compute. exact I. }
  split; [exact H1 |]. split; [exact H2 |]. split; [exact H3 |].
  split; [exact H4 |].
  exact (track_request_same_after_normalizing init 1000 1001 bob (lit " BOB ")
           [] (lit "F28A") duke (lit "Duke") H1 H2 H3 H4).
Defined.

End TrackerDedupFacts.

(** ** The navigator: popups *)

Module NavigatorPopupFacts.
Import Py Image GameState Recovery Navigator.

Section WithDevice.
Context `{OpenCV} {W : Type} (adb : Device W).

(** X23.  For the four states that [is_popup_state] accepts, the states for
    which the callers use it, [dismiss_popup] sends one tap and no key:
    on CANCEL for the exit dialog, on (700, 450) for a confirmation, on
    (1050, 180) for an event or a reward.  The escape key is its
    default for the other states only. *)
Theorem dismiss_popup_taps (self : GameNavigator) (r : @Run W)
    (res : StateDetectionResult) :
  is_popup_state (state res) = true ->
  exists pos sent,
    trace (dismiss_popup adb self r res).1 = trace r ++ sent
    /\ prefix sent [TapEv (SPos pos); SleepEv (SNum (3 # 10))]
    /\ sent <> []
    /\ pos = match state res with
             | EXIT_MENU => (779, 457)
             | CONFIRMATION_POPUP => (700, 450)
             | _ => (1050, 180)
             end.
Proof.
  intros Hpop. unfold dismiss_popup.
  assert (Hst : state res = EXIT_MENU \/ state res = CONFIRMATION_POPUP
                \/ state res = EVENT_POPUP \/ state res = REWARD_POPUP).
  { unfold is_popup_state in Hpop. apply bool_decide_eq_true_1 in Hpop.
    repeat (apply elem_of_cons in Hpop as [-> | Hpop]; [tauto |]).
    by apply elem_of_nil in Hpop. }
  destruct Hst as [-> | [-> | [-> | ->]]]; cbv zeta;
    repeat first [ rewrite bool_decide_eq_true_2 by reflexivity
                 | rewrite bool_decide_eq_false_2 by discriminate ];
    cbv iota; cbn [orb];
    unfold _click_cancel_exit_menu, and_next, do_tap, do_sleep;
    change (Num.Qltb (3 # 10) 0) with false; cbv iota;
    destruct (dev_tap adb _ _) as [w [[] | e]]; cbn [fst trace world];
    eexists _, _; rewrite <- ?app_assoc;
    (split; [reflexivity |]); (split; [| split; [| reflexivity]]);
    first [done | by eexists [_] | by eexists [] ].
Qed.

End WithDevice.

#[local] Existing Instance opencv.
Import Scenes.

Lemma dismiss_popup_taps_witness :
  is_popup_state EXIT_MENU = true
  /\ exists pos sent,
      trace (dismiss_popup quiet_device (Navigator.new no_templates)
               quiet_start
               {| state := EXIT_MENU; confidence := 95 # 100; details := [];
                  suggested_action := None; recovery_steps := None |}).1
      = trace quiet_start ++ sent
      /\ prefix sent [TapEv (SPos pos); SleepEv (SNum (3 # 10))]
      /\ sent <> []
      /\ pos = (779, 457).
Proof.
  split; [reflexivity |].
  exact (dismiss_popup_taps quiet_device (Navigator.new no_templates)
           quiet_start
           {| state := EXIT_MENU; confidence := 95 # 100; details := [];
              suggested_action := None; recovery_steps := None |} eq_refl).
Defined.

End NavigatorPopupFacts.
